(** * Axis ticket engine (src/app.py): shallow embedding and verification

    The development follows the Python source function by function:
    text helpers, the JSON values that tickets and advisory judgements are
    made of, the advisory client ([call_ai], [calculate_priority_score],
    [validate_and_enhance_ticket]), ticket creation ([create_ticket]), the
    Jira synchronisation, the ticket card with its lifecycle buttons, the
    handlers of [main] that create, import and list tickets, the dashboard's
    attention list, the audit log as the "Activity Log" tab reads it back,
    and what signing in and out does to the browser session.

    Conventions of the model:
    - a Python [str] is a [string] of bytes; [str.lower] lowers ASCII letters;
    - a JSON number is a rational ([Q]); NaN and the infinities that
      [json.loads] also accepts are outside the model;
    - a Python [dict] is an association list in insertion order, which is
      also the order [json.dumps] writes to the user's ticket file;
    - a raised exception is the [Raise] result; the session is an explicit
      [world] threaded through every stateful function;
    - writing the ticket file is taken to succeed ([save_user_tickets] has
      no failing case: a text that cannot be encoded or a full disk are
      outside the model), and the handler of the creation form is followed
      up to the optional synchronisation: the display of the analysis that
      comes after it writes nothing to the session. *)

From Stdlib Require Import QArith ZArith Lia Bool Ascii String.
From stdpp Require Import base list strings.

Set Warnings "-register-all".

Local Open Scope string_scope.

(** ** Text *)

Module Text.

Definition dquote : ascii := "034"%char.
Definition newline : ascii := "010"%char.

Definition is_upper (c : ascii) : bool :=
  (65 <=? nat_of_ascii c)%nat && (nat_of_ascii c <=? 90)%nat.

Definition lower_char (c : ascii) : ascii :=
  if is_upper c then ascii_of_nat (nat_of_ascii c + 32) else c.

(** [s.lower()] *)
Fixpoint lower (s : string) : string :=
  match s with
  | EmptyString => EmptyString
  | String c s' => String (lower_char c) (lower s')
  end.

(** [p in s] for two strings *)
Fixpoint str_in (p s : string) : bool :=
  String.prefix p s ||
  match s with
  | EmptyString => false
  | String _ s' => str_in p s'
  end.

(** [s.find(c)] for a one-character [c]: the first index, or -1 *)
Fixpoint find (c : ascii) (s : string) : Z :=
  match s with
  | EmptyString => (-1)%Z
  | String a s' =>
      if Ascii.eqb a c then 0%Z
      else let r := find c s' in if (r <? 0)%Z then (-1)%Z else (r + 1)%Z
  end.

(** [s.rfind(c)] for a one-character [c]: the last index, or -1 *)
Fixpoint rfind (c : ascii) (s : string) : Z :=
  match s with
  | EmptyString => (-1)%Z
  | String a s' =>
      let r := rfind c s' in
      if (0 <=? r)%Z then (r + 1)%Z
      else if Ascii.eqb a c then 0%Z else (-1)%Z
  end.

(** [s[start:stop]] for indices that are not negative: empty when
    [stop <= start], cut at the end of [s] *)
Definition slice (s : string) (start stop : Z) : string :=
  substring (Z.to_nat start) (Z.to_nat (stop - start)) s.

(** Bytewise lexicographic order, [s < t] on two strings *)
Fixpoint str_ltb (s t : string) : bool :=
  match s, t with
  | _, EmptyString => false
  | EmptyString, String _ _ => true
  | String a s', String b t' =>
      if (nat_of_ascii a <? nat_of_ascii b)%nat then true
      else if (nat_of_ascii b <? nat_of_ascii a)%nat then false
      else str_ltb s' t'
  end.

(** Several lines of text joined by line feeds, as in a triple-quoted
    literal *)
Fixpoint lines (l : list string) : string :=
  match l with
  | [] => EmptyString
  | [s] => s
  | s :: l' => s +:+ String newline (lines l')
  end.

(** A JSON text written with apostrophes where the text has double quotes *)
Fixpoint quoted (s : string) : string :=
  match s with
  | EmptyString => EmptyString
  | String c s' => String (if Ascii.eqb c "'"%char then dquote else c) (quoted s')
  end.

End Text.

Export Text.

(** ** JSON values and Python's view of them *)

Inductive json : Type :=
| JNull
| JBool (b : bool)
| JNum (q : Q)
| JStr (s : string)
| JArr (l : list json)
| JObj (d : list (string * json)).

(** A Python dict with text keys, in insertion order *)
Abbreviation dict := (list (string * json)).

Inductive exn : Type := KeyError | TypeError | ValueError | AttributeError.

Inductive result (A : Type) : Type :=
| Ok (a : A)
| Raise (e : exn).

Arguments Ok {A} a.
Arguments Raise {A} e.

Definition rbind {A B} (r : result A) (k : A -> result B) : result B :=
  match r with
  | Ok a => k a
  | Raise e => Raise e
  end.

(** [try: ... except Exception: return None] *)
Definition caught {A} (r : result A) : option A :=
  match r with
  | Ok a => Some a
  | Raise _ => None
  end.

Module Py.

(** A lookup in one of the constant tables of the module *)
Fixpoint lookup_key {A} (k : string) (l : list (string * A)) : option A :=
  match l with
  | [] => None
  | (k', v) :: l' => if String.eqb k k' then Some v else lookup_key k l'
  end.

(** [d[k]] read through [dict.get(k)]: [None] when the key is absent *)
Fixpoint dict_get (k : string) (d : dict) : option json :=
  match d with
  | [] => None
  | (k', v) :: d' => if String.eqb k k' then Some v else dict_get k d'
  end.

(** [d[k] = v]: in place when the key exists, appended otherwise *)
Fixpoint dict_set (k : string) (v : json) (d : dict) : dict :=
  match d with
  | [] => [(k, v)]
  | (k', v') :: d' =>
      if String.eqb k k' then (k, v) :: d' else (k', v') :: dict_set k v d'
  end.

(** [{**d, **e}] *)
Definition dict_update (d e : dict) : dict :=
  fold_left (fun acc kv => dict_set kv.1 kv.2 acc) e d.

(** [d.get(k, dflt)] *)
Definition get (k : string) (dflt : json) (d : dict) : json :=
  match dict_get k d with
  | Some v => v
  | None => dflt
  end.

(** [d[k]] *)
Definition item (k : string) (d : dict) : result json :=
  match dict_get k d with
  | Some v => Ok v
  | None => Raise KeyError
  end.

(** [v.get(k, dflt)] on a value that need not be a dict *)
Definition attr_get (k : string) (dflt : json) (v : json) : result json :=
  match v with
  | JObj d => Ok (get k dflt d)
  | _ => Raise AttributeError
  end.

Definition bool_num (b : bool) : Q := if b then 1%Q else 0%Q.

(** [a == b]: numbers and booleans compare by value, lists elementwise,
    dicts key by key *)
Fixpoint py_eq (a b : json) {struct a} : bool :=
  match a, b with
  | JNull, JNull => true
  | JBool x, JBool y => Bool.eqb x y
  | JBool x, JNum q => Qeq_bool (bool_num x) q
  | JNum p, JBool y => Qeq_bool p (bool_num y)
  | JNum p, JNum q => Qeq_bool p q
  | JStr s, JStr t => String.eqb s t
  | JArr l, JArr m =>
      (fix all2 (l m : list json) {struct l} : bool :=
         match l, m with
         | [], [] => true
         | x :: l', y :: m' => py_eq x y && all2 l' m'
         | _, _ => false
         end) l m
  | JObj d, JObj e =>
      Nat.eqb (length d) (length e) &&
      (fix each (d : dict) {struct d} : bool :=
         match d with
         | [] => true
         | (k, v) :: d' =>
             match dict_get k e with
             | Some w => py_eq v w
             | None => false
             end && each d'
         end) d
  | _, _ => false
  end.

(** [a != b] *)
Definition py_ne (a b : json) : bool := negb (py_eq a b).

(** [bool(v)] *)
Definition truthy (v : json) : bool :=
  match v with
  | JNull => false
  | JBool b => b
  | JNum q => negb (Qeq_bool q 0)
  | JStr s => negb (String.eqb s "")
  | JArr l => match l with [] => false | _ => true end
  | JObj d => match d with [] => false | _ => true end
  end.

(** [isinstance(v, dict)] *)
Definition is_dict (v : json) : bool :=
  match v with JObj _ => true | _ => false end.

(** [a < b]: defined between numbers (booleans included), between strings
    and between lists; a [TypeError] otherwise *)
Fixpoint py_lt (a b : json) {struct a} : result bool :=
  match a, b with
  | JBool x, JBool y => Ok (negb (Qle_bool (bool_num y) (bool_num x)))
  | JBool x, JNum q => Ok (negb (Qle_bool q (bool_num x)))
  | JNum p, JBool y => Ok (negb (Qle_bool (bool_num y) p))
  | JNum p, JNum q => Ok (negb (Qle_bool q p))
  | JStr s, JStr t => Ok (str_ltb s t)
  | JArr l, JArr m =>
      (fix lex (l m : list json) {struct l} : result bool :=
         match l, m with
         | [], [] => Ok false
         | [], _ :: _ => Ok true
         | _ :: _, [] => Ok false
         | x :: l', y :: m' => if py_eq x y then lex l' m' else py_lt x y
         end) l m
  | _, _ => Raise TypeError
  end.

End Py.

Export Py.

(** ** [json.loads]

    A recursive-descent reader of the JSON grammar: objects, arrays, strings
    with their escapes, numbers with fraction and exponent, [true], [false]
    and [null]. A repeated key keeps its first position and its last value,
    as a Python dict does. [None] stands for the [JSONDecodeError] that
    [json.loads] raises. An escaped code point becomes its UTF-8 bytes; the
    two escapes of a surrogate pair are not joined. *)

Module Json.

Definition is_ws (c : ascii) : bool :=
  let n := nat_of_ascii c in
  Nat.eqb n 32 || Nat.eqb n 9 || Nat.eqb n 10 || Nat.eqb n 13.

Fixpoint skip_ws (s : string) : string :=
  match s with
  | EmptyString => EmptyString
  | String c s' => if is_ws c then skip_ws s' else s
  end.

Definition digit_of (c : ascii) : option Z :=
  let n := nat_of_ascii c in
  if (48 <=? n)%nat && (n <=? 57)%nat then Some (Z.of_nat (n - 48)) else None.

Definition hex_of (c : ascii) : option nat :=
  let n := nat_of_ascii c in
  if (48 <=? n)%nat && (n <=? 57)%nat then Some (n - 48)%nat
  else if (97 <=? n)%nat && (n <=? 102)%nat then Some (n - 87)%nat
  else if (65 <=? n)%nat && (n <=? 70)%nat then Some (n - 55)%nat
  else None.

(** The UTF-8 bytes of a code point of the basic plane *)
Definition utf8 (cp : nat) : string :=
  if (cp <? 128)%nat then String (ascii_of_nat cp) EmptyString
  else if (cp <? 2048)%nat then
    String (ascii_of_nat (192 + cp / 64))
      (String (ascii_of_nat (128 + cp mod 64)) EmptyString)
  else
    String (ascii_of_nat (224 + cp / 4096))
      (String (ascii_of_nat (128 + (cp / 64) mod 64))
         (String (ascii_of_nat (128 + cp mod 64)) EmptyString)).

(** The body of a string literal, after its opening quote: the decoded text
    and what follows the closing quote *)
Fixpoint parse_string (s : string) : option (string * string) :=
  match s with
  | EmptyString => None
  | String c s' =>
      if Ascii.eqb c dquote then Some (EmptyString, s')
      else if Ascii.eqb c "\"%char then
        match s' with
        | String e s'' =>
            let simple (x : ascii) :=
              match parse_string s'' with
              | Some (t, r) => Some (String x t, r)
              | None => None
              end in
            if Ascii.eqb e dquote then simple dquote
            else if Ascii.eqb e "\"%char then simple "\"%char
            else if Ascii.eqb e "/"%char then simple "/"%char
            else if Ascii.eqb e "b"%char then simple "008"%char
            else if Ascii.eqb e "f"%char then simple "012"%char
            else if Ascii.eqb e "n"%char then simple "010"%char
            else if Ascii.eqb e "r"%char then simple "013"%char
            else if Ascii.eqb e "t"%char then simple "009"%char
            else if Ascii.eqb e "u"%char then
              match s'' with
              | String h1 (String h2 (String h3 (String h4 s4))) =>
                  match hex_of h1, hex_of h2, hex_of h3, hex_of h4 with
                  | Some a, Some b, Some c', Some d =>
                      match parse_string s4 with
                      | Some (t, r) =>
                          Some (utf8 (((a * 16 + b) * 16 + c') * 16 + d) +:+ t, r)
                      | None => None
                      end
                  | _, _, _, _ => None
                  end
              | _ => None
              end
            else None
        | EmptyString => None
        end
      else if (nat_of_ascii c <? 32)%nat then None
      else
        match parse_string s' with
        | Some (t, r) => Some (String c t, r)
        | None => None
        end
  end.

(** A run of decimal digits: their value, how many there are, the rest *)
Fixpoint digits (acc : Z) (n : nat) (s : string) : Z * nat * string :=
  match s with
  | EmptyString => (acc, n, s)
  | String c s' =>
      match digit_of c with
      | Some d => digits (acc * 10 + d)%Z (S n) s'
      | None => (acc, n, s)
      end
  end.

Definition pow10 (n : nat) : positive := Pos.pow 10 (Pos.of_nat n).

(** A JSON number: an optional minus sign, an integer part without a leading
    zero, an optional fraction and an optional exponent *)
Definition parse_number (s : string) : option (Q * string) :=
  let '(neg, s1) :=
    match s with
    | String "-"%char s' => (true, s')
    | _ => (false, s)
    end in
  let '(ip, ni, s2) := digits 0 0 s1 in
  let leading_zero :=
    match s1 with
    | String "0"%char _ => (1 <? ni)%nat
    | _ => false
    end in
  if Nat.eqb ni 0 || leading_zero then None
  else
    let '(m, nf, s3) :=
      match s2 with
      | String "."%char s' =>
          let '(m, nf, r) := digits ip 0 s' in
          if Nat.eqb nf 0 then (ip, 0%nat, s2) else (m, nf, r)
      | _ => (ip, 0%nat, s2)
      end in
    let '(eneg, e, s4) :=
      match s3 with
      | String c s' =>
          if Ascii.eqb c "e"%char || Ascii.eqb c "E"%char then
            let '(sg, s'') :=
              match s' with
              | String "-"%char r => (true, r)
              | String "+"%char r => (false, r)
              | _ => (false, s')
              end in
            let '(ev, ne, r) := digits 0 0 s'' in
            if Nat.eqb ne 0 then (false, 0%Z, s3) else (sg, ev, r)
          else (false, 0%Z, s3)
      | EmptyString => (false, 0%Z, s3)
      end in
    let mant := if neg then (- m)%Z else m in
    let den := if Nat.eqb nf 0 then 1%positive else pow10 nf in
    let q :=
      if (e =? 0)%Z then Qmake mant den
      else if eneg then Qmake mant (den * Pos.pow 10 (Z.to_pos e))
      else Qmake (mant * Z.pow 10 e) den in
    Some (Qred q, s4).

(** One JSON value at the head of [s], and the text after it. [fuel] bounds
    the number of nested and chained calls; every call takes at least one
    character, so the length of the text is enough. *)
Fixpoint parse_value (fuel : nat) (s : string) {struct fuel} : option (json * string) :=
  match fuel with
  | O => None
  | S fuel' =>
      match s with
      | EmptyString => None
      | String c rest =>
          if Ascii.eqb c "{"%char then
            match skip_ws rest with
            | String "}"%char r => Some (JObj [], r)
            | _ => parse_members fuel' [] rest
            end
          else if Ascii.eqb c "["%char then
            match skip_ws rest with
            | String "]"%char r => Some (JArr [], r)
            | _ => parse_elements fuel' [] rest
            end
          else if Ascii.eqb c dquote then
            match parse_string rest with
            | Some (t, r) => Some (JStr t, r)
            | None => None
            end
          else if String.prefix "null" s then Some (JNull, substring 4 (String.length s) s)
          else if String.prefix "true" s then Some (JBool true, substring 4 (String.length s) s)
          else if String.prefix "false" s then Some (JBool false, substring 5 (String.length s) s)
          else
            match parse_number s with
            | Some (q, r) => Some (JNum q, r)
            | None => None
            end
      end
  end
with parse_members (fuel : nat) (acc : dict) (s : string) {struct fuel} : option (json * string) :=
  match fuel with
  | O => None
  | S fuel' =>
      match skip_ws s with
      | String q s1 =>
          if Ascii.eqb q dquote then
            match parse_string s1 with
            | Some (k, s2) =>
                match skip_ws s2 with
                | String ":"%char s3 =>
                    match parse_value fuel' (skip_ws s3) with
                    | Some (v, s4) =>
                        match skip_ws s4 with
                        | String ","%char s5 => parse_members fuel' (dict_set k v acc) s5
                        | String "}"%char s5 => Some (JObj (dict_set k v acc), s5)
                        | _ => None
                        end
                    | None => None
                    end
                | _ => None
                end
            | None => None
            end
          else None
      | EmptyString => None
      end
  end
with parse_elements (fuel : nat) (acc : list json) (s : string) {struct fuel} : option (json * string) :=
  match fuel with
  | O => None
  | S fuel' =>
      match parse_value fuel' (skip_ws s) with
      | Some (v, s1) =>
          match skip_ws s1 with
          | String ","%char s2 => parse_elements fuel' (acc ++ [v]) s2
          | String "]"%char s2 => Some (JArr (acc ++ [v]), s2)
          | _ => None
          end
      | None => None
      end
  end.

(** [json.loads(s)] *)
Definition json_loads (s : string) : option json :=
  match parse_value (S (String.length s)) (skip_ws s) with
  | Some (v, r) =>
      match skip_ws r with
      | EmptyString => Some v
      | String _ _ => None
      end
  | None => None
  end.

End Json.

Export Json.

(** ** The session and its surroundings *)

(** What the engine consumes from outside: the runtime configuration, the
    two remote services, the clock and identifier source, and two Python
    built-ins whose exact output the engine never inspects. *)
Record env : Type := mkEnv {
  (** [get_openrouter_config]: the API key after [strip()] *)
  openrouter_api_key : string;
  (** The OpenRouter request of [call_ai] for a system and a user prompt:
      [None] when anything in the [try] block raises, else the content text
      of the first choice *)
  openrouter_request : string -> string -> option string;
  (** [get_jira_config]: base URL, e-mail and token all present *)
  jira_is_configured : bool;
  (** The issue-creation request for a ticket: [None] when building or
      sending it raises, else the decoded body of the response *)
  jira_request : dict -> option json;
  (** [str(uuid.uuid4())[:8]] at the n-th reading *)
  uuid4 : nat -> string;
  (** [datetime.now(timezone.utc).isoformat()] at the n-th reading *)
  utcnow : nat -> string;
  (** [str(v)] of a value that is not text, as an f-string renders it *)
  str_of : json -> string;
  (** [float(s)] of a text: [None] for the [ValueError] *)
  float_of_str : string -> option Q
}.

(** The state of one signed-in user *)
Record world : Type := mkWorld {
  (** [st.session_state.tickets] *)
  tickets : list dict;
  (** the user's ticket file, as last written by [save_user_tickets] *)
  ticket_file : list dict;
  (** the user's audit log, one entry per line, oldest first *)
  audit_log : list string;
  (** the prompts handed to [call_ai], oldest first *)
  ai_calls : list (string * string);
  (** how many times the clock or the identifier source was read *)
  readings : nat
}.

Definition M (A : Type) : Type := world -> result A * world.

Definition ret {A} (a : A) : M A := fun w => (Ok a, w).

Definition bind {A B} (m : M A) (k : A -> M B) : M B :=
  fun w =>
    match m w with
    | (Ok a, w') => k a w'
    | (Raise e, w') => (Raise e, w')
    end.

Definition lift {A} (r : result A) : M A := fun w => (r, w).

Notation "'let*' x ':=' m 'in' k" := (bind m (fun x => k))
  (at level 10, x name, m at level 100, k at level 200, only parsing).

(** [try: body except Exception: handler], the state changes of the body
    kept *)
Definition try_except {A} (body : M A) (handler : M A) : M A :=
  fun w =>
    match body w with
    | (Ok a, w') => (Ok a, w')
    | (Raise _, w') => handler w'
    end.

Definition set_tickets (l : list dict) : M unit :=
  fun w => (Ok tt, mkWorld l (ticket_file w) (audit_log w) (ai_calls w) (readings w)).

Definition get_tickets : M (list dict) := fun w => (Ok (tickets w), w).

Definition tick : M nat :=
  fun w => (Ok (readings w),
            mkWorld (tickets w) (ticket_file w) (audit_log w) (ai_calls w) (S (readings w))).

Definition now (e : env) : M string := let* n := tick in ret (utcnow e n).

Definition new_id (e : env) : M string := let* n := tick in ret (uuid4 e n).

(** An interpolated [{value}] of an f-string *)
Definition fmt (e : env) (v : json) : string :=
  match v with
  | JStr s => s
  | _ => str_of e v
  end.

(** ** Data persistence functions *)

Definition load_user_tickets : M (list dict) := fun w => (Ok (ticket_file w), w).

Definition save_user_tickets : M unit :=
  fun w => (Ok tt, mkWorld (tickets w) (tickets w) (audit_log w) (ai_calls w) (readings w)).

Definition append_audit_log (e : env) (action details : string) : M unit :=
  let* timestamp := now e in
  let log_entry := "[" +:+ timestamp +:+ "] " +:+ action in
  let log_entry :=
    if String.eqb details "" then log_entry else log_entry +:+ " | " +:+ details in
  fun w => (Ok tt, mkWorld (tickets w) (ticket_file w) (audit_log w ++ [log_entry])
                     (ai_calls w) (readings w)).

(** ** AI functions *)

Definition nl : string := String newline EmptyString.

(** The text [json.dumps] writes for the three canned dicts of [call_ai] *)
Definition mock_priority : string := quoted
  ("{'calculated_priority': 'High', 'priority_score': 8.5, " +:+
   "'reasoning': 'Multiple servers affected with potential safety concerns. Impact scope is significant.', " +:+
   "'factors': {'impact_scope': 'rack', 'service_impact': 'partial_outage', " +:+
   "'urgency': 'within_24h', 'safety': 'moderate'}, " +:+
   "'recommended_actions': ['Immediate assessment of affected rack', " +:+
   "'Check power distribution and cooling', 'Verify network connectivity', " +:+
   "'Schedule maintenance window if needed']}").

Definition mock_validation : string := quoted
  ("{'is_complete': false, 'completeness_score': 0.65, " +:+
   "'missing_fields': ['root_cause_analysis', 'estimated_time', 'required_parts'], " +:+
   "'suggestions': {'summary': 'Add specific server IDs and error codes', " +:+
   "'description': 'Include recent logs, error patterns, and troubleshooting steps already attempted', " +:+
   "'priority': 'Consider impact on critical services'}, " +:+
   "'auto_enhanced': {'summary': 'GPU Server Cluster Offline - Rack 3B-04 - Thermal Event', " +:+
   "'description': 'Multiple GPU servers in rack 3B-04 have gone offline. Initial assessment suggests cooling system failure. Requires immediate investigation to prevent hardware damage. Affected: srv-gpu-301 through srv-gpu-308.', " +:+
   "'estimated_duration': '2-4 hours', " +:+
   "'required_skills': ['thermal management', 'GPU hardware', 'HVAC systems']}}").

Definition mock_generic : string := quoted
  ("{'summary': 'Server hardware issue requiring attention', 'priority': 'Medium', " +:+
   "'description': 'Issue detected requiring technical investigation and resolution.', " +:+
   "'steps': ['Verify server status in monitoring system', " +:+
   "'Check physical connections and indicators', 'Review system logs for errors', " +:+
   "'Test hardware components', 'Document findings and resolution'], " +:+
   "'confidence': 0.75}").

(** [get_openrouter_config]: mock mode when no key is configured *)
Definition use_mock (e : env) : bool := String.eqb (openrouter_api_key e) "".

Definition log_ai_call (system_prompt user_prompt : string) : M unit :=
  fun w => (Ok tt, mkWorld (tickets w) (ticket_file w) (audit_log w)
                     (ai_calls w ++ [(system_prompt, user_prompt)]) (readings w)).

(** What [call_ai(system_prompt, user_prompt)] returns; the temperature only
    travels in the request *)
Definition call_ai_reply (e : env) (system_prompt user_prompt : string) : string :=
  if use_mock e then
    if str_in "calculate priority score" (lower user_prompt) then mock_priority
    else if str_in "validate" (lower user_prompt) || str_in "complete" (lower user_prompt)
    then mock_validation
    else mock_generic
  else
    match openrouter_request e system_prompt user_prompt with
    | Some content => if String.eqb content "" then "{}" else content
    | None => "{}"
    end.

(** [call_ai], with the invocation recorded *)
Definition call_ai (e : env) (system_prompt user_prompt : string) : M string :=
  let* _ := log_ai_call system_prompt user_prompt in
  ret (call_ai_reply e system_prompt user_prompt).

(** The shared [try] block of the two judgement functions: the text from the
    first opening brace to the last closing brace, decoded; [None] when there
    is no brace or decoding raises *)
Definition decode_response (response : string) : option json :=
  if str_in "{" response then
    let json_str :=
      slice response (find "{"%char response) (rfind "}"%char response + 1) in
    json_loads json_str
  else None.

Definition priority_system_prompt : string := lines [
  "You are an expert data center operations AI. Analyze tickets and calculate objective priority scores.";
  "    ";
  "Consider:";
  "1. Impact Scope: How many systems/services affected?";
  "2. Service Impact: Is service degraded or completely down?";
  "3. Urgency: Is this causing active issues or preventive?";
  "4. Safety: Any safety concerns for personnel or equipment?";
  "";
  "Return JSON with: calculated_priority, priority_score (0-10), reasoning, factors, recommended_actions"].

Definition priority_user_prompt (e : env) (ticket : dict) : string :=
  "Analyze this ticket and calculate objective priority:" +:+ nl +:+ nl +:+
  "Summary: " +:+ fmt e (get "summary" (JStr "") ticket) +:+ nl +:+
  "Description: " +:+ fmt e (get "description" (JStr "") ticket) +:+ nl +:+
  "User Priority: " +:+ fmt e (get "user_priority" (JStr "Not specified") ticket) +:+ nl +:+
  "Location: " +:+ fmt e (get "rack" (JStr "") ticket) +:+ " / " +:+
  fmt e (get "server" (JStr "") ticket) +:+ nl +:+ nl +:+
  "Calculate the actual priority score based on objective factors.".

Definition default_priority_analysis (ticket : dict) : json :=
  JObj [("calculated_priority", get "user_priority" (JStr "Medium") ticket);
        ("priority_score", JNum 5.0);
        ("reasoning", JStr "Unable to calculate detailed score");
        ("factors", JObj []);
        ("recommended_actions", JArr [])].

Definition calculate_priority_score (e : env) (ticket : dict) : M json :=
  let* response := call_ai e priority_system_prompt (priority_user_prompt e ticket) in
  match decode_response response with
  | Some v => ret v
  | None => ret (default_priority_analysis ticket)
  end.

Definition validation_system_prompt : string := lines [
  "You are an expert data center ticket quality analyst. Evaluate tickets for completeness and suggest enhancements.";
  "";
  "Check for:";
  "- Clear, specific problem description";
  "- Actionable information";
  "- Relevant technical details";
  "- Proper categorization";
  "";
  "Return JSON with: is_complete, completeness_score, missing_fields, suggestions, auto_enhanced"].

Definition validation_user_prompt (e : env) (ticket : dict) : string :=
  "Validate and enhance this ticket:" +:+ nl +:+ nl +:+
  "Summary: " +:+ fmt e (get "summary" (JStr "") ticket) +:+ nl +:+
  "Description: " +:+ fmt e (get "description" (JStr "") ticket) +:+ nl +:+
  "Server: " +:+ fmt e (get "server" (JStr "") ticket) +:+ nl +:+
  "Rack: " +:+ fmt e (get "rack" (JStr "") ticket) +:+ nl +:+
  "Priority: " +:+ fmt e (get "priority" (JStr "") ticket) +:+ nl +:+ nl +:+
  "Provide specific suggestions for improvement.".

Definition default_validation : json :=
  JObj [("is_complete", JBool true);
        ("completeness_score", JNum 0.7);
        ("missing_fields", JArr []);
        ("suggestions", JObj []);
        ("auto_enhanced", JObj [])].

Definition validate_and_enhance_ticket (e : env) (ticket : dict) : M json :=
  let* response := call_ai e validation_system_prompt (validation_user_prompt e ticket) in
  match decode_response response with
  | Some v => ret v
  | None => ret default_validation
  end.

(** ** Ticket management functions *)

Definition create_ticket (e : env) (username : string) (ticket_data : dict) : M dict :=
  let* id := new_id e in
  let* created_at := now e in
  let ticket :=
    dict_update
      [("id", JStr id);
       ("created_at", JStr created_at);
       ("created_by", JStr username);
       ("status", JStr "Draft");
       ("user_priority", get "priority" (JStr "Medium") ticket_data)]
      ticket_data in
  let* validation := validate_and_enhance_ticket e ticket in
  let ticket := dict_set "validation" validation ticket in
  let* priority_analysis := calculate_priority_score e ticket in
  let ticket := dict_set "priority_analysis" priority_analysis ticket in
  let* user_priority := lift (item "user_priority" ticket) in
  let* calculated_priority := lift (attr_get "calculated_priority" user_priority priority_analysis) in
  let ticket := dict_set "calculated_priority" calculated_priority ticket in
  let* priority_score := lift (attr_get "priority_score" (JNum 5.0) priority_analysis) in
  let ticket := dict_set "priority_score" priority_score ticket in
  let* calculated := lift (item "calculated_priority" ticket) in
  let* declared := lift (item "user_priority" ticket) in
  if py_ne calculated declared then
    let ticket := dict_set "status" (JStr "AI Review") ticket in
    let ticket := dict_set "needs_priority_review" (JBool true) ticket in
    ret ticket
  else ret ticket.

(** ** Jira integration functions *)

Definition JIRA_PRIORITY_MAP : list (string * string) :=
  [("Critical", "Highest"); ("High", "High"); ("Medium", "Medium"); ("Low", "Low")].

(** [JIRA_PRIORITY_MAP.get(key, "Medium")]: a list or a dict cannot be
    hashed *)
Definition jira_priority_of (key : json) : result string :=
  match key with
  | JStr s => Ok (match lookup_key s JIRA_PRIORITY_MAP with Some v => v | None => "Medium" end)
  | JArr _ | JObj _ => Raise TypeError
  | _ => Ok "Medium"
  end.

(** [float(v)] *)
Definition py_float (e : env) (v : json) : result Q :=
  match v with
  | JNum q => Ok q
  | JBool b => Ok (bool_num b)
  | JStr s => match float_of_str e s with Some q => Ok q | None => Raise ValueError end
  | _ => Raise TypeError
  end.

(** The body of the [try] block of [create_jira_issue], reduced to what can
    raise and to the key it returns; the payload itself travels inside
    [jira_request] *)
Definition jira_issue_body (e : env) (ticket : dict) : result json :=
  rbind (jira_priority_of
           (get "calculated_priority" (get "priority" (JStr "Medium") ticket) ticket))
    (fun jira_priority =>
  let priority_score := get "priority_score" (JNum 0) ticket in
  let priority_score := if is_dict priority_score then JNum 0 else priority_score in
  rbind (attr_get "reasoning" (JStr "N/A") (get "priority_analysis" (JObj []) ticket))
    (fun reasoning =>
  rbind (py_float e priority_score) (fun score =>
  rbind (item "id" ticket) (fun ticket_id =>
  rbind (match jira_request e ticket with
         | Some jira_data => Ok jira_data
         | None => Raise ValueError
         end) (fun jira_data =>
  attr_get "key" JNull jira_data))))).

(** [create_jira_issue(ticket)]: the issue key, or [JNull] for [None] *)
Definition create_jira_issue (e : env) (ticket : dict) : json :=
  if negb (jira_is_configured e) then JNull
  else
    match caught (jira_issue_body e ticket) with
    | Some jira_key => jira_key
    | None => JNull
    end.

(** [ticket[k] = v] on the ticket object that sits at index [i] of the
    session list: every holder of the object sees the change *)
Definition set_field (i : nat) (k : string) (v : json) : M unit :=
  fun w =>
    match tickets w !! i with
    | Some t => set_tickets (<[i := dict_set k v t]> (tickets w)) w
    | None => (Ok tt, w)
    end.

Definition ticket_at (i : nat) : M dict :=
  fun w =>
    match tickets w !! i with
    | Some t => (Ok t, w)
    | None => (Raise KeyError, w)
    end.

(** [sync_ticket_to_jira(ticket, username)] for the ticket at index [i] of
    the session list *)
Definition sync_ticket_to_jira (e : env) (i : nat) : M bool :=
  if negb (jira_is_configured e) then ret false
  else
    let* ticket := ticket_at i in
    let jira_key := create_jira_issue e ticket in
    if truthy jira_key then
      let* _ := set_field i "jira_key" jira_key in
      let* synced_at := now e in
      let* _ := set_field i "jira_synced_at" (JStr synced_at) in
      let* _ := save_user_tickets in
      let* ticket_id := lift (item "id" ticket) in
      let* _ := append_audit_log e
                  ("Synced ticket " +:+ fmt e ticket_id +:+ " to Jira as " +:+ fmt e jira_key) "" in
      ret true
    else ret false.

(** ** The ticket card and the detail view *)

(** The score as the card, the detail view and the creation form read it *)
Definition displayed_score (e : env) (ticket : dict) : result Q :=
  let score := get "priority_score" (JNum 0) ticket in
  let score := if is_dict score then JNum 0 else score in
  py_float e score.

(** [max(0.0, min(1.0, x))] *)
Definition clamp01 (x : Q) : Q :=
  let m := if Qle_bool 1 x then 1%Q else x in
  if Qle_bool m 0 then 0%Q else m.

(** The completeness as [show_ticket_detail] reads it *)
Definition detail_completeness (e : env) (ticket : dict) : result Q :=
  let validation := get "validation" (JObj []) ticket in
  rbind (attr_get "completeness_score" (JNum 0) validation) (fun completeness =>
  let completeness := if is_dict completeness then JNum 0.7 else completeness in
  rbind (py_float e completeness) (fun x => Ok (clamp01 x))).

(** [show_ticket_detail(ticket, ...)], reduced to its reads of the score and
    of the completeness: the two numbers it displays *)
Definition show_ticket_detail (e : env) (ticket : dict) : result (Q * Q) :=
  rbind (displayed_score e ticket) (fun score =>
  rbind (detail_completeness e ticket) (fun completeness =>
  Ok (score, completeness))).

(** [len(v)] *)
Definition py_len (v : json) : result nat :=
  match v with
  | JStr s => Ok (String.length s)
  | JArr l => Ok (length l)
  | JObj d => Ok (length d)
  | _ => Raise TypeError
  end.

(** [v[:limit] + "..." if len(v) > limit else v], for what it raises: only a
    text can be cut and extended *)
Definition preview (limit : nat) (v : json) : result unit :=
  rbind (py_len v) (fun n =>
  if (limit <? n)%nat then
    match v with
    | JStr _ => Ok tt
    | _ => Raise TypeError
    end
  else Ok tt).

(** The completeness test of the card: [completeness < 0.8] on the stored
    value, 1.0 when absent *)
Definition card_completeness_low (ticket : dict) : result bool :=
  let validation := get "validation" (JObj []) ticket in
  rbind (attr_get "completeness_score" (JNum 1.0) validation) (fun completeness =>
  py_lt completeness (JNum 0.8)).

(** The body of a full card: the score shown and whether the completeness
    warning is shown, with every read on the way that can raise *)
Definition card_body (e : env) (ticket : dict) : result (Q * bool) :=
  rbind (displayed_score e ticket) (fun score =>
  rbind (attr_get "reasoning" (JStr "") (get "priority_analysis" (JObj []) ticket))
    (fun reasoning =>
  rbind (if truthy reasoning then
           rbind (py_len reasoning) (fun n =>
           if (0 <? n)%nat then preview 120 reasoning else Ok tt)
         else Ok tt) (fun _ =>
  rbind (preview 150 (get "description" (JStr "") ticket)) (fun _ =>
  rbind (card_completeness_low ticket) (fun low =>
  Ok (score, low)))))).

(** The local [status] of [display_ticket_card]: the stored status, or
    "Draft" when it is not text *)
Definition card_status (ticket : dict) : result string :=
  rbind (item "status" ticket) (fun status =>
  Ok (match status with JStr s => s | _ => "Draft" end)).

(** The buttons of the card that act on the ticket store *)
Inductive button : Type := SyncJira | Approve | Start | Complete | Delete.

(** Whether the card renders the button *)
Definition offered (e : env) (status : string) (jira_key : json) (b : button) : bool :=
  match b with
  | SyncJira => negb (truthy jira_key) && jira_is_configured e
  | Approve => String.eqb status "Draft" || String.eqb status "AI Review"
  | Start => String.eqb status "Approved"
  | Complete => String.eqb status "In Progress"
  | Delete => true
  end.

(** [[t for t in tickets if t["id"] != ticket_id]] *)
Fixpoint without_id (ticket_id : json) (l : list dict) : result (list dict) :=
  match l with
  | [] => Ok []
  | t :: l' =>
      rbind (item "id" t) (fun id =>
      rbind (without_id ticket_id l') (fun r =>
      Ok (if py_ne id ticket_id then t :: r else r)))
  end.

(** The block under a pressed button *)
Definition press (e : env) (i : nat) (ticket_id : json) (b : button) : M unit :=
  match b with
  | SyncJira =>
      let* _ := sync_ticket_to_jira e i in ret tt
  | Approve =>
      let* _ := set_field i "status" (JStr "Approved") in
      let* _ := set_field i "needs_priority_review" (JBool false) in
      let* _ := save_user_tickets in
      append_audit_log e ("Approved ticket " +:+ fmt e ticket_id) ""
  | Start =>
      let* _ := set_field i "status" (JStr "In Progress") in
      let* started_at := now e in
      let* _ := set_field i "started_at" (JStr started_at) in
      let* _ := save_user_tickets in
      append_audit_log e ("Started work on ticket " +:+ fmt e ticket_id) ""
  | Complete =>
      let* _ := set_field i "status" (JStr "Completed") in
      let* completed_at := now e in
      let* _ := set_field i "completed_at" (JStr completed_at) in
      let* _ := save_user_tickets in
      append_audit_log e ("Completed ticket " +:+ fmt e ticket_id) ""
  | Delete =>
      let* all := get_tickets in
      let* kept := lift (without_id ticket_id all) in
      let* _ := set_tickets kept in
      let* _ := save_user_tickets in
      append_audit_log e ("Deleted ticket " +:+ fmt e ticket_id) ""
  end.

(** The reads at the head of [display_ticket_card]: the locals
    [ticket_id], [status] and [jira_key], and the fields the header shows *)
Definition card_header (ticket : dict) : result (json * string * json) :=
  rbind (item "id" ticket) (fun ticket_id =>
  rbind (card_status ticket) (fun status =>
  let jira_key := get "jira_key" (JStr "") ticket in
  rbind (item "summary" ticket) (fun _ =>
  rbind (item "created_by" ticket) (fun _ =>
  Ok (ticket_id, status, jira_key))))).

(** [display_ticket_card(ticket, username, compact)] for the ticket at index
    [i] of the session list, in a run where the user has pressed [pressed]
    (at most one button is pressed in a run). The header reads come first,
    then the body of a full card, then the buttons; a button that is not
    rendered cannot be pressed and does nothing. The detail view that may
    follow the buttons is [show_ticket_detail]. *)
Definition display_ticket_card (e : env) (i : nat) (compact : bool)
    (pressed : option button) : M unit :=
  let* ticket := ticket_at i in
  let* header := lift (card_header ticket) in
  let '(ticket_id, status, jira_key) := header in
  if compact then ret tt
  else
    let* _ := lift (card_body e ticket) in
    match pressed with
    | Some b => if offered e status jira_key b then press e i ticket_id b else ret tt
    | None => ret tt
    end.

(** [if ticket.get("needs_priority_review")], as the card, the dashboard and
    the creation form read the flag *)
Definition needs_priority_review (ticket : dict) : bool :=
  truthy (get "needs_priority_review" JNull ticket).

(** ** The handlers of [main] *)

Definition insert_first (t : dict) : M unit :=
  fun w => set_tickets (t :: tickets w) w.

(** The three creation buttons of the form *)
Inductive create_button : Type := CreateTicket | CreateAndSync | CreateAndEmail.

(** The outcome a handler shows to the user *)
Inductive outcome : Type :=
| Rejected (message : string)
| Created (ticket : dict).

(** The [ticket_data] the form builds *)
Definition form_ticket_data (summary description server rack user_priority : string) : dict :=
  [("summary", JStr summary);
   ("description", JStr description);
   ("server", JStr server);
   ("rack", JStr rack);
   ("priority", JStr user_priority)].

(** The "Create Ticket" tab once one of its buttons is pressed: the five
    widgets hold text. The analysis the page shows after a creation is not
    part of the model. *)
Definition submit_form (e : env) (username : string)
    (summary description server rack user_priority : string)
    (b : create_button) : M outcome :=
  if String.eqb summary "" || String.eqb description "" ||
     String.eqb server "" || String.eqb rack "" then
    ret (Rejected "Please fill in all required fields")
  else
    let ticket_data := form_ticket_data summary description server rack user_priority in
    let* new_ticket := create_ticket e username ticket_data in
    let* _ := insert_first new_ticket in
    let* _ := save_user_tickets in
    let* new_id := lift (item "id" new_ticket) in
    let* new_summary := lift (item "summary" new_ticket) in
    let* _ := append_audit_log e ("Created ticket " +:+ fmt e new_id) (fmt e new_summary) in
    let* _ := match b with
              | CreateTicket => ret false
              | CreateAndSync | CreateAndEmail => sync_ticket_to_jira e 0
              end in
    ret (Created new_ticket).

(** [row.get(column, dflt)] on a row of the uploaded table *)
Definition row_get (column : string) (dflt : json) (row : dict) : json :=
  get column dflt row.

Definition row_ticket_data (row : dict) : dict :=
  [("server", row_get "server" (JStr "unknown") row);
   ("rack", row_get "rack" (JStr "unknown") row);
   ("summary", row_get "issue" (row_get "summary" (JStr "Imported ticket") row) row);
   ("description", row_get "description" (JStr "") row);
   ("priority", row_get "priority" (JStr "Medium") row)].

(** The loop of the "Import CSV" tab over the rows of the table: the number
    of tickets imported *)
Fixpoint import_rows (e : env) (username : string) (sync : bool)
    (rows : list dict) (imported_count : nat) : M nat :=
  match rows with
  | [] => ret imported_count
  | row :: rows' =>
      let* n :=
        try_except
          (let* new_ticket := create_ticket e username (row_ticket_data row) in
           let* _ := insert_first new_ticket in
           let* _ := if sync then sync_ticket_to_jira e 0 else ret false in
           ret (S imported_count))
          (ret imported_count) in
      import_rows e username sync rows' n
  end.

Definition import_csv (e : env) (username : string) (sync : bool)
    (rows : list dict) : M nat :=
  let* imported_count := import_rows e username sync rows 0 in
  let* _ := save_user_tickets in
  let* _ := append_audit_log e
              ("Bulk imported " +:+ fmt e (JNum (inject_Z (Z.of_nat imported_count))) +:+
               " tickets from CSV") "" in
  ret imported_count.

(** "Refresh Data" *)
Definition refresh : M unit :=
  let* loaded := load_user_tickets in set_tickets loaded.

(** The sort orders of the "Tickets" tab *)
Inductive sort_order : Type := ByScore | Newest | Oldest | ByStatus.

(** [[t for t in l if t["status"] == status_filter]] *)
Fixpoint filter_status (status_filter : string) (l : list dict) : result (list dict) :=
  match l with
  | [] => Ok []
  | t :: l' =>
      rbind (item "status" t) (fun st =>
      rbind (filter_status status_filter l') (fun r =>
      Ok (if py_eq st (JStr status_filter) then t :: r else r)))
  end.

(** [[t for t in l if t.get("calculated_priority", t.get("priority")) == priority_filter]] *)
Definition filter_priority (priority_filter : string) (l : list dict) : list dict :=
  filter (fun t => py_eq (get "calculated_priority" (get "priority" JNull t) t)
                         (JStr priority_filter) = true) l.

(** One step of a stable sort: [x], which stood before every element of the
    sorted [l], goes before the first element that may not precede it *)
Fixpoint insert_sorted (reverse : bool) (x : json * dict) (l : list (json * dict))
    : result (list (json * dict)) :=
  match l with
  | [] => Ok [x]
  | y :: l' =>
      rbind (if reverse then py_lt x.1 y.1 else py_lt y.1 x.1) (fun y_first =>
      if y_first then rbind (insert_sorted reverse x l') (fun r => Ok (y :: r))
      else Ok (x :: y :: l'))
  end.

Fixpoint sort_keyed (reverse : bool) (l : list (json * dict)) : result (list (json * dict)) :=
  match l with
  | [] => Ok []
  | x :: l' => rbind (sort_keyed reverse l') (insert_sorted reverse x)
  end.

Fixpoint with_keys (key : dict -> result json) (l : list dict) : result (list (json * dict)) :=
  match l with
  | [] => Ok []
  | t :: l' =>
      rbind (key t) (fun k =>
      rbind (with_keys key l') (fun r => Ok ((k, t) :: r)))
  end.

(** [l.sort(key=key, reverse=reverse)]: the keys are taken first, the order
    is the stable one of [<] on the keys, and it raises when a comparison
    it makes raises *)
Definition sort_by (key : dict -> result json) (reverse : bool) (l : list dict)
    : result (list dict) :=
  rbind (with_keys key l) (fun keyed =>
  rbind (sort_keyed reverse keyed) (fun sorted =>
  Ok (map snd sorted))).

(** The list of the "Tickets" tab: the two filters ([None] for "All"), then
    the sort *)
Definition list_tickets (status_filter priority_filter : option string)
    (sort_by_choice : sort_order) (session : list dict) : result (list dict) :=
  rbind (match status_filter with
         | Some s => filter_status s session
         | None => Ok session
         end) (fun filtered =>
  let filtered :=
    match priority_filter with
    | Some p => filter_priority p filtered
    | None => filtered
    end in
  match sort_by_choice with
  | ByScore => sort_by (fun t => Ok (get "priority_score" (JNum 0) t)) true filtered
  | Newest => sort_by (item "created_at") true filtered
  | Oldest => sort_by (item "created_at") false filtered
  | ByStatus => sort_by (item "status") false filtered
  end).

(** What the user does in a session *)
Inductive event : Type :=
| Press (i : nat) (compact : bool) (b : option button)
| Submit (summary description server rack user_priority : string) (b : create_button)
| Import (rows : list dict) (sync : bool)
| Refresh.

Definition run_event (e : env) (username : string) (ev : event) : M unit :=
  match ev with
  | Press i compact b => display_ticket_card e i compact b
  | Submit summary description server rack user_priority b =>
      let* _ := submit_form e username summary description server rack user_priority b in
      ret tt
  | Import rows sync =>
      let* _ := import_csv e username sync rows in ret tt
  | Refresh => refresh
  end.

(** A session: the events in order; an event that raises ends its own run
    only, and the next one starts from the state it left *)
Fixpoint run_events (e : env) (username : string) (evs : list event) (w : world) : world :=
  match evs with
  | [] => w
  | ev :: evs' => run_events e username evs' (run_event e username ev w).2
  end.

(** ** Priority scoring weights *)

Definition PRIORITY_WEIGHTS : list (string * list (string * Z)) :=
  [("impact_scope", [("single_server", 1); ("rack", 3); ("row", 5); ("datacenter", 10)]);
   ("service_impact", [("none", 0); ("degraded", 2); ("partial_outage", 5); ("full_outage", 10)]);
   ("urgency", [("scheduled", 1); ("next_maintenance", 2); ("within_24h", 5); ("immediate", 10)]);
   ("safety", [("none", 0); ("minor", 3); ("moderate", 7); ("critical", 10)])]%Z.

(** [PRIORITY_WEIGHTS[factor][level]], when both keys exist *)
Definition weight (factor level : string) : option Z :=
  match lookup_key factor PRIORITY_WEIGHTS with
  | Some levels => lookup_key level levels
  | None => None
  end.

(** Modelled from the spec: the Priority Model's combined score. src/app.py
    declares the table [PRIORITY_WEIGHTS] and has no function that reads it,
    so the combination of the four weights is missing from the source. The
    specification (4.1) leaves it open and names three admissible choices:
    the normalized sum, the maximum and the weighted average; an unknown or
    missing level counts as the lowest-weight level of its factor. *)
Inductive combination : Type :=
| NormalizedSum
| Maximum
| WeightedAverage (c_scope c_service c_urgency c_safety : nat).

(** Modelled from the spec: the weight of a level, the lowest weight of the
    factor standing for an unknown level *)
Definition level_weight (factor level : string) : Z :=
  match weight factor level with
  | Some w => w
  | None =>
      match lookup_key factor PRIORITY_WEIGHTS with
      | Some ((_, w) :: levels) => fold_left Z.min (map snd levels) w
      | _ => 0%Z
      end
  end.

(** Modelled from the spec: the three combinations, each on the scale from 0
    to 10 of the weights *)
Definition combine (c : combination) (w1 w2 w3 w4 : Z) : Q :=
  match c with
  | NormalizedSum => Qmake (w1 + w2 + w3 + w4) 4
  | Maximum => inject_Z (Z.max (Z.max w1 w2) (Z.max w3 w4))
  | WeightedAverage c1 c2 c3 c4 =>
      Qmake (Z.of_nat c1 * w1 + Z.of_nat c2 * w2 + Z.of_nat c3 * w3 + Z.of_nat c4 * w4)
            (Z.to_pos (Z.of_nat (c1 + c2 + c3 + c4)))
  end.

(** Modelled from the spec: the score of one level per factor *)
Definition priority_model_score (c : combination)
    (impact_scope service_impact urgency safety : string) : Q :=
  combine c (level_weight "impact_scope" impact_scope)
            (level_weight "service_impact" service_impact)
            (level_weight "urgency" urgency)
            (level_weight "safety" safety).

(** The weights grow strictly along the list *)
Fixpoint increasing (l : list Z) : bool :=
  match l with
  | x :: l' =>
      match l' with
      | y :: _ => (x <? y)%Z && increasing l'
      | [] => true
      end
  | [] => true
  end.

(** ** Notions the statements use *)

(** The world after one more recorded advisory call *)
Definition logged (system_prompt user_prompt : string) (w : world) : world :=
  mkWorld (tickets w) (ticket_file w) (audit_log w)
          (ai_calls w ++ [(system_prompt, user_prompt)]) (readings w).

(** What [validate_and_enhance_ticket] and [calculate_priority_score]
    return *)
Definition validation_judgement (e : env) (ticket : dict) : json :=
  match decode_response
          (call_ai_reply e validation_system_prompt (validation_user_prompt e ticket)) with
  | Some v => v
  | None => default_validation
  end.

Definition priority_judgement (e : env) (ticket : dict) : json :=
  match decode_response
          (call_ai_reply e priority_system_prompt (priority_user_prompt e ticket)) with
  | Some v => v
  | None => default_priority_analysis ticket
  end.

(** The dict literal at the head of [create_ticket], the identifier being
    the [n]-th reading and the time the next one *)
Definition initial_ticket (e : env) (username : string) (ticket_data : dict) (n : nat) : dict :=
  dict_update
    [("id", JStr (uuid4 e n));
     ("created_at", JStr (utcnow e (S n)));
     ("created_by", JStr username);
     ("status", JStr "Draft");
     ("user_priority", get "priority" (JStr "Medium") ticket_data)]
    ticket_data.

(** The world [create_ticket] leaves: two readings and two advisory calls *)
Definition after_creation (e : env) (t0 t1 : dict) (w : world) : world :=
  mkWorld (tickets w) (ticket_file w) (audit_log w)
          ((ai_calls w ++ [(validation_system_prompt, validation_user_prompt e t0)])
             ++ [(priority_system_prompt, priority_user_prompt e t1)])
          (S (S (readings w))).

(** The stored score is a number between 0 and 10 *)
Definition score_in_range (ticket : dict) : Prop :=
  match dict_get "priority_score" ticket with
  | Some (JNum q) => (0 <= q)%Q /\ (q <= 10)%Q
  | _ => False
  end.

(** The place of a status on the path from creation to completion *)
Definition rank (status : string) : option nat :=
  if String.eqb status "Draft" || String.eqb status "AI Review" then Some 0%nat
  else if String.eqb status "Approved" then Some 1%nat
  else if String.eqb status "In Progress" then Some 2%nat
  else if String.eqb status "Completed" then Some 3%nat
  else None.

(** The ticket carries the identifier [id] *)
Definition has_id (id : string) (ticket : dict) : Prop :=
  match dict_get "id" ticket with
  | Some v => py_eq v (JStr id) = true
  | None => False
  end.

(** The phrase that selects the canned priority judgement in mock mode *)
Definition priority_phrase : string := "calculate priority score".

(** The text of a value, lowered, does not contain the phrase *)
Definition phrase_free (e : env) (v : json) : Prop :=
  str_in priority_phrase (lower (fmt e v)) = false.

(** ** A sample session

    Concrete surroundings on which the statements below are exercised. *)

Module Sample.

(** Surroundings with an advisory client that answers [reply] to every
    prompt and a Jira that answers [jira]; an empty [key] means mock mode *)
Definition surroundings (key : string) (reply : option string) (jira : option json) : env :=
  mkEnv key (fun _ _ => reply) true (fun _ => jira)
        (fun n => if Nat.even n then "0a1b2c3d" else "4e5f6a7b")
        (fun n => "2024-05-01T10:00:0" +:+ String (ascii_of_nat (48 + n)) "+00:00")
        (fun _ => "None")
        (fun _ => None).

Definition mock : env := surroundings "" None None.

Definition empty_world : world := mkWorld [] [] [] [] 0.

Definition ticket_data : dict :=
  form_ticket_data "Fan failure" "Fan 3 of srv-12 stopped" "srv-12" "R4" "High".

(** A stored ticket in the given status *)
Definition stored (id status : string) : dict :=
  [("id", JStr id);
   ("created_at", JStr "2024-05-01T09:00:00+00:00");
   ("created_by", JStr "tech1");
   ("status", JStr status);
   ("user_priority", JStr "High");
   ("summary", JStr "Fan failure");
   ("description", JStr "Fan 3 of srv-12 stopped");
   ("server", JStr "srv-12");
   ("rack", JStr "R4");
   ("priority", JStr "High");
   ("validation", default_validation);
   ("priority_analysis", default_priority_analysis [("user_priority", JStr "High")]);
   ("calculated_priority", JStr "High");
   ("priority_score", JNum 5.0)].

Definition session (l : list dict) : world := mkWorld l l [] [] 0.

End Sample.

(** The full card of the ticket can be drawn: its header and body reads
    succeed *)
Definition full_card_renders (e : env) (ticket : dict) : Prop :=
  (exists header, card_header ticket = Ok header) /\
  (exists body, card_body e ticket = Ok body).

(** The world after the user presses [b] on the full card of the ticket at
    index [i] *)
Definition after_press (e : env) (i : nat) (b : button) (w : world) : world :=
  (display_ticket_card e i false (Some b) w).2.

(** The world a lifecycle button leaves: the ticket at [i] replaced, the
    file written, one audit entry more, [n] readings more *)
Definition transitioned (i : nat) (t' : dict) (entry : string) (n : nat) (w : world) : world :=
  mkWorld (<[i := t']> (tickets w)) (<[i := t']> (tickets w))
          (audit_log w ++ [entry]) (ai_calls w) (n + readings w).

(** No ticket of the session or of the file carries the identifier [id], and
    at least [n0] readings have been taken *)
Definition absent (id : string) (n0 : nat) (w : world) : Prop :=
  Forall (fun t => ~ has_id id t) (tickets w) /\
  Forall (fun t => ~ has_id id t) (ticket_file w) /\
  (n0 <= readings w)%nat.

(** The computation keeps the invariant [I], raising or not, and what it
    returns satisfies [R] *)
Definition keeps {A} (I : world -> Prop) (R : A -> Prop) (m : M A) : Prop :=
  forall w, I w -> I (m w).2 /\ forall a, (m w).1 = Ok a -> R a.

(** The character occurs in the text *)
Fixpoint has_char (c : ascii) (s : string) : bool :=
  match s with
  | EmptyString => false
  | String a s' => Ascii.eqb a c || has_char c s'
  end.

(** The text is empty or ends with the character *)
Fixpoint ends_with (c : ascii) (s : string) : bool :=
  match s with
  | EmptyString => true
  | String a s' =>
      match s' with
      | EmptyString => Ascii.eqb a c
      | String _ _ => ends_with c s'
      end
  end.

(** The line [append_audit_log] writes for an action at a given time *)
Definition audit_entry (timestamp action details : string) : string :=
  let log_entry := "[" +:+ timestamp +:+ "] " +:+ action in
  if String.eqb details "" then log_entry else log_entry +:+ " | " +:+ details.

(** The ticket holds the five fields the import takes from a row of the
    table *)
Definition imported_from (row ticket : dict) : Prop :=
  forall k, k ∈ ["server"; "rack"; "summary"; "description"; "priority"] ->
            dict_get k ticket = dict_get k (row_ticket_data row).

(** The ticket has a status of the lifecycle, at the place [n] or further *)
Definition ranked (n : nat) (ticket : dict) : Prop :=
  exists status m,
    dict_get "status" ticket = Some (JStr status) /\ rank status = Some m /\ (n <= m)%nat.

(** The field [k] of the ticket reads [v], and the ticket is at the place
    [n] of the lifecycle or further if [n] is not the first place *)
Definition frozen_at (n : nat) (k : string) (v : option json) (ticket : dict) : Prop :=
  ((0 < n)%nat -> ranked n ticket) /\ dict_get k ticket = v.

(** Every ticket of the session or of the file that carries the identifier
    [id] satisfies [P], and at least [n0] readings have been taken *)
Definition guarded (P : dict -> Prop) (id : string) (n0 : nat) (w : world) : Prop :=
  Forall (fun t => has_id id t -> P t) (tickets w) /\
  Forall (fun t => has_id id t -> P t) (ticket_file w) /\
  (n0 <= readings w)%nat.

(** Whether the "Tickets" tab lists the ticket under the two filters *)
Definition shown (status_filter priority_filter : option string) (ticket : dict) : bool :=
  match status_filter with
  | Some s =>
      match dict_get "status" ticket with
      | Some st => py_eq st (JStr s)
      | None => false
      end
  | None => true
  end &&
  match priority_filter with
  | Some p => py_eq (get "calculated_priority" (get "priority" JNull ticket) ticket) (JStr p)
  | None => true
  end.

(** The stored score of a ticket when it is a number *)
Definition numeric_score (ticket : dict) : option Q :=
  match get "priority_score" (JNum 0) ticket with
  | JNum q => Some q
  | _ => None
  end.

(** Two keyed tickets in the order of a list sorted by score, highest
    first *)
Definition key_ge (a b : json * dict) : Prop :=
  exists p q, a.1 = JNum p /\ b.1 = JNum q /\ (q <= p)%Q.

(** Every element stands before those it may precede *)
Fixpoint descending (l : list (json * dict)) : Prop :=
  match l with
  | [] => True
  | x :: l' => Forall (key_ge x) l' /\ descending l'
  end.

(** ** Signing in and out

    What [login_page], [logout] and the head of [main] do to
    [st.session_state], which lives as long as the browser session, and to
    the ticket files of the users. *)

Module Browser.

Record user : Type := mkUser {
  password : string;
  role : string;
  name : string;
  permissions : list string;
  description : string
}.

Definition USERS : list (string * user) :=
  [("tech1",
    mkUser "tech123" "Technician" "Alex Rivera"
      ["create"; "view"; "start"; "complete"; "comment"]
      "Field technician - Creates tickets, works on approved tasks");
   ("tech2",
    mkUser "tech123" "Technician" "Jordan Chen"
      ["create"; "view"; "start"; "complete"; "comment"]
      "Field technician - Creates tickets, works on approved tasks");
   ("engineer1",
    mkUser "eng123" "Engineer" "Sam Taylor"
      ["create"; "view"; "approve"; "edit"; "prioritize"; "assign"; "comment"]
      "Data center engineer - Reviews AI suggestions, approves tickets, assigns priority");
   ("admin",
    mkUser "admin123" "Admin" "Admin User" ["all"]
      "System administrator - Full access to all features and user management")].

(** The keys of [st.session_state] the engine uses; [tickets] is [None]
    while the key does not exist *)
Record session_state : Type := mkSession {
  logged_in : bool;
  username : option string;
  user_info : option user;
  tickets : option (list dict)
}.

(** A browser session that has just been opened *)
Definition fresh : session_state := mkSession false None None None.

(** The ticket file of each user: [None] when it does not exist or cannot
    be decoded *)
Definition files : Type := string -> option (list dict).

(** The "Sign In" button of [login_page] *)
Definition login_page (username password : string) (s : session_state) : session_state :=
  match lookup_key username USERS with
  | Some u =>
      if String.eqb (Browser.password u) password
      then mkSession true (Some username) (Some u) (tickets s)
      else s
  | None => s
  end.

Definition logout (s : session_state) : session_state :=
  mkSession false None None (tickets s).

Definition load_user_tickets (disk : files) (username : string) : list dict :=
  match disk username with
  | Some l => l
  | None => []
  end.

Definition save_user_tickets (disk : files) (username : string) (l : list dict) : files :=
  fun u => if String.eqb u username then Some l else disk u.

(** The name [get_user_file] interpolates for the signed-in user *)
Definition current_user (s : session_state) : string :=
  match username s with
  | Some u => u
  | None => "None"
  end.

(** The head of [main]: nothing happens before a sign-in; after it the
    tickets are loaded if the session has none *)
Definition main (disk : files) (s : session_state) : session_state :=
  if negb (logged_in s) then s
  else
    match tickets s with
    | Some _ => s
    | None =>
        mkSession (logged_in s) (username s) (user_info s)
          (Some (load_user_tickets disk (current_user s)))
    end.

(** [save_user_tickets(username, st.session_state.tickets)], as every
    handler that changes a ticket calls it *)
Definition save_session (disk : files) (s : session_state) : files :=
  match tickets s with
  | Some l => save_user_tickets disk (current_user s) l
  | None => disk
  end.

End Browser.

(** ** The audit log as text

    [append_audit_log] keeps the log in a text file, one entry per line;
    [get_audit_log] and the "Activity Log" tab read the lines back. A line
    feed is written as it is, as on a POSIX system. *)

Definition bytes (l : list nat) : string :=
  fold_right (fun n s => String (ascii_of_nat n) s) EmptyString l.

(** The characters [str.strip] removes, in UTF-8: the ASCII controls 9 to 13
    and 28 to 31, the space, U+0085, U+00A0, U+1680, U+2000 to U+200A,
    U+2028, U+2029, U+202F, U+205F and U+3000 *)
Definition whitespace : list string :=
  map bytes
    [[9]; [10]; [11]; [12]; [13]; [28]; [29]; [30]; [31]; [32];
     [194; 133]; [194; 160]; [225; 154; 128];
     [226; 128; 128]; [226; 128; 129]; [226; 128; 130]; [226; 128; 131];
     [226; 128; 132]; [226; 128; 133]; [226; 128; 134]; [226; 128; 135];
     [226; 128; 136]; [226; 128; 137]; [226; 128; 138];
     [226; 128; 168]; [226; 128; 169]; [226; 128; 175]; [226; 129; 159];
     [227; 128; 128]]%nat.

(** What follows [p] in [s], when [s] starts with [p] *)
Fixpoint strip_prefix (p s : string) : option string :=
  match p with
  | EmptyString => Some s
  | String a p' =>
      match s with
      | String b s' => if Ascii.eqb a b then strip_prefix p' s' else None
      | EmptyString => None
      end
  end.

(** What follows the first character of [s], when it is one of [l] *)
Fixpoint skip_one (l : list string) (s : string) : option string :=
  match l with
  | [] => None
  | p :: l' =>
      match strip_prefix p s with
      | Some r => Some r
      | None => skip_one l' s
      end
  end.

Fixpoint lstrip_fuel (n : nat) (s : string) : string :=
  match n with
  | O => s
  | S n' =>
      match skip_one whitespace s with
      | Some r => lstrip_fuel n' r
      | None => s
      end
  end.

(** [s.lstrip()] *)
Definition lstrip (s : string) : string := lstrip_fuel (String.length s) s.

(** [s] consists of white space *)
Definition is_blank (s : string) : bool := String.eqb (lstrip s) "".

(** [s.rstrip()] *)
Fixpoint rstrip (s : string) : string :=
  match s with
  | EmptyString => EmptyString
  | String a s' => if is_blank (String a s') then EmptyString else String a (rstrip s')
  end.

(** [s.strip()] *)
Definition strip (s : string) : string := rstrip (lstrip s).

(** [s.split(c)] for a one-character [c] *)
Fixpoint str_split (c : ascii) (s : string) : list string :=
  match s with
  | EmptyString => [EmptyString]
  | String a s' =>
      if Ascii.eqb a c then EmptyString :: str_split c s'
      else
        match str_split c s' with
        | h :: t => String a h :: t
        | [] => [String a EmptyString]
        end
  end.

(** [s.split(c, 1)] when it has two parts *)
Fixpoint split_once (c : ascii) (s : string) : option (string * string) :=
  match s with
  | EmptyString => None
  | String a s' =>
      if Ascii.eqb a c then Some (EmptyString, s')
      else
        match split_once c s' with
        | Some (h, t) => Some (String a h, t)
        | None => None
        end
  end.

(** [s.replace(c, "")] for a one-character [c] *)
Fixpoint remove_char (c : ascii) (s : string) : string :=
  match s with
  | EmptyString => EmptyString
  | String a s' => if Ascii.eqb a c then remove_char c s' else String a (remove_char c s')
  end.

Definition carriage_return : ascii := "013"%char.

(** The text [read_text] returns for the bytes of a file: a carriage
    return, with or without a line feed after it, reads as a line feed *)
Fixpoint universal_newlines (s : string) : string :=
  match s with
  | EmptyString => EmptyString
  | String a s' =>
      if Ascii.eqb a carriage_return then
        match s' with
        | String b s'' =>
            if Ascii.eqb b newline then String newline (universal_newlines s'')
            else String newline (universal_newlines s')
        | EmptyString => String newline EmptyString
        end
      else String a (universal_newlines s')
  end.

(** The audit file after the entries have been appended one by one, each
    append writing back what it read followed by the new line *)
Definition audit_file (entries : list string) : string :=
  fold_left (fun existing entry => universal_newlines existing +:+ entry +:+ nl) entries
            EmptyString.

(** [l[-limit:]] *)
Definition py_tail {A} (limit : Z) (l : list A) : list A :=
  if (0 <? limit)%Z then drop (length l - Z.to_nat limit) l
  else drop (Z.to_nat (- limit)) l.

(** [get_audit_log(username, limit)]: no file exists before the first
    entry *)
Definition get_audit_log (limit : Z) (w : world) : list string :=
  match audit_log w with
  | [] => []
  | entries =>
      py_tail limit (str_split newline (strip (universal_newlines (audit_file entries))))
  end.

(** The time the "Activity Log" tab shows for the time of a line, given
    what [datetime.fromisoformat(timestamp).strftime("%Y-%m-%d %H:%M:%S")]
    evaluates to, [None] when it raises: the text as it was written is shown
    only when it cannot be read as a time *)
Definition time_str (strftime : string -> option string) (timestamp : string) : string :=
  match strftime timestamp with
  | Some s => s
  | None => timestamp
  end.

(** What the "Activity Log" tab shows for a line: the time and the message;
    nothing for a blank line or a line without a closing bracket *)
Definition log_line (strftime : string -> option string) (entry : string)
  : option (string * string) :=
  if String.eqb (strip entry) "" then None
  else
    match split_once "]"%char entry with
    | Some (timestamp, message) =>
        Some (time_str strftime (remove_char "["%char timestamp), strip message)
    | None => None
    end.

(** The lines of the "Activity Log" tab, the newest first *)
Definition activity_log (strftime : string -> option string) (w : world)
  : list (string * string) :=
  omap (log_line strftime) (reverse (get_audit_log 200 w)).

(** The last character of a text *)
Fixpoint last_char (s : string) : option ascii :=
  match s with
  | EmptyString => None
  | String a s' =>
      match s' with
      | EmptyString => Some a
      | String _ _ => last_char s'
      end
  end.

(** A visible ASCII character *)
Definition visible (c : ascii) : bool :=
  (33 <=? nat_of_ascii c)%nat && (nat_of_ascii c <=? 126)%nat.

(** The action and the details as [append_audit_log] joins them *)
Definition audit_message (action details : string) : string :=
  if String.eqb details "" then action else action +:+ " | " +:+ details.

(** The lines written one after the other, each closed by a line feed *)
Definition text_of (entries : list string) : string :=
  fold_right (fun entry text => entry +:+ String newline text) EmptyString entries.

(** The triple of a time, an action and details as a line of the log, and
    as the "Activity Log" tab shows it *)
Definition entry_of (x : string * string * string) : string :=
  audit_entry x.1.1 x.1.2 x.2.

Definition shown_of (strftime : string -> option string) (x : string * string * string)
  : string * string :=
  (time_str strftime x.1.1, strip (audit_message x.1.2 x.2)).

(** What the formatter gives for a time that [isoformat] wrote with a date
    of ten characters, a "T" and a time of eight, whatever follows: the date,
    a space and the time. Any other text is taken not to be read as a time
    here. *)
Definition strftime_seconds (timestamp : string) : option string :=
  match String.get 10 timestamp with
  | Some "T"%char =>
      if (19 <=? String.length timestamp)%nat
      then Some (String.substring 0 10 timestamp +:+ " " +:+ String.substring 11 8 timestamp)
      else None
  | _ => None
  end.

(** ** The dashboard *)

(** [[t for t in tickets if t.get("needs_priority_review") or
    t["status"] == "AI Review"]]: the status is read only when the flag is
    not set *)
Fixpoint needs_attention (l : list dict) : result (list dict) :=
  match l with
  | [] => Ok []
  | t :: l' =>
      rbind (if needs_priority_review t then Ok true
             else rbind (item "status" t) (fun st => Ok (py_eq st (JStr "AI Review"))))
        (fun listed =>
      rbind (needs_attention l') (fun r =>
      Ok (if listed then t :: r else r)))
  end.

(** The cards of "Tickets Needing Attention": the first five, compact *)
Definition attention_cards (l : list dict) : result (list dict) :=
  rbind (needs_attention l) (fun listed => Ok (take 5 listed)).

(** The priority the dashboard, the filters and the exports read *)
Definition ticket_priority (ticket : dict) : json :=
  get "calculated_priority" (get "priority" (JStr "Medium") ticket) ticket.

(** A value can be a key of a dict: a list or a dict cannot *)
Definition hashable (v : json) : bool :=
  match v with
  | JArr _ | JObj _ => false
  | _ => true
  end.

(** [counts[p] = counts.get(p, 0) + 1] on a dict in insertion order, whose
    keys are compared as Python compares them *)
Fixpoint count_priority (p : json) (counts : list (json * nat)) : list (json * nat) :=
  match counts with
  | [] => [(p, 1%nat)]
  | (k, n) :: counts' =>
      if py_eq p k then (k, S n) :: counts' else (k, n) :: count_priority p counts'
  end.

(** The loop of "Priority Distribution" *)
Fixpoint count_priorities (l : list dict) (counts : list (json * nat))
    : result (list (json * nat)) :=
  match l with
  | [] => Ok counts
  | t :: l' =>
      if hashable (ticket_priority t)
      then count_priorities l' (count_priority (ticket_priority t) counts)
      else Raise TypeError
  end.

(** The bars of "Priority Distribution": the priorities in the order of
    their first ticket, each with the number of its tickets *)
Definition priority_distribution (l : list dict) : result (list (json * nat)) :=
  count_priorities l [].

(** An event that writes into a ticket only what the program itself makes
    (a status, a flag, the clock's time) or removes a ticket: a press on a
    card, the synchronisation with Jira apart, or a refresh *)
Definition card_event (ev : event) : bool :=
  match ev with
  | Press _ _ (Some SyncJira) => false
  | Press _ _ _ => true
  | Refresh => true
  | Submit _ _ _ _ _ _ => false
  | Import _ _ => false
  end.

(** * Verification *)

(** ** Dicts *)

Section DictFacts.

Implicit Types (k : string) (v : json) (d : dict).

Lemma dict_get_set k k' v d :
  dict_get k (dict_set k' v d) = if String.eqb k k' then Some v else dict_get k d.
Proof.
  induction d as [|[k0 v0] d IH]; simpl.
  - destruct (String.eqb k k'); reflexivity.
  - destruct (String.eqb_spec k' k0) as [->|Hne]; simpl.
    + destruct (String.eqb k k0); reflexivity.
    + rewrite IH. destruct (String.eqb_spec k k0) as [->|Hne'].
      * destruct (String.eqb_spec k0 k') as [E|_]; [congruence | reflexivity].
      * reflexivity.
Qed.

Lemma dict_get_set_eq k v d : dict_get k (dict_set k v d) = Some v.
Proof. rewrite dict_get_set, String.eqb_refl. reflexivity. Qed.

Lemma dict_get_set_ne k k' v d :
  k <> k' -> dict_get k (dict_set k' v d) = dict_get k d.
Proof.
  intros Hne. rewrite dict_get_set.
  destruct (String.eqb_spec k k'); [contradiction | reflexivity].
Qed.

Lemma get_set_ne k k' v dflt d : k <> k' -> get k dflt (dict_set k' v d) = get k dflt d.
Proof. intros Hne. unfold get. rewrite dict_get_set_ne by exact Hne. reflexivity. Qed.

Lemma item_set_ne k k' v d : k <> k' -> item k (dict_set k' v d) = item k d.
Proof. intros Hne. unfold item. rewrite dict_get_set_ne by exact Hne. reflexivity. Qed.

(** [{**d, **e}] keeps the entries of [d] that [e] does not name *)
Lemma dict_get_update_absent k d e :
  dict_get k e = None -> dict_get k (dict_update d e) = dict_get k d.
Proof.
  unfold dict_update. revert d.
  induction e as [|[k0 v0] e IH]; intros d He; simpl in *; [reflexivity|].
  destruct (String.eqb_spec k k0) as [->|Hne]; [discriminate|].
  rewrite IH by exact He. apply dict_get_set_ne. exact Hne.
Qed.

(** A key never leaves a dict that is only written to *)
Lemma dict_get_update_some k d e :
  is_Some (dict_get k d) -> is_Some (dict_get k (dict_update d e)).
Proof.
  unfold dict_update. revert d.
  induction e as [|[k0 v0] e IH]; intros d Hd; simpl; [exact Hd|].
  apply IH. rewrite dict_get_set. destruct (String.eqb k k0); [eexists; reflexivity | exact Hd].
Qed.

(** With distinct keys in [e], [{**d, **e}] reads [e] first and [d] next *)
Lemma dict_get_update k d e :
  NoDup (map fst e) ->
  dict_get k (dict_update d e) =
  match dict_get k e with Some v => Some v | None => dict_get k d end.
Proof.
  unfold dict_update. revert d.
  induction e as [|[k0 v0] e IH]; intros d Hnd; simpl in *; [reflexivity|].
  apply NoDup_cons in Hnd as [Hk0 Hnd].
  rewrite IH by exact Hnd.
  destruct (String.eqb_spec k k0) as [->|Hne].
  - assert (dict_get k0 e = None) as ->.
    { clear -Hk0. induction e as [|[k1 v1] e IH]; simpl in *; [reflexivity|].
      destruct (String.eqb_spec k0 k1) as [->|Hne].
      - exfalso. apply Hk0. left.
      - apply IH. intros Hin. apply Hk0. right. exact Hin. }
    apply dict_get_set_eq.
  - destruct (dict_get k e); [reflexivity|]. apply dict_get_set_ne. exact Hne.
Qed.

End DictFacts.

(** ** Text and JSON decoding *)

Lemma str_in_char_find c s :
  str_in (String c EmptyString) s = true -> (0 <= find c s)%Z.
Proof.
  induction s as [|a s IH]; simpl; [discriminate|].
  destruct (Ascii.eqb_spec a c) as [->|Hne]; [lia|].
  destruct (ascii_dec c a) as [->|_]; [contradiction|]. simpl. intros H.
  specialize (IH H). destruct (find c s <? 0)%Z eqn:E; lia.
Qed.

(** The text cut at the first occurrence of [c] is empty or starts with [c] *)
Lemma substring_find_head c s n :
  (0 <= find c s)%Z ->
  substring (Z.to_nat (find c s)) n s = EmptyString \/
  exists rest, substring (Z.to_nat (find c s)) n s = String c rest.
Proof.
  induction s as [|a s IH]; simpl; [lia|].
  destruct (Ascii.eqb_spec a c) as [->|Hne]; simpl.
  - intros _. destruct n; [left; reflexivity | right; eexists; reflexivity].
  - destruct (find c s <? 0)%Z eqn:E; [lia|]. intros _.
    replace (Z.to_nat (find c s + 1)) with (S (Z.to_nat (find c s))) by lia.
    apply IH. lia.
Qed.

(** The members of an object decode to an object *)
Lemma parse_members_obj fuel : forall acc s v r,
  parse_members fuel acc s = Some (v, r) -> exists d, v = JObj d.
Proof.
  induction fuel as [|fuel IH]; intros acc s v r; simpl; [discriminate|].
  repeat match goal with
         | |- context [match ?x with _ => _ end] => destruct x eqn:?; try discriminate
         | |- context [if ?x then _ else _] => destruct x eqn:?; try discriminate
         end;
    try (intros H; injection H as <- _; eexists; reflexivity);
    try (intros H; eapply IH; exact H).
Qed.

(** A text that starts with an opening brace decodes to an object or not at
    all *)
Lemma json_loads_brace rest v :
  json_loads (String "{"%char rest) = Some v -> exists d, v = JObj d.
Proof.
  unfold json_loads.
  change (skip_ws (String "{"%char rest)) with (String "{"%char rest).
  cbn [parse_value]. change (Ascii.eqb "{"%char "{"%char) with true. cbv iota.
  destruct (skip_ws rest) as [|c r] eqn:E.
  - destruct (parse_members _ _ _) as [[v' r']|] eqn:P; [|discriminate].
    apply parse_members_obj in P as [d ->].
    destruct (skip_ws r'); [|discriminate]. intros [= <-]. eauto.
  - destruct (Ascii.eqb_spec c "}"%char) as [->|Hne].
    + destruct (skip_ws r); [|discriminate]. intros [= <-]. eauto.
    + assert (forall X : option (json * string),
                 match c with
                 | "}"%char => Some (JObj [], r)
                 | _ => X
                 end = X) as Hc.
      { intros X. destruct c as [[] [] [] [] [] [] [] []]; try reflexivity.
        exfalso. apply Hne. reflexivity. }
      rewrite Hc.
      destruct (parse_members _ _ _) as [[v' r']|] eqn:P; [|discriminate].
      apply parse_members_obj in P as [d ->].
      destruct (skip_ws r'); [|discriminate]. intros [= <-]. eauto.
Qed.

(** What the [try] block of a judgement function decodes is a dict *)
Lemma decode_response_obj response v :
  decode_response response = Some v -> exists d, v = JObj d.
Proof.
  unfold decode_response, slice.
  destruct (str_in "{" response) eqn:Hin; [|discriminate].
  apply str_in_char_find in Hin.
  destruct (substring_find_head "{"%char response
              (Z.to_nat (rfind "}"%char response + 1 - find "{"%char response)) Hin)
    as [->|[rest ->]].
  - vm_compute. discriminate.
  - apply json_loads_brace.
Qed.

(** ** The advisory client *)

Lemma call_ai_run e system_prompt user_prompt w :
  call_ai e system_prompt user_prompt w =
  (Ok (call_ai_reply e system_prompt user_prompt), logged system_prompt user_prompt w).
Proof. reflexivity. Qed.

Lemma validate_and_enhance_ticket_run e ticket w :
  validate_and_enhance_ticket e ticket w =
  (Ok (validation_judgement e ticket),
   logged validation_system_prompt (validation_user_prompt e ticket) w).
Proof.
  unfold validate_and_enhance_ticket, validation_judgement, bind.
  rewrite call_ai_run. destruct (decode_response _); reflexivity.
Qed.

Lemma calculate_priority_score_run e ticket w :
  calculate_priority_score e ticket w =
  (Ok (priority_judgement e ticket),
   logged priority_system_prompt (priority_user_prompt e ticket) w).
Proof.
  unfold calculate_priority_score, priority_judgement, bind.
  rewrite call_ai_run. destruct (decode_response _); reflexivity.
Qed.

(** Both judgements are dicts, whatever the advisory client answers *)
Lemma priority_judgement_obj e ticket : exists d, priority_judgement e ticket = JObj d.
Proof.
  unfold priority_judgement.
  destruct (decode_response _) as [v|] eqn:E.
  - apply decode_response_obj in E as [d ->]. eauto.
  - unfold default_priority_analysis. eauto.
Qed.

Lemma validation_judgement_obj e ticket : exists d, validation_judgement e ticket = JObj d.
Proof.
  unfold validation_judgement.
  destruct (decode_response _) as [v|] eqn:E.
  - apply decode_response_obj in E as [d ->]. eauto.
  - unfold default_validation. eauto.
Qed.

(** ** Ticket creation *)

Lemma initial_ticket_user_priority e username ticket_data n :
  is_Some (dict_get "user_priority" (initial_ticket e username ticket_data n)).
Proof. apply dict_get_update_some. eexists. reflexivity. Qed.

(** [create_ticket] always returns, and this is the ticket it returns *)
Lemma create_ticket_run e username ticket_data w :
  let t0 := initial_ticket e username ticket_data (readings w) in
  let t1 := dict_set "validation" (validation_judgement e t0) t0 in
  exists analysis declared,
    priority_judgement e t1 = JObj analysis /\
    dict_get "user_priority" t0 = Some declared /\
    let calculated := get "calculated_priority" declared analysis in
    let score := get "priority_score" (JNum 5.0) analysis in
    let t2 :=
      dict_set "priority_score" score
        (dict_set "calculated_priority" calculated
           (dict_set "priority_analysis" (JObj analysis) t1)) in
    create_ticket e username ticket_data w =
    (Ok (if py_ne calculated declared
         then dict_set "needs_priority_review" (JBool true)
                (dict_set "status" (JStr "AI Review") t2)
         else t2),
     after_creation e t0 t1 w).
Proof.
  intros t0 t1.
  destruct (priority_judgement_obj e t1) as [analysis Ha].
  destruct (initial_ticket_user_priority e username ticket_data (readings w))
    as [declared Hd].
  exists analysis, declared. split; [exact Ha|]. split; [exact Hd|].
  intros calculated score t2.
  unfold create_ticket, bind, new_id, now, tick, ret, lift. simpl.
  fold (initial_ticket e username ticket_data (readings w)). fold t0.
  rewrite validate_and_enhance_ticket_run. simpl. fold t1.
  rewrite calculate_priority_score_run. simpl. rewrite Ha.
  assert (dict_get "user_priority" t1 = Some declared) as Hd1.
  { unfold t1. rewrite dict_get_set. exact Hd. }
  assert (dict_get "calculated_priority" t2 = Some calculated) as Hc2.
  { unfold t2. rewrite !dict_get_set. reflexivity. }
  assert (dict_get "user_priority" t2 = Some declared) as Hd2.
  { unfold t2. rewrite !dict_get_set. exact Hd1. }
  unfold item at 1. rewrite dict_get_set. simpl. rewrite Hd1. simpl.
  fold calculated. fold score. fold t2.
  unfold item. rewrite Hc2, Hd2.
  destruct (py_ne calculated declared); reflexivity.
Qed.

(** C1. For every ticket [create_ticket] creates from a [ticket_data] that
    does not itself carry a status or a review flag (the form and the CSV
    import pass the five input fields only): [declared] is the
    [user_priority] of the dict literal at the head of [create_ticket], which
    is the priority of [ticket_data], "Medium" when it has none; [analysis]
    is the judgement [calculate_priority_score] returns on the ticket that
    carries the validation; [calculated] is its [calculated_priority],
    [declared] when it has none. The ticket stores the three, its status is
    "AI Review" and [needs_priority_review] is true if and only if
    [calculated] differs from [declared]; when they are equal the status is
    "Draft" and [needs_priority_review] reads false. *)
Theorem create_ticket_review_iff e username ticket_data w :
  dict_get "status" ticket_data = None ->
  dict_get "needs_priority_review" ticket_data = None ->
  let t0 := initial_ticket e username ticket_data (readings w) in
  let t1 := dict_set "validation" (validation_judgement e t0) t0 in
  exists ticket w' analysis calculated declared,
    create_ticket e username ticket_data w = (Ok ticket, w') /\
    dict_get "user_priority" t0 = Some declared /\
    (dict_get "user_priority" ticket_data = None ->
     declared = get "priority" (JStr "Medium") ticket_data) /\
    (forall w1, fst (calculate_priority_score e t1 w1) = Ok (JObj analysis)) /\
    priority_judgement e t1 = JObj analysis /\
    calculated = get "calculated_priority" declared analysis /\
    dict_get "priority_analysis" ticket = Some (JObj analysis) /\
    dict_get "calculated_priority" ticket = Some calculated /\
    dict_get "user_priority" ticket = Some declared /\
    ((dict_get "status" ticket = Some (JStr "AI Review") /\
      needs_priority_review ticket = true) <-> py_ne calculated declared = true) /\
    (py_ne calculated declared = false ->
     dict_get "status" ticket = Some (JStr "Draft") /\
     needs_priority_review ticket = false).
Proof.
  intros Hstatus Hflag t0 t1.
  destruct (create_ticket_run e username ticket_data w)
    as (analysis & declared & Ha & Hd & Hrun).
  cbv zeta in Hrun. fold t0 in Ha, Hd, Hrun. fold t1 in Ha, Hrun.
  set (calculated := get "calculated_priority" declared analysis) in *.
  set (t2 := dict_set "priority_score" _ _) in *.
  assert (dict_get "calculated_priority" t2 = Some calculated) as Hc2.
  { unfold t2. rewrite !dict_get_set. reflexivity. }
  assert (dict_get "user_priority" t2 = Some declared) as Hd2.
  { unfold t2, t1. rewrite !dict_get_set. exact Hd. }
  assert (dict_get "priority_analysis" t2 = Some (JObj analysis)) as Hp2.
  { unfold t2. rewrite !dict_get_set. reflexivity. }
  assert (dict_get "status" t2 = Some (JStr "Draft")) as Hs2.
  { unfold t2, t1. rewrite !dict_get_set. simpl.
    unfold t0, initial_ticket. rewrite dict_get_update_absent by exact Hstatus.
    reflexivity. }
  assert (dict_get "needs_priority_review" t2 = None) as Hf2.
  { unfold t2, t1. rewrite !dict_get_set. simpl.
    unfold t0, initial_ticket. rewrite dict_get_update_absent by exact Hflag.
    reflexivity. }
  eexists _, _, analysis, calculated, declared. split; [exact Hrun|].
  split; [exact Hd|].
  split.
  { intros Hup. unfold t0, initial_ticket in Hd.
    rewrite dict_get_update_absent in Hd by exact Hup. simpl in Hd. congruence. }
  split.
  { intros w1. rewrite calculate_priority_score_run. simpl. rewrite Ha. reflexivity. }
  split; [exact Ha|]. split; [reflexivity|].
  destruct (py_ne calculated declared) eqn:Hne.
  - rewrite !dict_get_set. simpl. repeat split; try assumption; try discriminate.
    unfold needs_priority_review, get. rewrite dict_get_set_eq. reflexivity.
  - repeat split; try assumption; try discriminate.
    + intros [Hs _]. rewrite Hs2 in Hs. discriminate.
    + unfold needs_priority_review, get. rewrite Hf2. reflexivity.
Qed.

Lemma create_ticket_review_iff_witness :
  let e := Sample.surroundings "sk-or-key"
             (Some (quoted "{'calculated_priority': 'Critical'}")) None in
  let t0 := initial_ticket e "tech1" Sample.ticket_data 0 in
  let t1 := dict_set "validation" (validation_judgement e t0) t0 in
  exists ticket w' analysis calculated declared,
    create_ticket e "tech1" Sample.ticket_data Sample.empty_world = (Ok ticket, w') /\
    dict_get "user_priority" t0 = Some declared /\
    (dict_get "user_priority" Sample.ticket_data = None ->
     declared = get "priority" (JStr "Medium") Sample.ticket_data) /\
    (forall w1, fst (calculate_priority_score e t1 w1) = Ok (JObj analysis)) /\
    priority_judgement e t1 = JObj analysis /\
    calculated = get "calculated_priority" declared analysis /\
    dict_get "priority_analysis" ticket = Some (JObj analysis) /\
    dict_get "calculated_priority" ticket = Some calculated /\
    dict_get "user_priority" ticket = Some declared /\
    ((dict_get "status" ticket = Some (JStr "AI Review") /\
      needs_priority_review ticket = true) <-> py_ne calculated declared = true) /\
    (py_ne calculated declared = false ->
     dict_get "status" ticket = Some (JStr "Draft") /\
     needs_priority_review ticket = false).
Proof.
  intros e t0 t1.
  apply (create_ticket_review_iff e "tech1" Sample.ticket_data Sample.empty_world);
    reflexivity.
Defined.

(** *** When the advisory client fails *)

Lemma failed_request_reply e system_prompt user_prompt :
  use_mock e = false ->
  openrouter_request e system_prompt user_prompt = None ->
  call_ai_reply e system_prompt user_prompt = "{}".
Proof. intros Hm Hr. unfold call_ai_reply. rewrite Hm, Hr. reflexivity. Qed.

Lemma empty_object_decodes : decode_response "{}" = Some (JObj []).
Proof. vm_compute. reflexivity. Qed.

(** With the remote client unreachable, both judgements are the empty dict:
    the text "{}" that [call_ai] returns on failure contains a brace and
    decodes, so neither default judgement is used. The two [get] defaults of
    [create_ticket] still give the score 5.0 and the declared priority. *)
Lemma create_ticket_unreachable e username ticket_data w :
  use_mock e = false ->
  (forall system_prompt user_prompt, openrouter_request e system_prompt user_prompt = None) ->
  exists ticket w',
    create_ticket e username ticket_data w = (Ok ticket, w') /\
    dict_get "validation" ticket = Some (JObj []) /\
    dict_get "priority_analysis" ticket = Some (JObj []) /\
    dict_get "priority_score" ticket = Some (JNum 5.0) /\
    dict_get "calculated_priority" ticket = dict_get "user_priority" ticket.
Proof.
  intros Hm Hr.
  destruct (create_ticket_run e username ticket_data w)
    as (analysis & declared & Ha & Hd & Hrun).
  cbv zeta in Hrun.
  set (t0 := initial_ticket e username ticket_data (readings w)) in *.
  assert (validation_judgement e t0 = JObj []) as Hv.
  { unfold validation_judgement.
    rewrite failed_request_reply by auto. rewrite empty_object_decodes. reflexivity. }
  rewrite Hv in *.
  set (t1 := dict_set "validation" (JObj []) t0) in *.
  assert (analysis = []) as ->.
  { unfold priority_judgement in Ha.
    rewrite failed_request_reply in Ha by auto.
    rewrite empty_object_decodes in Ha. congruence. }
  change (get "calculated_priority" declared []) with declared in Hrun.
  change (get "priority_score" (JNum 5.0) []) with (JNum 5.0) in Hrun.
  eexists _, _. split; [exact Hrun|].
  assert (dict_get "user_priority" t1 = Some declared) as Hd1.
  { unfold t1. rewrite dict_get_set. exact Hd. }
  assert (dict_get "validation" t1 = Some (JObj [])) as Hv1.
  { unfold t1. apply dict_get_set_eq. }
  destruct (py_ne declared declared);
    rewrite !dict_get_set; simpl; rewrite ?Hd1, ?Hv1; repeat split; reflexivity.
Qed.

(** When neither reply can be decoded (no brace, or malformed JSON), the
    default judgements are used *)
Lemma create_ticket_undecodable e username ticket_data w :
  (forall system_prompt user_prompt,
     decode_response (call_ai_reply e system_prompt user_prompt) = None) ->
  exists ticket w',
    create_ticket e username ticket_data w = (Ok ticket, w') /\
    dict_get "validation" ticket = Some default_validation /\
    attr_get "completeness_score" JNull default_validation = Ok (JNum 0.7) /\
    attr_get "is_complete" JNull default_validation = Ok (JBool true) /\
    dict_get "priority_score" ticket = Some (JNum 5.0) /\
    dict_get "calculated_priority" ticket = dict_get "user_priority" ticket.
Proof.
  intros Hr.
  destruct (create_ticket_run e username ticket_data w)
    as (analysis & declared & Ha & Hd & Hrun).
  cbv zeta in Hrun.
  set (t0 := initial_ticket e username ticket_data (readings w)) in *.
  assert (validation_judgement e t0 = default_validation) as Hv.
  { unfold validation_judgement. rewrite Hr. reflexivity. }
  rewrite Hv in *.
  set (t1 := dict_set "validation" default_validation t0) in *.
  assert (dict_get "user_priority" t1 = Some declared) as Hd1.
  { unfold t1. rewrite dict_get_set. exact Hd. }
  assert (analysis = [("calculated_priority", declared);
                      ("priority_score", JNum 5.0);
                      ("reasoning", JStr "Unable to calculate detailed score");
                      ("factors", JObj []);
                      ("recommended_actions", JArr [])]) as ->.
  { unfold priority_judgement in Ha. rewrite Hr in Ha.
    unfold default_priority_analysis, get in Ha. rewrite Hd1 in Ha. congruence. }
  change (get "calculated_priority" declared _) with declared in Hrun.
  change (get "priority_score" (JNum 5.0) _) with (JNum 5.0) in Hrun.
  eexists _, _. split; [exact Hrun|].
  assert (dict_get "validation" t1 = Some default_validation) as Hv1.
  { unfold t1. apply dict_get_set_eq. }
  destruct (py_ne declared declared);
    rewrite !dict_get_set; simpl; rewrite ?Hd1, ?Hv1; repeat split; reflexivity.
Qed.

(** C2. The claim fails on the code at this input: a key is configured, the
    request to the advisory service fails for every prompt, and the ticket
    that [create_ticket] returns has an empty [validation], with neither
    [completeness_score] nor [is_complete]; the detail view then shows a
    completeness of 0. The score 5.0 and the priority equal to the declared
    one are as claimed. *)
Theorem unreachable_advisor_leaves_validation_empty :
  exists ticket w',
    create_ticket (Sample.surroundings "sk-or-key" None None) "tech1"
      Sample.ticket_data Sample.empty_world = (Ok ticket, w') /\
    dict_get "validation" ticket = Some (JObj []) /\
    attr_get "completeness_score" JNull (JObj []) = Ok JNull /\
    attr_get "is_complete" JNull (JObj []) = Ok JNull /\
    detail_completeness (Sample.surroundings "sk-or-key" None None) ticket = Ok 0%Q /\
    dict_get "priority_score" ticket = Some (JNum 5.0) /\
    dict_get "calculated_priority" ticket = Some (JStr "High") /\
    dict_get "user_priority" ticket = Some (JStr "High").
Proof. vm_compute. eexists _, _. repeat split. Qed.

(** *** The stored score *)

(** C8, as stated, fails: the advisory service answers with a score of 42,
    and 42 is what the ticket stores. *)
Lemma score_out_of_range :
  exists ticket w',
    create_ticket
      (Sample.surroundings "sk-or-key" (Some (quoted "{'priority_score': 42}")) None)
      "tech1" Sample.ticket_data Sample.empty_world = (Ok ticket, w') /\
    dict_get "priority_score" ticket = Some (JNum 42) /\
    ~ score_in_range ticket.
Proof.
  eexists _, _. split; [vm_compute; reflexivity|]. split; [reflexivity|].
  unfold score_in_range. simpl. intros [_ H]. revert H. unfold Qle. simpl. lia.
Qed.

(** C8, amended. For every ticket produced by [create_ticket], with
    [analysis] the judgement that [calculate_priority_score] returns on the
    ticket that carries the validation (the decoded reply to the last
    advisory call, or the default judgement), the stored [priority_score] is
    the judgement's own [priority_score] when the judgement carries one and
    5.0 otherwise, taken as it is; it is a number in the interval from 0 to
    10 exactly when the judgement carries no score or carries a number in
    that interval. *)
Theorem stored_score_is_judgement_score e username ticket_data w :
  let t0 := initial_ticket e username ticket_data (readings w) in
  let t1 := dict_set "validation" (validation_judgement e t0) t0 in
  exists ticket w' analysis,
    create_ticket e username ticket_data w = (Ok ticket, w') /\
    last (ai_calls w') = Some (priority_system_prompt, priority_user_prompt e t1) /\
    (forall w1, fst (calculate_priority_score e t1 w1) = Ok (JObj analysis)) /\
    priority_judgement e t1 = JObj analysis /\
    dict_get "priority_analysis" ticket = Some (JObj analysis) /\
    dict_get "priority_score" ticket = Some (get "priority_score" (JNum 5.0) analysis) /\
    (score_in_range ticket <->
     match dict_get "priority_score" analysis with
     | None => True
     | Some (JNum q) => (0 <= q)%Q /\ (q <= 10)%Q
     | Some _ => False
     end).
Proof.
  intros t0 t1.
  destruct (create_ticket_run e username ticket_data w)
    as (analysis & declared & Ha & Hd & Hrun).
  cbv zeta in Hrun. fold t0 in Ha, Hd, Hrun. fold t1 in Ha, Hrun.
  match type of Hrun with _ = (Ok ?t, ?w') => exists t, w', analysis end.
  split; [exact Hrun|].
  split; [unfold after_creation; simpl; apply last_snoc|].
  split.
  { intros w1. rewrite calculate_priority_score_run. simpl. rewrite Ha. reflexivity. }
  split; [exact Ha|].
  assert (forall t, dict_get "priority_score" t = Some (get "priority_score" (JNum 5.0) analysis) ->
            (score_in_range t <->
             match dict_get "priority_score" analysis with
             | None => True
             | Some (JNum q) => (0 <= q)%Q /\ (q <= 10)%Q
             | Some _ => False
             end)) as Hrange.
  { intros t Ht. unfold score_in_range. rewrite Ht. unfold get.
    destruct (dict_get "priority_score" analysis) as [[]|]; try tauto.
    split; [trivial|]. intros _. unfold Qle. simpl. lia. }
  destruct (py_ne _ declared).
  - split; [|split]; [| |apply Hrange]; rewrite !dict_get_set; reflexivity.
  - split; [|split]; [| |apply Hrange]; rewrite !dict_get_set; reflexivity.
Qed.

(** ** Required fields *)

(** The two callers of [create_ticket] pass the five input fields only *)
Lemma form_ticket_data_fresh summary description server rack user_priority :
  dict_get "status" (form_ticket_data summary description server rack user_priority) = None /\
  dict_get "needs_priority_review"
    (form_ticket_data summary description server rack user_priority) = None.
Proof. split; reflexivity. Qed.

Lemma row_ticket_data_fresh row :
  dict_get "status" (row_ticket_data row) = None /\
  dict_get "needs_priority_review" (row_ticket_data row) = None.
Proof. split; reflexivity. Qed.

(** C4, as stated, fails on the CSV import: a table without a description
    column gives every row an empty description, and the row is imported all
    the same, after two advisory calls, and written to the ticket file. *)
Lemma import_accepts_empty_description :
  let row := [("server", JStr "srv-12"); ("rack", JStr "R4"); ("issue", JStr "Fan failure")] in
  get "description" JNull (row_ticket_data row) = JStr "" /\
  exists ticket w',
    import_csv Sample.mock "tech1" false [row] Sample.empty_world = (Ok 1%nat, w') /\
    length (ai_calls w') = 2%nat /\
    tickets w' = [ticket] /\
    ticket_file w' = [ticket] /\
    dict_get "description" ticket = Some (JStr "").
Proof.
  split; [reflexivity|].
  eexists _, _. split; [vm_compute; reflexivity|].
  repeat split.
Qed.

(** C4, amended. On the creation form, a request with any required field
    (summary, description, server, rack) empty is rejected before any
    advisory call is made, and no ticket is created or persisted: the
    session, the ticket file, the audit log and the record of advisory calls
    are what they were. (The CSV import makes no such check.) *)
Theorem form_rejects_missing_fields e username summary description server rack
    user_priority b w :
  summary = "" \/ description = "" \/ server = "" \/ rack = "" ->
  exists message w',
    submit_form e username summary description server rack user_priority b w
    = (Ok (Rejected message), w') /\
    ai_calls w' = ai_calls w /\
    tickets w' = tickets w /\
    ticket_file w' = ticket_file w /\
    w' = w.
Proof.
  intros H. exists "Please fill in all required fields", w.
  split; [|repeat split]. unfold submit_form.
  assert (String.eqb summary "" || String.eqb description "" ||
          String.eqb server "" || String.eqb rack "" = true) as Hb.
  { destruct H as [-> | [-> | [-> | ->]]]; simpl; rewrite ?orb_true_r; reflexivity. }
  rewrite Hb. reflexivity.
Qed.

Lemma form_rejects_missing_fields_witness :
  exists message w',
    submit_form Sample.mock "tech1" "Fan failure" "" "srv-12" "R4" "High" CreateTicket
      Sample.empty_world = (Ok (Rejected message), w') /\
    ai_calls w' = ai_calls Sample.empty_world /\
    tickets w' = tickets Sample.empty_world /\
    ticket_file w' = ticket_file Sample.empty_world /\
    w' = Sample.empty_world.
Proof.
  apply (form_rejects_missing_fields Sample.mock "tech1" "Fan failure" "" "srv-12" "R4"
           "High" CreateTicket Sample.empty_world).
  right. left. reflexivity.
Defined.

(** ** Reading stored tickets *)

(** A score stored as a dict is shown as 0, on the card and in the detail
    view *)
Lemma dict_score_reads_zero e ticket d :
  dict_get "priority_score" ticket = Some (JObj d) -> displayed_score e ticket = Ok 0%Q.
Proof. intros H. unfold displayed_score, get. rewrite H. reflexivity. Qed.

(** A completeness stored as a dict is shown as 0.7 in the detail view *)
Lemma dict_completeness_detail e ticket validation d :
  dict_get "validation" ticket = Some (JObj validation) ->
  dict_get "completeness_score" validation = Some (JObj d) ->
  detail_completeness e ticket = Ok 0.7%Q.
Proof.
  intros Hv Hc. unfold detail_completeness, get. rewrite Hv. simpl.
  unfold get. rewrite Hc. reflexivity.
Qed.

(** C6. The claim fails on the code at these inputs. A ticket whose stored
    [completeness_score] is a dict is read as 0.7 by the detail view, but
    the card compares the stored value with 0.8 and raises a [TypeError],
    for the body alone and for the whole card; and a score stored as a list
    passes the dict test and makes [float] raise in both views. *)
Theorem card_raises_on_stored_shapes :
  let broken := dict_set "validation" (JObj [("completeness_score", JObj [])])
                  (Sample.stored "0a1b2c3d" "Draft") in
  let listed := dict_set "priority_score" (JArr []) (Sample.stored "0a1b2c3d" "Draft") in
  show_ticket_detail Sample.mock broken = Ok (5.0%Q, 0.7%Q) /\
  card_body Sample.mock broken = Raise TypeError /\
  (display_ticket_card Sample.mock 0 false None (Sample.session [broken])).1
    = Raise TypeError /\
  show_ticket_detail Sample.mock listed = Raise TypeError /\
  card_body Sample.mock listed = Raise TypeError.
Proof. vm_compute. repeat split. Qed.

(** ** The Priority Model *)

(** In every factor of the table the weights grow along the listed levels *)
Lemma PRIORITY_WEIGHTS_increasing :
  forallb (fun factor => increasing (map snd factor.2)) PRIORITY_WEIGHTS = true.
Proof. reflexivity. Qed.

(** Each combination grows with each of the four weights *)
Lemma combine_monotone c w1 w2 w3 w4 w1' w2' w3' w4' :
  (w1 <= w1')%Z -> (w2 <= w2')%Z -> (w3 <= w3')%Z -> (w4 <= w4')%Z ->
  (combine c w1 w2 w3 w4 <= combine c w1' w2' w3' w4')%Q.
Proof.
  intros H1 H2 H3 H4. destruct c as [| |c1 c2 c3 c4]; unfold combine, Qle; simpl.
  - lia.
  - lia.
  - apply Z.mul_le_mono_nonneg_r; [lia|]. nia.
Qed.

(** C5. For all levels of impact scope, service impact, urgency and safety
    (the valid ones in particular) and for each of the combinations the
    specification names, the combined score does not decrease when one
    factor is raised to a level of higher weight and the other three are
    held fixed. *)
Theorem priority_model_monotone c scope service urgency safety
    scope' service' urgency' safety' :
  ((level_weight "impact_scope" scope <= level_weight "impact_scope" scope')%Z ->
   (priority_model_score c scope service urgency safety
    <= priority_model_score c scope' service urgency safety)%Q) /\
  ((level_weight "service_impact" service <= level_weight "service_impact" service')%Z ->
   (priority_model_score c scope service urgency safety
    <= priority_model_score c scope service' urgency safety)%Q) /\
  ((level_weight "urgency" urgency <= level_weight "urgency" urgency')%Z ->
   (priority_model_score c scope service urgency safety
    <= priority_model_score c scope service urgency' safety)%Q) /\
  ((level_weight "safety" safety <= level_weight "safety" safety')%Z ->
   (priority_model_score c scope service urgency safety
    <= priority_model_score c scope service urgency safety')%Q).
Proof.
  unfold priority_model_score.
  repeat split; intros H; apply combine_monotone; lia.
Qed.

Lemma priority_model_monotone_witness :
  (priority_model_score NormalizedSum "rack" "degraded" "within_24h" "minor"
   <= priority_model_score NormalizedSum "row" "degraded" "within_24h" "minor")%Q /\
  (priority_model_score NormalizedSum "rack" "degraded" "within_24h" "minor"
   <= priority_model_score NormalizedSum "rack" "full_outage" "within_24h" "minor")%Q /\
  (priority_model_score NormalizedSum "rack" "degraded" "within_24h" "minor"
   <= priority_model_score NormalizedSum "rack" "degraded" "immediate" "minor")%Q /\
  (priority_model_score NormalizedSum "rack" "degraded" "within_24h" "minor"
   <= priority_model_score NormalizedSum "rack" "degraded" "within_24h" "critical")%Q.
Proof.
  destruct (priority_model_monotone NormalizedSum "rack" "degraded" "within_24h" "minor"
              "row" "full_outage" "immediate" "critical") as (H1 & H2 & H3 & H4).
  split; [apply H1; vm_compute; discriminate|].
  split; [apply H2; vm_compute; discriminate|].
  split; [apply H3; vm_compute; discriminate|].
  apply H4; vm_compute; discriminate.
Defined.

(** ** Synchronisation with Jira *)

(** An issue key is only returned for a ticket that has an identifier *)
Lemma create_jira_issue_id e ticket :
  truthy (create_jira_issue e ticket) = true -> is_Some (dict_get "id" ticket).
Proof.
  unfold create_jira_issue. destruct (jira_is_configured e); simpl; [|discriminate].
  unfold jira_issue_body.
  destruct (jira_priority_of _); simpl; [|discriminate].
  destruct (attr_get "reasoning" _ _); simpl; [|discriminate].
  destruct (py_float _ _); simpl; [|discriminate].
  unfold item. destruct (dict_get "id" ticket); simpl; [eauto | discriminate].
Qed.

(** What a successful synchronisation leaves *)
Lemma sync_ticket_to_jira_success e i w t :
  tickets w !! i = Some t ->
  jira_is_configured e = true ->
  truthy (create_jira_issue e t) = true ->
  exists entry,
    sync_ticket_to_jira e i w =
    (Ok true,
     let l := <[i := dict_set "jira_synced_at" (JStr (utcnow e (readings w)))
                       (dict_set "jira_key" (create_jira_issue e t) t)]> (tickets w) in
     mkWorld l l (audit_log w ++ [entry]) (ai_calls w) (S (S (readings w)))).
Proof.
  intros Hi Hc Hk.
  destruct (create_jira_issue_id e t Hk) as [id Hid].
  pose proof (lookup_lt_Some _ _ _ Hi) as Hlt.
  eexists. unfold sync_ticket_to_jira. rewrite Hc. simpl.
  unfold bind, ticket_at. rewrite Hi, Hk.
  unfold set_field at 1. rewrite Hi. simpl.
  unfold set_field. simpl. rewrite list_lookup_insert_eq by exact Hlt. simpl.
  unfold lift, item. rewrite Hid. simpl.
  rewrite list_insert_insert_eq. reflexivity.
Qed.

(** What a failed synchronisation leaves: everything *)
Lemma sync_ticket_to_jira_failure e i w t :
  tickets w !! i = Some t ->
  jira_is_configured e = false \/ truthy (create_jira_issue e t) = false ->
  sync_ticket_to_jira e i w = (Ok false, w).
Proof.
  intros Hi H. unfold sync_ticket_to_jira.
  destruct (jira_is_configured e); simpl; [|reflexivity].
  destruct H as [H|H]; [discriminate|].
  unfold bind, ticket_at. rewrite Hi, H. reflexivity.
Qed.

(** A synchronisation returns, and the ticket is still at its index with
    the status it had *)
Lemma sync_ticket_to_jira_status e i w t :
  tickets w !! i = Some t ->
  exists ok w' t',
    sync_ticket_to_jira e i w = (Ok ok, w') /\
    tickets w' !! i = Some t' /\
    dict_get "status" t' = dict_get "status" t.
Proof.
  intros Hi.
  pose proof (lookup_lt_Some _ _ _ Hi) as Hlt.
  destruct (jira_is_configured e) eqn:Hc;
    [destruct (truthy (create_jira_issue e t)) eqn:Hk|].
  - destruct (sync_ticket_to_jira_success e i w t Hi Hc Hk) as [entry Hrun].
    eexists true, _, _. split; [exact Hrun|]. cbv zeta. simpl.
    split; [apply list_lookup_insert_eq; exact Hlt|].
    rewrite !dict_get_set. reflexivity.
  - exists false, w, t.
    split; [apply (sync_ticket_to_jira_failure e i w t Hi); right; exact Hk | auto].
  - exists false, w, t.
    split; [apply (sync_ticket_to_jira_failure e i w t Hi); left; exact Hc | auto].
Qed.

(** C7. For every ticket of the session, Sync to Jira returns without
    raising and never changes the status. When it succeeds it sets
    [jira_key] and [jira_synced_at] on that ticket and changes no other
    field and no other ticket; when it fails it returns the failure
    indicator and leaves the whole state, hence the ticket and its
    [jira_key], as they were. *)
Theorem sync_to_jira_frame e i w t :
  tickets w !! i = Some t ->
  exists ok w' t',
    sync_ticket_to_jira e i w = (Ok ok, w') /\
    tickets w' !! i = Some t' /\
    dict_get "status" t' = dict_get "status" t /\
    (forall k, k <> "jira_key" -> k <> "jira_synced_at" -> dict_get k t' = dict_get k t) /\
    (forall j, j <> i -> tickets w' !! j = tickets w !! j) /\
    (ok = true ->
     exists key synced_at,
       truthy key = true /\
       t' = dict_set "jira_synced_at" (JStr synced_at) (dict_set "jira_key" key t)) /\
    (ok = false -> w' = w /\ t' = t /\ dict_get "jira_key" t' = dict_get "jira_key" t).
Proof.
  intros Hi.
  pose proof (lookup_lt_Some _ _ _ Hi) as Hlt.
  destruct (jira_is_configured e) eqn:Hc;
    [destruct (truthy (create_jira_issue e t)) eqn:Hk|].
  - destruct (sync_ticket_to_jira_success e i w t Hi Hc Hk) as [entry Hrun].
    eexists true, _, _. split; [exact Hrun|]. cbv zeta. simpl.
    split; [apply list_lookup_insert_eq; exact Hlt|].
    split; [rewrite !dict_get_set; reflexivity|].
    split.
    { intros k H1 H2. rewrite !dict_get_set.
      destruct (String.eqb_spec k "jira_synced_at"); [contradiction|].
      destruct (String.eqb_spec k "jira_key"); [contradiction|]. reflexivity. }
    split; [intros j Hj; apply list_lookup_insert_ne; congruence|].
    split; [|discriminate].
    intros _. eexists _, _. split; [exact Hk | reflexivity].
  - exists false, w, t.
    split; [apply (sync_ticket_to_jira_failure e i w t Hi); right; exact Hk|].
    repeat split; try assumption; discriminate.
  - exists false, w, t.
    split; [apply (sync_ticket_to_jira_failure e i w t Hi); left; exact Hc|].
    repeat split; try assumption; discriminate.
Qed.

Lemma sync_to_jira_frame_witness :
  exists ok w' t',
    sync_ticket_to_jira
      (Sample.surroundings "" None (Some (JObj [("key", JStr "AXIS-7")]))) 0
      (Sample.session [Sample.stored "0a1b2c3d" "Approved"]) = (Ok ok, w') /\
    tickets w' !! 0%nat = Some t' /\
    dict_get "status" t' = dict_get "status" (Sample.stored "0a1b2c3d" "Approved") /\
    (forall k, k <> "jira_key" -> k <> "jira_synced_at" ->
               dict_get k t' = dict_get k (Sample.stored "0a1b2c3d" "Approved")) /\
    (forall j, j <> 0%nat ->
               tickets w' !! j =
               tickets (Sample.session [Sample.stored "0a1b2c3d" "Approved"]) !! j) /\
    (ok = true ->
     exists key synced_at,
       truthy key = true /\
       t' = dict_set "jira_synced_at" (JStr synced_at)
              (dict_set "jira_key" key (Sample.stored "0a1b2c3d" "Approved"))) /\
    (ok = false ->
     w' = Sample.session [Sample.stored "0a1b2c3d" "Approved"] /\
     t' = Sample.stored "0a1b2c3d" "Approved" /\
     dict_get "jira_key" t' = dict_get "jira_key" (Sample.stored "0a1b2c3d" "Approved")).
Proof.
  apply (sync_to_jira_frame
           (Sample.surroundings "" None (Some (JObj [("key", JStr "AXIS-7")]))) 0
           (Sample.session [Sample.stored "0a1b2c3d" "Approved"])
           (Sample.stored "0a1b2c3d" "Approved")).
  reflexivity.
Defined.

(** The sample synchronisation does succeed *)
Lemma sample_sync_succeeds :
  (sync_ticket_to_jira
     (Sample.surroundings "" None (Some (JObj [("key", JStr "AXIS-7")]))) 0
     (Sample.session [Sample.stored "0a1b2c3d" "Approved"])).1 = Ok true.
Proof. vm_compute. reflexivity. Qed.

(** ** The ticket card *)

Section Card.

Variable e : env.

Implicit Types (i : nat) (w : world) (t : dict) (b : button).

(** With a card that can be drawn, a run of [display_ticket_card] is the
    block of the pressed button when that button is rendered *)
Lemma display_ticket_card_run i w t ticket_id status jira_key body pressed :
  tickets w !! i = Some t ->
  card_header t = Ok (ticket_id, status, jira_key) ->
  card_body e t = Ok body ->
  display_ticket_card e i false pressed w =
  match pressed with
  | Some b => if offered e status jira_key b then press e i ticket_id b w else (Ok tt, w)
  | None => (Ok tt, w)
  end.
Proof.
  intros Hi Hh Hb. unfold display_ticket_card, bind, ticket_at, lift.
  rewrite Hi, Hh, Hb. destruct pressed as [b|]; [|reflexivity].
  destruct (offered e status jira_key b); reflexivity.
Qed.

Lemma display_ticket_card_compact i w t header pressed :
  tickets w !! i = Some t ->
  card_header t = Ok header ->
  display_ticket_card e i true pressed w = (Ok tt, w).
Proof.
  intros Hi Hh. unfold display_ticket_card, bind, ticket_at, lift.
  rewrite Hi, Hh. destruct header as [[? ?] ?]. reflexivity.
Qed.

(** The header of a ticket whose status is text *)
Lemma card_header_text t status header :
  dict_get "status" t = Some (JStr status) ->
  card_header t = Ok header ->
  exists ticket_id,
    dict_get "id" t = Some ticket_id /\
    header = (ticket_id, status, get "jira_key" (JStr "") t).
Proof.
  intros Hs. unfold card_header, card_status, item. rewrite Hs. simpl.
  destruct (dict_get "id" t) as [ticket_id|]; simpl; [|discriminate].
  destruct (dict_get "summary" t); simpl; [|discriminate].
  destruct (dict_get "created_by" t); simpl; [|discriminate].
  intros [= <-]. eauto.
Qed.

Lemma press_approve i w t ticket_id :
  tickets w !! i = Some t ->
  exists entry,
    press e i ticket_id Approve w =
    (Ok tt,
     transitioned i (dict_set "needs_priority_review" (JBool false)
                       (dict_set "status" (JStr "Approved") t)) entry 1 w).
Proof.
  intros Hi. pose proof (lookup_lt_Some _ _ _ Hi) as Hlt.
  eexists. unfold press, bind.
  unfold set_field at 1. rewrite Hi. simpl.
  unfold set_field. simpl. rewrite list_lookup_insert_eq by exact Hlt. simpl.
  rewrite list_insert_insert_eq. unfold append_audit_log, now, tick, ret, bind. simpl.
  reflexivity.
Qed.

Lemma press_start i w t ticket_id :
  tickets w !! i = Some t ->
  exists entry,
    press e i ticket_id Start w =
    (Ok tt,
     transitioned i (dict_set "started_at" (JStr (utcnow e (readings w)))
                       (dict_set "status" (JStr "In Progress") t)) entry 2 w).
Proof.
  intros Hi. pose proof (lookup_lt_Some _ _ _ Hi) as Hlt.
  eexists. unfold press, bind.
  unfold set_field at 1. rewrite Hi. simpl.
  unfold set_field. simpl. rewrite list_lookup_insert_eq by exact Hlt. simpl.
  rewrite list_insert_insert_eq. unfold append_audit_log, now, tick, ret, bind. simpl.
  reflexivity.
Qed.

Lemma press_complete i w t ticket_id :
  tickets w !! i = Some t ->
  exists entry,
    press e i ticket_id Complete w =
    (Ok tt,
     transitioned i (dict_set "completed_at" (JStr (utcnow e (readings w)))
                       (dict_set "status" (JStr "Completed") t)) entry 2 w).
Proof.
  intros Hi. pose proof (lookup_lt_Some _ _ _ Hi) as Hlt.
  eexists. unfold press, bind.
  unfold set_field at 1. rewrite Hi. simpl.
  unfold set_field. simpl. rewrite list_lookup_insert_eq by exact Hlt. simpl.
  rewrite list_insert_insert_eq. unfold append_audit_log, now, tick, ret, bind. simpl.
  reflexivity.
Qed.

(** Writing a field the card does not read leaves the card as it was *)
Lemma card_body_set k v t :
  k <> "priority_score" -> k <> "priority_analysis" ->
  k <> "description" -> k <> "validation" ->
  card_body e (dict_set k v t) = card_body e t.
Proof.
  intros H1 H2 H3 H4.
  unfold card_body, displayed_score, card_completeness_low.
  rewrite !get_set_ne by congruence. reflexivity.
Qed.

Lemma card_header_set k v t :
  k <> "id" -> k <> "status" -> k <> "jira_key" -> k <> "summary" -> k <> "created_by" ->
  card_header (dict_set k v t) = card_header t.
Proof.
  intros H1 H2 H3 H4 H5. unfold card_header, card_status.
  rewrite !item_set_ne, !get_set_ne by congruence. reflexivity.
Qed.

(** Writing a text status changes the status of the header only *)
Lemma card_header_set_status t ticket_id status jira_key status' :
  card_header t = Ok (ticket_id, status, jira_key) ->
  card_header (dict_set "status" (JStr status') t) = Ok (ticket_id, status', jira_key).
Proof.
  assert (item "status" (dict_set "status" (JStr status') t) = Ok (JStr status')) as Hs.
  { unfold item. rewrite dict_get_set_eq. reflexivity. }
  unfold card_header, card_status. rewrite Hs.
  rewrite !item_set_ne, !get_set_ne by discriminate.
  destruct (item "id" t); simpl; [|discriminate].
  destruct (item "status" t); simpl; [|discriminate].
  destruct (item "summary" t); simpl; [|discriminate].
  destruct (item "created_by" t); simpl; [|discriminate].
  intros [= -> _ ->]. reflexivity.
Qed.

End Card.

(** ** The lifecycle *)

Section Lifecycle.

Variable e : env.

Implicit Types (i : nat) (w : world) (t : dict) (b : button).

Lemma transitioned_lookup i t t' entry n w :
  tickets w !! i = Some t ->
  tickets (transitioned i t' entry n w) !! i = Some t'.
Proof.
  intros Hi. simpl. apply list_lookup_insert_eq. eapply lookup_lt_Some. exact Hi.
Qed.

Lemma approve_step i w t ticket_id status jira_key body :
  tickets w !! i = Some t ->
  card_header t = Ok (ticket_id, status, jira_key) ->
  card_body e t = Ok body ->
  status = "Draft" \/ status = "AI Review" ->
  exists entry,
    display_ticket_card e i false (Some Approve) w =
    (Ok tt,
     transitioned i (dict_set "needs_priority_review" (JBool false)
                       (dict_set "status" (JStr "Approved") t)) entry 1 w).
Proof.
  intros Hi Hh Hb Hs.
  rewrite (display_ticket_card_run e i w t _ _ _ _ _ Hi Hh Hb).
  assert (offered e status jira_key Approve = true) as ->.
  { destruct Hs as [-> | ->]; reflexivity. }
  apply press_approve. exact Hi.
Qed.

Lemma start_step i w t ticket_id jira_key body :
  tickets w !! i = Some t ->
  card_header t = Ok (ticket_id, "Approved", jira_key) ->
  card_body e t = Ok body ->
  exists entry,
    display_ticket_card e i false (Some Start) w =
    (Ok tt,
     transitioned i (dict_set "started_at" (JStr (utcnow e (readings w)))
                       (dict_set "status" (JStr "In Progress") t)) entry 2 w).
Proof.
  intros Hi Hh Hb.
  rewrite (display_ticket_card_run e i w t _ _ _ _ _ Hi Hh Hb).
  change (offered e "Approved" jira_key Start) with true. cbv iota.
  apply press_start. exact Hi.
Qed.

Lemma complete_step i w t ticket_id jira_key body :
  tickets w !! i = Some t ->
  card_header t = Ok (ticket_id, "In Progress", jira_key) ->
  card_body e t = Ok body ->
  exists entry,
    display_ticket_card e i false (Some Complete) w =
    (Ok tt,
     transitioned i (dict_set "completed_at" (JStr (utcnow e (readings w)))
                       (dict_set "status" (JStr "Completed") t)) entry 2 w).
Proof.
  intros Hi Hh Hb.
  rewrite (display_ticket_card_run e i w t _ _ _ _ _ Hi Hh Hb).
  change (offered e "In Progress" jira_key Complete) with true. cbv iota.
  apply press_complete. exact Hi.
Qed.

(** A button that the card does not render leaves the world as it is *)
Lemma not_offered_step i w t ticket_id status jira_key body b :
  tickets w !! i = Some t ->
  card_header t = Ok (ticket_id, status, jira_key) ->
  card_body e t = Ok body ->
  offered e status jira_key b = false ->
  display_ticket_card e i false (Some b) w = (Ok tt, w).
Proof.
  intros Hi Hh Hb Ho.
  rewrite (display_ticket_card_run e i w t _ _ _ _ _ Hi Hh Hb), Ho. reflexivity.
Qed.

Lemma sync_step i w t ticket_id status jira_key body :
  tickets w !! i = Some t ->
  card_header t = Ok (ticket_id, status, jira_key) ->
  card_body e t = Ok body ->
  exists w' t',
    display_ticket_card e i false (Some SyncJira) w = (Ok tt, w') /\
    tickets w' !! i = Some t' /\
    dict_get "status" t' = dict_get "status" t.
Proof.
  intros Hi Hh Hb.
  rewrite (display_ticket_card_run e i w t _ _ _ _ _ Hi Hh Hb).
  destruct (offered e status jira_key SyncJira).
  - destruct (sync_ticket_to_jira_status e i w t Hi) as (ok & w' & t' & Hrun & Ht' & Hs).
    exists w', t'. unfold press, bind. rewrite Hrun. auto.
  - exists w, t. auto.
Qed.

End Lifecycle.

(** C3. For every ticket of the session whose status is text and whose card
    can be drawn: Approve acts only from "Draft" or "AI Review" and yields
    "Approved" with [needs_priority_review] cleared; Start acts only from
    "Approved" and yields "In Progress" with [started_at] set to the clock;
    Complete acts only from "In Progress" and yields "Completed" with
    [completed_at] set to the clock. Hence every press of a button other
    than Delete returns without raising and leaves the status where it was
    or one step further on the path Draft/AI Review, Approved, In Progress,
    Completed; and after Approve, Start and Complete in a row, with a clock
    that reads later at Complete than at Start (its second and fourth
    readings from now, audit entries taking the others), [completed_at] is
    greater than [started_at]. *)
Theorem lifecycle_transitions e i w t status :
  tickets w !! i = Some t ->
  dict_get "status" t = Some (JStr status) ->
  full_card_renders e t ->
  ((status = "Draft" \/ status = "AI Review" ->
    exists t', tickets (after_press e i Approve w) !! i = Some t' /\
               dict_get "status" t' = Some (JStr "Approved") /\
               needs_priority_review t' = false) /\
   (status <> "Draft" -> status <> "AI Review" -> after_press e i Approve w = w)) /\
  ((status = "Approved" ->
    exists t', tickets (after_press e i Start w) !! i = Some t' /\
               dict_get "status" t' = Some (JStr "In Progress") /\
               dict_get "started_at" t' = Some (JStr (utcnow e (readings w)))) /\
   (status <> "Approved" -> after_press e i Start w = w)) /\
  ((status = "In Progress" ->
    exists t', tickets (after_press e i Complete w) !! i = Some t' /\
               dict_get "status" t' = Some (JStr "Completed") /\
               dict_get "completed_at" t' = Some (JStr (utcnow e (readings w)))) /\
   (status <> "In Progress" -> after_press e i Complete w = w)) /\
  (forall b, b <> Delete ->
     (display_ticket_card e i false (Some b) w).1 = Ok tt /\
     exists t' status',
       tickets (after_press e i b w) !! i = Some t' /\
       dict_get "status" t' = Some (JStr status') /\
       (status' = status \/
        exists n, rank status = Some n /\ rank status' = Some (S n))) /\
  (str_ltb (utcnow e (1 + readings w)) (utcnow e (3 + readings w)) = true ->
   status = "Draft" \/ status = "AI Review" ->
   exists t' started completed,
     tickets (after_press e i Complete (after_press e i Start (after_press e i Approve w)))
       !! i = Some t' /\
     dict_get "status" t' = Some (JStr "Completed") /\
     dict_get "started_at" t' = Some started /\
     dict_get "completed_at" t' = Some completed /\
     py_lt started completed = Ok true).
Proof.
  intros Hi Hs [[header Hh] [body Hb]].
  destruct (card_header_text t status header Hs Hh) as (ticket_id & Hid & ->).
  set (jira_key := get "jira_key" (JStr "") t) in *.
  assert (forall b, offered e status jira_key b = false -> after_press e i b w = w) as Hoff.
  { intros b Ho. unfold after_press.
    rewrite (not_offered_step e i w t _ _ _ _ b Hi Hh Hb Ho). reflexivity. }
  assert (status = "Draft" \/ status = "AI Review" ->
          exists entry, display_ticket_card e i false (Some Approve) w =
            (Ok tt, transitioned i (dict_set "needs_priority_review" (JBool false)
                                      (dict_set "status" (JStr "Approved") t)) entry 1 w))
    as HA by (apply (approve_step e i w t _ _ _ _ Hi Hh Hb)).
  assert (status = "Approved" ->
          exists entry, display_ticket_card e i false (Some Start) w =
            (Ok tt, transitioned i (dict_set "started_at" (JStr (utcnow e (readings w)))
                                      (dict_set "status" (JStr "In Progress") t)) entry 2 w))
    as HS.
  { intros ->. apply (start_step e i w t _ _ _ Hi Hh Hb). }
  assert (status = "In Progress" ->
          exists entry, display_ticket_card e i false (Some Complete) w =
            (Ok tt, transitioned i (dict_set "completed_at" (JStr (utcnow e (readings w)))
                                      (dict_set "status" (JStr "Completed") t)) entry 2 w))
    as HC.
  { intros ->. apply (complete_step e i w t _ _ _ Hi Hh Hb). }
  split; [split|split; [split|split; [split|split]]].
  - intros Hst. destruct (HA Hst) as [entry Hrun]. unfold after_press. rewrite Hrun.
    eexists. split; [apply (transitioned_lookup i t); exact Hi|].
    split; [rewrite !dict_get_set; reflexivity|].
    unfold needs_priority_review, get. rewrite dict_get_set_eq. reflexivity.
  - intros H1 H2. apply Hoff. simpl.
    destruct (String.eqb_spec status "Draft"); [contradiction|].
    destruct (String.eqb_spec status "AI Review"); [contradiction|]. reflexivity.
  - intros Hst. destruct (HS Hst) as [entry Hrun]. unfold after_press. rewrite Hrun.
    eexists. split; [apply (transitioned_lookup i t); exact Hi|].
    split; rewrite !dict_get_set; reflexivity.
  - intros H1. apply Hoff. simpl.
    destruct (String.eqb_spec status "Approved"); [contradiction | reflexivity].
  - intros Hst. destruct (HC Hst) as [entry Hrun]. unfold after_press. rewrite Hrun.
    eexists. split; [apply (transitioned_lookup i t); exact Hi|].
    split; rewrite !dict_get_set; reflexivity.
  - intros H1. apply Hoff. simpl.
    destruct (String.eqb_spec status "In Progress"); [contradiction | reflexivity].
  - intros b Hb'. unfold after_press.
    destruct b; [| | | |contradiction].
    + destruct (sync_step e i w t _ _ _ _ Hi Hh Hb) as (w' & t' & Hrun & Ht' & Hst).
      rewrite Hrun. split; [reflexivity|]. exists t', status.
      rewrite Hst. auto.
    + destruct (offered e status jira_key Approve) eqn:Ho.
      * assert (status = "Draft" \/ status = "AI Review") as Hst.
        { simpl in Ho. apply orb_true_iff in Ho as [Ho|Ho];
            apply String.eqb_eq in Ho; auto. }
        destruct (HA Hst) as [entry Hrun]. rewrite Hrun. split; [reflexivity|].
        eexists _, "Approved". split; [apply (transitioned_lookup i t); exact Hi|].
        split; [rewrite !dict_get_set; reflexivity|].
        right. exists 0%nat. destruct Hst as [-> | ->]; split; reflexivity.
      * rewrite (not_offered_step e i w t _ _ _ _ _ Hi Hh Hb Ho).
        split; [reflexivity|]. exists t, status. auto.
    + destruct (offered e status jira_key Start) eqn:Ho.
      * assert (status = "Approved") as Hst by (apply String.eqb_eq; exact Ho).
        destruct (HS Hst) as [entry Hrun]. rewrite Hrun. split; [reflexivity|].
        eexists _, "In Progress". split; [apply (transitioned_lookup i t); exact Hi|].
        split; [rewrite !dict_get_set; reflexivity|].
        right. exists 1%nat. rewrite Hst. split; reflexivity.
      * rewrite (not_offered_step e i w t _ _ _ _ _ Hi Hh Hb Ho).
        split; [reflexivity|]. exists t, status. auto.
    + destruct (offered e status jira_key Complete) eqn:Ho.
      * assert (status = "In Progress") as Hst by (apply String.eqb_eq; exact Ho).
        destruct (HC Hst) as [entry Hrun]. rewrite Hrun. split; [reflexivity|].
        eexists _, "Completed". split; [apply (transitioned_lookup i t); exact Hi|].
        split; [rewrite !dict_get_set; reflexivity|].
        right. exists 2%nat. rewrite Hst. split; reflexivity.
      * rewrite (not_offered_step e i w t _ _ _ _ _ Hi Hh Hb Ho).
        split; [reflexivity|]. exists t, status. auto.
  - intros Hclock Hst.
    destruct (HA Hst) as [entry1 Hrun1]. clear HA HS HC Hoff.
    set (t1 := dict_set "needs_priority_review" _ _) in *.
    set (w1 := transitioned i t1 entry1 1 w) in *.
    assert (after_press e i Approve w = w1) as ->
      by (unfold after_press; rewrite Hrun1; reflexivity).
    assert (tickets w1 !! i = Some t1) as Hi1
      by (apply (transitioned_lookup i t); exact Hi).
    assert (card_header t1 = Ok (ticket_id, "Approved", jira_key)) as Hh1.
    { unfold t1. rewrite card_header_set by discriminate.
      apply (card_header_set_status t ticket_id status). exact Hh. }
    assert (card_body e t1 = Ok body) as Hb1.
    { unfold t1. rewrite !card_body_set by discriminate. exact Hb. }
    destruct (start_step e i w1 t1 _ _ _ Hi1 Hh1 Hb1) as [entry2 Hrun2].
    set (t2 := dict_set "started_at" _ _) in *.
    set (w2 := transitioned i t2 entry2 2 w1) in *.
    assert (after_press e i Start w1 = w2) as ->
      by (unfold after_press; rewrite Hrun2; reflexivity).
    assert (tickets w2 !! i = Some t2) as Hi2
      by (apply (transitioned_lookup i t1); exact Hi1).
    assert (card_header t2 = Ok (ticket_id, "In Progress", jira_key)) as Hh2.
    { unfold t2. rewrite card_header_set by discriminate.
      apply (card_header_set_status t1 ticket_id "Approved"). exact Hh1. }
    assert (card_body e t2 = Ok body) as Hb2.
    { unfold t2. rewrite !card_body_set by discriminate. exact Hb1. }
    destruct (complete_step e i w2 t2 _ _ _ Hi2 Hh2 Hb2) as [entry3 Hrun3].
    unfold after_press. rewrite Hrun3.
    eexists _, (JStr (utcnow e (readings w1))), (JStr (utcnow e (readings w2))).
    split; [apply (transitioned_lookup i t2); exact Hi2|].
    split; [rewrite !dict_get_set; reflexivity|].
    split; [unfold t2; rewrite !dict_get_set; reflexivity|].
    split; [rewrite !dict_get_set; reflexivity|].
    simpl. f_equal. exact Hclock.
Qed.

Lemma lifecycle_transitions_witness :
  let e := Sample.mock in
  let t := Sample.stored "0a1b2c3d" "AI Review" in
  let w := Sample.session [t] in
  (exists t', tickets (after_press e 0 Approve w) !! 0%nat = Some t' /\
              dict_get "status" t' = Some (JStr "Approved") /\
              needs_priority_review t' = false) /\
  after_press e 0 Start w = w /\
  after_press e 0 Complete w = w /\
  (exists t' started completed,
     tickets (after_press e 0 Complete (after_press e 0 Start (after_press e 0 Approve w)))
       !! 0%nat = Some t' /\
     dict_get "status" t' = Some (JStr "Completed") /\
     dict_get "started_at" t' = Some started /\
     dict_get "completed_at" t' = Some completed /\
     py_lt started completed = Ok true).
Proof.
  intros e t w.
  assert (tickets w !! 0%nat = Some t) as Hi by reflexivity.
  assert (dict_get "status" t = Some (JStr "AI Review")) as Hs by reflexivity.
  assert (full_card_renders e t) as Hr.
  { split; eexists; vm_compute; reflexivity. }
  destruct (lifecycle_transitions e 0 w t "AI Review" Hi Hs Hr)
    as ((HA & _) & (_ & HS) & (_ & HC) & _ & HL).
  split; [apply HA; right; reflexivity|].
  split; [apply HS; discriminate|].
  split; [apply HC; discriminate|].
  apply HL; [vm_compute; reflexivity | right; reflexivity].
Defined.

(** ** Deletion and listing *)

Lemma without_id_total ticket_id l :
  Forall (fun t => is_Some (dict_get "id" t)) l ->
  exists kept, without_id ticket_id l = Ok kept.
Proof.
  induction 1 as [|t l [v Hv] _ [kept IH]]; simpl; [eauto|].
  unfold item. rewrite Hv. simpl. rewrite IH. simpl. eauto.
Qed.

(** The comprehension keeps, in order, the tickets whose identifier differs *)
Lemma without_id_kept ticket_id l kept :
  without_id ticket_id l = Ok kept ->
  kept `sublist_of` l /\
  forall t, t ∈ kept <->
            t ∈ l /\ exists v, dict_get "id" t = Some v /\ py_ne v ticket_id = true.
Proof.
  revert kept. induction l as [|t0 l IH]; simpl; intros kept.
  - intros [= <-]. split; [constructor|]. intros t. rewrite elem_of_nil. tauto.
  - unfold item. destruct (dict_get "id" t0) as [v0|] eqn:Hv0; simpl; [|discriminate].
    destruct (without_id ticket_id l) as [r|]; simpl; [|discriminate].
    destruct (IH r eq_refl) as [Hsub Hmem].
    destruct (py_ne v0 ticket_id) eqn:Hne; intros [= <-].
    + split; [apply sublist_skip; exact Hsub|].
      intros t. rewrite !elem_of_cons, Hmem. split.
      * intros [-> | [Hin Hv]]; [split; [left; reflexivity | eauto] | tauto].
      * intros [[-> | Hin] Hv]; [left; reflexivity | right; tauto].
    + split; [apply sublist_cons; exact Hsub|].
      intros t. rewrite elem_of_cons, Hmem. split.
      * intros [Hin Hv]. tauto.
      * intros [[-> | Hin] (v & Hv & Hne')]; [|eauto].
        rewrite Hv0 in Hv. injection Hv as ->. congruence.
Qed.

Lemma has_id_differs id t v :
  dict_get "id" t = Some v -> (py_ne v (JStr id) = true <-> ~ has_id id t).
Proof.
  intros Hv. unfold has_id, py_ne. rewrite Hv.
  destruct (py_eq v (JStr id)); simpl; split; congruence.
Qed.

Lemma press_delete e i w ticket_id kept :
  without_id ticket_id (tickets w) = Ok kept ->
  exists entry,
    press e i ticket_id Delete w =
    (Ok tt, mkWorld kept kept (audit_log w ++ [entry]) (ai_calls w) (S (readings w))).
Proof.
  intros Hk. eexists. unfold press, bind, get_tickets, lift. rewrite Hk.
  unfold append_audit_log, now, tick, ret, bind. simpl. reflexivity.
Qed.

(** The filters and the sort of the list only show tickets of the session *)
Lemma filter_status_subset status_filter l r :
  filter_status status_filter l = Ok r -> forall t, t ∈ r -> t ∈ l.
Proof.
  revert r. induction l as [|t0 l IH]; simpl; intros r.
  - intros [= <-]. auto.
  - destruct (item "status" t0); simpl; [|discriminate].
    destruct (filter_status status_filter l) as [r'|]; simpl; [|discriminate].
    specialize (IH r' eq_refl).
    destruct (py_eq _ _); intros [= <-] t; rewrite ?elem_of_cons; intuition.
Qed.

Lemma insert_sorted_subset reverse x l r :
  insert_sorted reverse x l = Ok r -> forall y, y ∈ r -> y = x \/ y ∈ l.
Proof.
  revert r. induction l as [|z l IH]; simpl; intros r.
  - intros [= <-] y. rewrite list_elem_of_singleton. auto.
  - destruct (if reverse then py_lt x.1 z.1 else py_lt z.1 x.1) as [[]|]; simpl;
      [| |discriminate].
    + destruct (insert_sorted reverse x l) as [r'|]; simpl; [|discriminate].
      specialize (IH r' eq_refl). intros [= <-] y. rewrite !elem_of_cons.
      intros [-> | Hy]; [auto|]. destruct (IH y Hy); auto.
    + intros [= <-] y. rewrite !elem_of_cons. tauto.
Qed.

Lemma sort_keyed_subset reverse l r :
  sort_keyed reverse l = Ok r -> forall y, y ∈ r -> y ∈ l.
Proof.
  revert r. induction l as [|x l IH]; simpl; intros r.
  - intros [= <-]. auto.
  - destruct (sort_keyed reverse l) as [r'|]; simpl; [|discriminate].
    intros Hins y Hy. rewrite elem_of_cons.
    destruct (insert_sorted_subset reverse x r' r Hins y Hy); [auto|].
    right. apply (IH r' eq_refl). assumption.
Qed.

Lemma with_keys_snd key l keyed :
  with_keys key l = Ok keyed -> map snd keyed = l.
Proof.
  revert keyed. induction l as [|t l IH]; simpl; intros keyed.
  - intros [= <-]. reflexivity.
  - destruct (key t); simpl; [|discriminate].
    destruct (with_keys key l) as [r|]; simpl; [|discriminate].
    intros [= <-]. simpl. f_equal. apply IH. reflexivity.
Qed.

Lemma sort_by_subset key reverse l r :
  sort_by key reverse l = Ok r -> forall t, t ∈ r -> t ∈ l.
Proof.
  unfold sort_by.
  destruct (with_keys key l) as [keyed|] eqn:Hk; simpl; [|discriminate].
  destruct (sort_keyed reverse keyed) as [sorted|] eqn:Hs; simpl; [|discriminate].
  intros [= <-] t Ht. apply list_elem_of_fmap in Ht as ([k t'] & -> & Hin).
  rewrite <- (with_keys_snd key l keyed Hk).
  apply list_elem_of_fmap. exists (k, t'). split; [reflexivity|].
  apply (sort_keyed_subset reverse keyed sorted Hs). exact Hin.
Qed.

Lemma list_tickets_subset status_filter priority_filter order session r :
  list_tickets status_filter priority_filter order session = Ok r ->
  forall t, t ∈ r -> t ∈ session.
Proof.
  unfold list_tickets.
  destruct (match status_filter with
            | Some s => filter_status s session
            | None => Ok session
            end) as [filtered|] eqn:Hf; simpl; [|discriminate].
  assert (forall t, t ∈ filtered -> t ∈ session) as H1.
  { destruct status_filter as [s|].
    - apply (filter_status_subset s). exact Hf.
    - injection Hf as <-. auto. }
  set (filtered' := match priority_filter with
                    | Some p => filter_priority p filtered
                    | None => filtered
                    end).
  assert (forall t, t ∈ filtered' -> t ∈ filtered) as H2.
  { unfold filtered'. destruct priority_filter as [p|]; [|auto].
    intros t Ht. unfold filter_priority in Ht.
    apply list_elem_of_filter in Ht. tauto. }
  intros Hsort t Ht. apply H1, H2.
  destruct order; eapply sort_by_subset; eassumption.
Qed.

(** ** A deleted identifier stays deleted *)

Section Keeps.

Context {A B : Type} (Inv : world -> Prop).

Lemma keeps_ret (R : A -> Prop) a : R a -> keeps Inv R (ret a).
Proof. intros Ha w Hw. split; [exact Hw|]. intros a' [= <-]. exact Ha. Qed.

Lemma keeps_lift (R : A -> Prop) r : (forall a, r = Ok a -> R a) -> keeps Inv R (lift r).
Proof. intros Hr w Hw. split; [exact Hw | exact Hr]. Qed.

Lemma keeps_bind (R : A -> Prop) (R' : B -> Prop) (m : M A) (k : A -> M B) :
  keeps Inv R m -> (forall a, R a -> keeps Inv R' (k a)) -> keeps Inv R' (bind m k).
Proof.
  intros Hm Hk w Hw. unfold bind.
  destruct (Hm w Hw) as [Hw' Ha]. destruct (m w) as [[a|x] w']; simpl in *.
  - apply (Hk a (Ha a eq_refl) w' Hw').
  - split; [exact Hw'|]. discriminate.
Qed.

Lemma keeps_weaken (R R' : A -> Prop) (m : M A) :
  keeps Inv R m -> (forall a, R a -> R' a) -> keeps Inv R' m.
Proof. intros Hm HR w Hw. destruct (Hm w Hw) as [Hw' Ha]. split; [exact Hw' | auto]. Qed.

Lemma keeps_try_except (R : A -> Prop) (body handler : M A) :
  keeps Inv R body -> keeps Inv R handler -> keeps Inv R (try_except body handler).
Proof.
  intros Hb Hh w Hw. unfold try_except.
  destruct (Hb w Hw) as [Hw' Ha]. destruct (body w) as [[a|x] w']; simpl in *.
  - split; [exact Hw'|]. intros a' [= <-]. auto.
  - apply (Hh w' Hw').
Qed.

End Keeps.

Section Absent.

Variables (e : env) (id : string) (n0 : nat).

Hypothesis fresh : forall n, (n0 <= n)%nat -> uuid4 e n <> id.

Implicit Types (w : world) (t : dict) (i : nat).

Local Abbreviation Inv := (absent id n0).

Local Abbreviation any := (fun _ => True).

(** An operation that leaves the session list and the file alone and takes
    no reading back keeps the invariant *)
Lemma keeps_frame {A} (m : M A) :
  (forall w, tickets (m w).2 = tickets w /\ ticket_file (m w).2 = ticket_file w /\
             (readings w <= readings (m w).2)%nat) ->
  keeps Inv any m.
Proof.
  intros Hm w (H1 & H2 & H3). destruct (Hm w) as (E1 & E2 & E3).
  split; [|auto]. unfold absent. rewrite E1, E2. repeat split; try assumption. lia.
Qed.

Lemma keeps_tick : keeps Inv (fun n => (n0 <= n)%nat) tick.
Proof.
  intros w (H1 & H2 & H3). split.
  - repeat split; simpl; try assumption. lia.
  - intros n [= <-]. exact H3.
Qed.

Lemma keeps_now : keeps Inv any (now e).
Proof.
  unfold now. eapply keeps_bind; [apply keeps_tick|]. intros n _. apply keeps_ret. exact Logic.I.
Qed.

Lemma keeps_new_id : keeps Inv (fun s => s <> id) (new_id e).
Proof.
  unfold new_id. eapply keeps_bind; [apply keeps_tick|].
  intros n Hn. apply keeps_ret. apply fresh. exact Hn.
Qed.

Lemma keeps_append_audit_log action details : keeps Inv any (append_audit_log e action details).
Proof.
  unfold append_audit_log. eapply keeps_bind; [apply keeps_now|].
  intros timestamp _. apply keeps_frame. intros w. simpl. auto.
Qed.

Lemma keeps_save : keeps Inv any save_user_tickets.
Proof. intros w (H1 & H2 & H3). split; [|auto]. repeat split; simpl; assumption. Qed.

Lemma keeps_set_tickets l :
  Forall (fun t => ~ has_id id t) l -> keeps Inv any (set_tickets l).
Proof. intros Hl w (H1 & H2 & H3). split; [|auto]. repeat split; simpl; assumption. Qed.

Lemma keeps_insert_first t : ~ has_id id t -> keeps Inv any (insert_first t).
Proof.
  intros Ht w (H1 & H2 & H3). split; [|auto].
  repeat split; simpl; try assumption. constructor; assumption.
Qed.

Lemma has_id_set k v t : k <> "id" -> has_id id (dict_set k v t) <-> has_id id t.
Proof. intros Hk. unfold has_id. rewrite dict_get_set_ne by congruence. tauto. Qed.

Lemma keeps_set_field i k v : k <> "id" -> keeps Inv any (set_field i k v).
Proof.
  intros Hk w (H1 & H2 & H3). split; [|auto]. unfold set_field.
  destruct (tickets w !! i) as [t|] eqn:Hi; simpl; [|repeat split; assumption].
  repeat split; try assumption.
  apply Forall_insert; [exact H1|]. rewrite has_id_set by exact Hk.
  rewrite Forall_forall in H1. apply H1. eapply list_elem_of_lookup_2. exact Hi.
Qed.

Lemma keeps_ticket_at i : keeps Inv any (ticket_at i).
Proof. apply keeps_frame. intros w. unfold ticket_at. destruct (tickets w !! i); simpl; auto. Qed.

Lemma keeps_refresh : keeps Inv any refresh.
Proof.
  unfold refresh. eapply (keeps_bind _ (fun l => Forall (fun t => ~ has_id id t) l)).
  - intros w (H1 & H2 & H3). split; [repeat split; assumption|].
    intros l [= <-]. exact H2.
  - intros l Hl. apply keeps_set_tickets. exact Hl.
Qed.

Lemma keeps_sync i : keeps Inv any (sync_ticket_to_jira e i).
Proof.
  unfold sync_ticket_to_jira. destruct (negb (jira_is_configured e)).
  { apply keeps_ret. exact Logic.I. }
  eapply keeps_bind; [apply keeps_ticket_at|]. intros ticket _.
  destruct (truthy (create_jira_issue e ticket)); [|apply keeps_ret; exact Logic.I].
  eapply keeps_bind; [apply keeps_set_field; discriminate|]. intros _ _.
  eapply keeps_bind; [apply keeps_now|]. intros synced_at _.
  eapply keeps_bind; [apply keeps_set_field; discriminate|]. intros _ _.
  eapply keeps_bind; [apply keeps_save|]. intros _ _.
  eapply keeps_bind; [apply (keeps_lift _ any); auto|]. intros ticket_id _.
  eapply keeps_bind; [apply keeps_append_audit_log|]. intros _ _.
  apply keeps_ret. exact Logic.I.
Qed.

Lemma keeps_press i ticket_id b : keeps Inv any (press e i ticket_id b).
Proof.
  destruct b; unfold press.
  - eapply keeps_bind; [apply keeps_sync|]. intros _ _. apply keeps_ret. exact Logic.I.
  - eapply keeps_bind; [apply keeps_set_field; discriminate|]. intros _ _.
    eapply keeps_bind; [apply keeps_set_field; discriminate|]. intros _ _.
    eapply keeps_bind; [apply keeps_save|]. intros _ _.
    apply keeps_append_audit_log.
  - eapply keeps_bind; [apply keeps_set_field; discriminate|]. intros _ _.
    eapply keeps_bind; [apply keeps_now|]. intros started_at _.
    eapply keeps_bind; [apply keeps_set_field; discriminate|]. intros _ _.
    eapply keeps_bind; [apply keeps_save|]. intros _ _.
    apply keeps_append_audit_log.
  - eapply keeps_bind; [apply keeps_set_field; discriminate|]. intros _ _.
    eapply keeps_bind; [apply keeps_now|]. intros completed_at _.
    eapply keeps_bind; [apply keeps_set_field; discriminate|]. intros _ _.
    eapply keeps_bind; [apply keeps_save|]. intros _ _.
    apply keeps_append_audit_log.
  - eapply (keeps_bind _ (fun l => Forall (fun t => ~ has_id id t) l)).
    { intros w (H1 & H2 & H3). split; [repeat split; assumption|].
      intros l [= <-]. exact H1. }
    intros all Hall.
    eapply (keeps_bind _ (fun l => Forall (fun t => ~ has_id id t) l)).
    { apply keeps_lift. intros kept Hk.
      apply without_id_kept in Hk as [Hsub _].
      rewrite Forall_forall in *. intros t Ht. apply Hall.
      eapply elem_of_sublist; eassumption. }
    intros kept Hkept.
    eapply keeps_bind; [apply keeps_set_tickets; exact Hkept|]. intros _ _.
    eapply keeps_bind; [apply keeps_save|]. intros _ _.
    apply keeps_append_audit_log.
Qed.

Lemma keeps_display_ticket_card i compact pressed :
  keeps Inv any (display_ticket_card e i compact pressed).
Proof.
  unfold display_ticket_card.
  eapply keeps_bind; [apply keeps_ticket_at|]. intros ticket _.
  eapply keeps_bind; [apply (keeps_lift _ any); auto|]. intros [[ticket_id status] jira_key] _.
  destruct compact; [apply keeps_ret; exact Logic.I|].
  eapply keeps_bind; [apply (keeps_lift _ any); auto|]. intros _ _.
  destruct pressed as [b|]; [|apply keeps_ret; exact Logic.I].
  destruct (offered e status jira_key b); [apply keeps_press | apply keeps_ret; exact Logic.I].
Qed.

(** A created ticket carries a fresh identifier *)
Lemma keeps_create_ticket username ticket_data :
  dict_get "id" ticket_data = None ->
  keeps Inv (fun t => ~ has_id id t) (create_ticket e username ticket_data).
Proof.
  intros Hid w (H1 & H2 & H3).
  destruct (create_ticket_run e username ticket_data w)
    as (analysis & declared & _ & _ & Hrun).
  cbv zeta in Hrun. rewrite Hrun. simpl. split.
  - unfold absent, after_creation. simpl. repeat split; try assumption. lia.
  - assert (dict_get "id" (initial_ticket e username ticket_data (readings w))
            = Some (JStr (uuid4 e (readings w)))) as H0.
    { unfold initial_ticket. rewrite dict_get_update_absent by exact Hid. reflexivity. }
    assert (~ py_eq (JStr (uuid4 e (readings w))) (JStr id) = true) as Hne.
    { simpl. intros Heq. apply String.eqb_eq in Heq. apply (fresh (readings w) H3 Heq). }
    intros t [= <-]. unfold has_id.
    destruct (py_ne _ declared); rewrite !dict_get_set; simpl; rewrite H0; exact Hne.
Qed.

Lemma keeps_submit_form username summary description server rack user_priority b :
  keeps Inv any (submit_form e username summary description server rack user_priority b).
Proof.
  unfold submit_form.
  destruct (String.eqb summary "" || String.eqb description "" ||
            String.eqb server "" || String.eqb rack "");
    [apply keeps_ret; exact Logic.I|].
  eapply keeps_bind; [apply keeps_create_ticket; reflexivity|]. intros new_ticket Hnew.
  eapply keeps_bind; [apply keeps_insert_first; exact Hnew|]. intros _ _.
  eapply keeps_bind; [apply keeps_save|]. intros _ _.
  eapply keeps_bind; [apply (keeps_lift _ any); auto|]. intros new_id _.
  eapply keeps_bind; [apply (keeps_lift _ any); auto|]. intros new_summary _.
  eapply keeps_bind; [apply keeps_append_audit_log|]. intros _ _.
  eapply (keeps_bind _ any).
  { destruct b; [apply keeps_ret; exact Logic.I | apply keeps_sync | apply keeps_sync]. }
  intros _ _. apply keeps_ret. exact Logic.I.
Qed.

Lemma keeps_import_rows username sync rows : forall imported_count,
  keeps Inv any (import_rows e username sync rows imported_count).
Proof.
  induction rows as [|row rows IH]; intros imported_count; simpl.
  - apply keeps_ret. exact Logic.I.
  - eapply (keeps_bind _ any); [|intros n _; apply IH].
    apply keeps_try_except; [|apply keeps_ret; exact Logic.I].
    eapply keeps_bind; [apply keeps_create_ticket; reflexivity|]. intros new_ticket Hnew.
    eapply keeps_bind; [apply keeps_insert_first; exact Hnew|]. intros _ _.
    eapply (keeps_bind _ any).
    { destruct sync; [apply keeps_sync | apply keeps_ret; exact Logic.I]. }
    intros _ _. apply keeps_ret. exact Logic.I.
Qed.

Lemma keeps_run_event username ev : keeps Inv any (run_event e username ev).
Proof.
  destruct ev; simpl.
  - apply keeps_display_ticket_card.
  - eapply keeps_bind; [apply keeps_submit_form|]. intros _ _. apply keeps_ret. exact Logic.I.
  - eapply keeps_bind; [|intros _ _; apply keeps_ret; exact Logic.I].
    unfold import_csv.
    eapply keeps_bind; [apply keeps_import_rows|]. intros imported_count _.
    eapply keeps_bind; [apply keeps_save|]. intros _ _.
    eapply keeps_bind; [apply keeps_append_audit_log|]. intros _ _.
    apply keeps_ret. exact Logic.I.
  - apply keeps_refresh.
Qed.

(** Whatever the user does next, the identifier does not come back *)
Lemma absent_run_events username evs : forall w,
  absent id n0 w -> absent id n0 (run_events e username evs w).
Proof.
  induction evs as [|ev evs IH]; intros w Hw; simpl; [exact Hw|].
  apply IH. apply (keeps_run_event username ev w Hw).
Qed.

End Absent.

Lemma card_header_id t ticket_id status jira_key :
  card_header t = Ok (ticket_id, status, jira_key) -> dict_get "id" t = Some ticket_id.
Proof.
  unfold card_header, item.
  destruct (dict_get "id" t); simpl; [|discriminate].
  destruct (card_status t); simpl; [|discriminate].
  destruct (dict_get "summary" t); simpl; [|discriminate].
  destruct (dict_get "created_by" t); simpl; [|discriminate].
  intros [= -> _ _]. reflexivity.
Qed.

(** C9. For every ticket of the session, whatever its status, whose card can
    be drawn (every stored ticket having an identifier, this one a text),
    Delete returns without raising and removes exactly the tickets with that
    identifier from the session and from the ticket file: every other ticket
    stays, unchanged and in order. The deleted ticket is in no list of the
    "Tickets" tab afterwards, and nothing the user does later in the session
    brings a ticket with that identifier back, as long as the identifier
    source does not issue it again. *)
Theorem delete_removes_ticket e username i w t id :
  tickets w !! i = Some t ->
  dict_get "id" t = Some (JStr id) ->
  full_card_renders e t ->
  Forall (fun t' => is_Some (dict_get "id" t')) (tickets w) ->
  (display_ticket_card e i false (Some Delete) w).1 = Ok tt /\
  (forall t', t' ∈ tickets (after_press e i Delete w) <->
              t' ∈ tickets w /\ ~ has_id id t') /\
  tickets (after_press e i Delete w) `sublist_of` tickets w /\
  ticket_file (after_press e i Delete w) = tickets (after_press e i Delete w) /\
  (t ∉ tickets (after_press e i Delete w)) /\
  (forall status_filter priority_filter order l,
     list_tickets status_filter priority_filter order
       (tickets (after_press e i Delete w)) = Ok l ->
     forall t', t' ∈ l -> ~ has_id id t') /\
  ((forall n, (readings (after_press e i Delete w) <= n)%nat -> uuid4 e n <> id) ->
   forall evs status_filter priority_filter order l,
     list_tickets status_filter priority_filter order
       (tickets (run_events e username evs (after_press e i Delete w))) = Ok l ->
     forall t', t' ∈ l -> ~ has_id id t').
Proof.
  intros Hi Hid [[[[ticket_id status] jira_key] Hh] [body Hb]] Hids.
  pose proof (card_header_id t _ _ _ Hh) as Hid'.
  rewrite Hid in Hid'. injection Hid' as <-.
  destruct (without_id_total (JStr id) (tickets w) Hids) as [kept Hk].
  destruct (press_delete e i w (JStr id) kept Hk) as [entry Hp].
  assert (display_ticket_card e i false (Some Delete) w =
          (Ok tt, mkWorld kept kept (audit_log w ++ [entry]) (ai_calls w) (S (readings w))))
    as Hrun.
  { rewrite (display_ticket_card_run e i w t _ _ _ _ _ Hi Hh Hb). exact Hp. }
  unfold after_press. rewrite Hrun. simpl.
  destruct (without_id_kept (JStr id) (tickets w) kept Hk) as [Hsub Hmem].
  assert (forall t', t' ∈ kept <-> t' ∈ tickets w /\ ~ has_id id t') as Hmem'.
  { intros t'. rewrite Hmem. split.
    - intros [Hin (v & Hv & Hne)]. split; [exact Hin|].
      apply (has_id_differs id t' v Hv). exact Hne.
    - intros [Hin Hno]. split; [exact Hin|].
      rewrite Forall_forall in Hids. destruct (Hids t' Hin) as [v Hv].
      exists v. split; [exact Hv|]. apply (has_id_differs id t' v Hv). exact Hno. }
  assert (Forall (fun t' => ~ has_id id t') kept) as Hnone.
  { rewrite Forall_forall. intros t' Ht'. apply Hmem' in Ht'. tauto. }
  split; [reflexivity|]. split; [exact Hmem'|]. split; [exact Hsub|].
  split; [reflexivity|]. split.
  { intros Hin. apply Hmem' in Hin as [_ Hno]. apply Hno.
    unfold has_id. rewrite Hid. simpl. apply String.eqb_refl. }
  split.
  - intros sf pf order l Hl t' Ht'. rewrite Forall_forall in Hnone. apply Hnone.
    eapply list_tickets_subset; eassumption.
  - intros Hfresh evs sf pf order l Hl t' Ht'.
    assert (absent id (S (readings w))
              (run_events e username evs
                 (mkWorld kept kept (audit_log w ++ [entry]) (ai_calls w) (S (readings w)))))
      as (Hfinal & _ & _).
    { apply absent_run_events; [exact Hfresh|].
      repeat split; simpl; try assumption. lia. }
    rewrite Forall_forall in Hfinal. apply Hfinal.
    eapply list_tickets_subset; eassumption.
Qed.

Lemma delete_removes_ticket_witness :
  let e := Sample.mock in
  let t := Sample.stored "deadbeef" "In Progress" in
  let other := Sample.stored "0a1b2c3d" "Draft" in
  let w := Sample.session [other; t] in
  (display_ticket_card e 1 false (Some Delete) w).1 = Ok tt /\
  tickets (after_press e 1 Delete w) = [other] /\
  ticket_file (after_press e 1 Delete w) = [other] /\
  (t ∉ tickets (after_press e 1 Delete w)) /\
  (forall evs status_filter priority_filter order l,
     list_tickets status_filter priority_filter order
       (tickets (run_events e "tech1" evs (after_press e 1 Delete w))) = Ok l ->
     forall t', t' ∈ l -> ~ has_id "deadbeef" t').
Proof.
  intros e t other w.
  assert (tickets w !! 1%nat = Some t) as Hi by reflexivity.
  assert (dict_get "id" t = Some (JStr "deadbeef")) as Hid by reflexivity.
  assert (full_card_renders e t) as Hr.
  { split; eexists; vm_compute; reflexivity. }
  assert (Forall (fun t' => is_Some (dict_get "id" t')) (tickets w)) as Hids.
  { repeat constructor; eexists; reflexivity. }
  destruct (delete_removes_ticket e "tech1" 1 w t "deadbeef" Hi Hid Hr Hids)
    as (H1 & _ & _ & _ & H5 & _ & H7).
  split; [exact H1|].
  split; [vm_compute; reflexivity|].
  split; [vm_compute; reflexivity|].
  split; [exact H5|].
  apply H7. intros n _. simpl. destruct (Nat.even n); discriminate.
Defined.

(** ** The mock client and the priority prompt *)

#[local] Arguments String.append !_ _ / : simpl nomatch.

Lemma lower_app a b : lower (a +:+ b) = lower a +:+ lower b.
Proof. induction a as [|c a IH]; simpl; [reflexivity|]. rewrite IH. reflexivity. Qed.

Lemma append_char_assoc a c d b :
  a +:+ String c (String d b) = (a +:+ String c EmptyString) +:+ String d b.
Proof. induction a as [|x a IH]; simpl; [reflexivity|]. rewrite IH. reflexivity. Qed.

(** A phrase cannot begin before a character it does not have and end
    after it *)
Lemma prefix_sep p c : forall a b,
  has_char c p = false ->
  String.prefix p (a +:+ String c b) = String.prefix p a.
Proof.
  induction p as [|x p IH]; intros a b Hc.
  - destruct a; reflexivity.
  - simpl in Hc. apply orb_false_iff in Hc as [Hx Hp].
    destruct a as [|y a]; simpl.
    + destruct (ascii_dec x c) as [->|_]; [|reflexivity].
      rewrite Ascii.eqb_refl in Hx. discriminate.
    + destruct (ascii_dec x y); [|reflexivity]. apply IH. exact Hp.
Qed.

Lemma str_in_sep p c a b :
  has_char c p = false ->
  str_in p (a +:+ String c b) = str_in p a || str_in p b.
Proof.
  intros Hc. induction a as [|y a IH].
  - change (str_in p (EmptyString +:+ String c b))
      with (String.prefix p (EmptyString +:+ String c b) || str_in p b).
    rewrite prefix_sep by exact Hc. simpl. rewrite orb_false_r. reflexivity.
  - change (str_in p (String y a +:+ String c b))
      with (String.prefix p (String y a +:+ String c b) || str_in p (a +:+ String c b)).
    rewrite prefix_sep by exact Hc. rewrite IH. simpl. rewrite orb_assoc. reflexivity.
Qed.

(** A phrase that does not end with a character cannot end on it *)
Lemma prefix_trail p c : forall s,
  ends_with c p = false ->
  String.prefix p (s +:+ String c EmptyString) = String.prefix p s.
Proof.
  induction p as [|x p IH]; intros s He; [discriminate|].
  destruct s as [|y s]; simpl.
  - destruct (ascii_dec x c) as [->|_]; [|reflexivity].
    destruct p; [|reflexivity]. simpl in He. rewrite Ascii.eqb_refl in He. discriminate.
  - destruct (ascii_dec x y); [|reflexivity].
    destruct p as [|x' p]; [destruct s; reflexivity|]. apply IH. exact He.
Qed.

Lemma str_in_trail p c s :
  ends_with c p = false ->
  str_in p (s +:+ String c EmptyString) = str_in p s.
Proof.
  intros He. induction s as [|y s IH].
  - change (str_in p (EmptyString +:+ String c EmptyString))
      with (String.prefix p (EmptyString +:+ String c EmptyString) ||
            (String.prefix p EmptyString || false)).
    rewrite prefix_trail by exact He. destruct p; reflexivity.
  - change (str_in p (String y s +:+ String c EmptyString))
      with (String.prefix p (String y s +:+ String c EmptyString) ||
            str_in p (s +:+ String c EmptyString)).
    rewrite prefix_trail by exact He. rewrite IH. reflexivity.
Qed.

(** The priority prompt contains the phrase of the canned priority judgement
    only if one of the five interpolated fields does: the fixed text of the
    prompt reads "calculate objective priority" and "Calculate the actual
    priority score" *)
Lemma priority_prompt_phrase_free e ticket :
  phrase_free e (get "summary" (JStr "") ticket) ->
  phrase_free e (get "description" (JStr "") ticket) ->
  phrase_free e (get "user_priority" (JStr "Not specified") ticket) ->
  phrase_free e (get "rack" (JStr "") ticket) ->
  phrase_free e (get "server" (JStr "") ticket) ->
  str_in priority_phrase (lower (priority_user_prompt e ticket)) = false.
Proof.
  unfold phrase_free, priority_user_prompt.
  set (s := fmt e (get "summary" _ _)). set (d := fmt e (get "description" _ _)).
  set (p := fmt e (get "user_priority" _ _)). set (r := fmt e (get "rack" _ _)).
  set (v := fmt e (get "server" _ _)).
  intros Hs Hd Hp Hr Hv. rewrite !lower_app.
  set (ls := lower s) in *. set (ld := lower d) in *. set (lp := lower p) in *.
  set (lr := lower r) in *. set (lv := lower v) in *.
  unfold priority_phrase in *.
  repeat match goal with
         | |- context [lower ?x] =>
             let y := eval vm_compute in (lower x) in change (lower x) with y
         end.
  simpl.
  rewrite str_in_sep, Hs by reflexivity. simpl.
  rewrite str_in_sep, Hd by reflexivity. simpl.
  rewrite str_in_sep, Hp by reflexivity. simpl.
  rewrite append_char_assoc, str_in_sep, str_in_trail, Hr by reflexivity. simpl.
  rewrite str_in_sep, Hv by reflexivity. reflexivity.
Qed.

(** The two canned replies that can answer a prompt without the phrase carry
    neither a priority nor a score *)
Lemma mock_reply_without_priority e system_prompt user_prompt :
  use_mock e = true ->
  str_in priority_phrase (lower user_prompt) = false ->
  call_ai_reply e system_prompt user_prompt <> mock_priority /\
  exists d,
    decode_response (call_ai_reply e system_prompt user_prompt) = Some (JObj d) /\
    dict_get "calculated_priority" d = None /\
    dict_get "priority_score" d = None.
Proof.
  intros Hm Hp. unfold call_ai_reply. rewrite Hm.
  unfold priority_phrase in Hp. rewrite Hp.
  destruct (str_in "validate" _ || str_in "complete" _).
  - split; [vm_compute; discriminate|]. vm_compute. eexists. repeat split.
  - split; [vm_compute; discriminate|]. vm_compute. eexists. repeat split.
Qed.

(** X22. In mock mode, for a [ticket_data] with distinct keys that carries no
    status, review flag or [user_priority] of its own and whose interpolated
    fields (summary, description, declared priority, rack, server) do not
    contain "calculate priority score" in any letter case, the priority
    prompt does not contain the phrase either, so the reply is not the
    canned priority judgement, and the ticket has [calculated_priority] and
    [user_priority] both equal to the declared priority and the score 5.0.
    The review test then compares the declared priority with itself: where
    it equals itself (every text does) the status is "Draft" and there is no
    [needs_priority_review] field, and where it does not the ticket is set
    to "AI Review" and flagged. (The phrases "validate" and "complete" only
    choose between two replies that both lack a priority, so they need no
    hypothesis.) *)
Theorem mock_priority_template_unreachable e username ticket_data w :
  let declared := get "priority" (JStr "Medium") ticket_data in
  use_mock e = true ->
  NoDup (map fst ticket_data) ->
  dict_get "status" ticket_data = None ->
  dict_get "needs_priority_review" ticket_data = None ->
  dict_get "user_priority" ticket_data = None ->
  phrase_free e (get "summary" (JStr "") ticket_data) ->
  phrase_free e (get "description" (JStr "") ticket_data) ->
  phrase_free e declared ->
  phrase_free e (get "rack" (JStr "") ticket_data) ->
  phrase_free e (get "server" (JStr "") ticket_data) ->
  exists ticket w' system_prompt user_prompt,
    create_ticket e username ticket_data w = (Ok ticket, w') /\
    last (ai_calls w') = Some (system_prompt, user_prompt) /\
    str_in priority_phrase (lower user_prompt) = false /\
    call_ai_reply e system_prompt user_prompt <> mock_priority /\
    dict_get "calculated_priority" ticket = Some declared /\
    dict_get "user_priority" ticket = Some declared /\
    dict_get "priority_score" ticket = Some (JNum 5.0) /\
    (py_ne declared declared = false ->
     dict_get "status" ticket = Some (JStr "Draft") /\
     dict_get "needs_priority_review" ticket = None) /\
    (py_ne declared declared = true ->
     dict_get "status" ticket = Some (JStr "AI Review") /\
     dict_get "needs_priority_review" ticket = Some (JBool true)) /\
    (forall text, declared = JStr text -> py_ne declared declared = false).
Proof.
  intros declared Hm Hnd Hstatus Hflag Hup Hs Hd Hp Hr Hv.
  destruct (create_ticket_run e username ticket_data w)
    as (analysis & declared' & Ha & Hd' & Hrun).
  cbv zeta in Hrun.
  set (t0 := initial_ticket e username ticket_data (readings w)) in *.
  set (t1 := dict_set "validation" (validation_judgement e t0) t0) in *.
  assert (forall k dflt, k <> "validation" ->
            dict_get k [("id", JStr (uuid4 e (readings w)));
                        ("created_at", JStr (utcnow e (S (readings w))));
                        ("created_by", JStr username);
                        ("status", JStr "Draft");
                        ("user_priority", get "priority" (JStr "Medium") ticket_data)] = None ->
            get k dflt t1 = get k dflt ticket_data) as Hfield.
  { intros k dflt Hk Hbase. unfold get, t1. rewrite dict_get_set_ne by exact Hk.
    unfold t0, initial_ticket. rewrite dict_get_update by exact Hnd.
    rewrite Hbase. destruct (dict_get k ticket_data); reflexivity. }
  assert (dict_get "user_priority" t0 = Some declared) as Hup0.
  { unfold t0, initial_ticket. rewrite dict_get_update_absent by exact Hup.
    reflexivity. }
  rewrite Hup0 in Hd'. injection Hd' as <-.
  assert (dict_get "user_priority" t1 = Some declared) as Hup1.
  { unfold t1. rewrite dict_get_set. exact Hup0. }
  assert (str_in priority_phrase (lower (priority_user_prompt e t1)) = false) as Hprompt.
  { apply priority_prompt_phrase_free.
    - rewrite Hfield by (discriminate || reflexivity). exact Hs.
    - rewrite Hfield by (discriminate || reflexivity). exact Hd.
    - unfold get. rewrite Hup1. exact Hp.
    - rewrite Hfield by (discriminate || reflexivity). exact Hr.
    - rewrite Hfield by (discriminate || reflexivity). exact Hv. }
  destruct (mock_reply_without_priority e priority_system_prompt
              (priority_user_prompt e t1) Hm Hprompt)
    as (Hnot & d & Hdec & Hc & Hsc).
  assert (analysis = d) as ->.
  { unfold priority_judgement in Ha. rewrite Hdec in Ha. congruence. }
  unfold get in Hrun. rewrite Hc, Hsc in Hrun.
  eexists _, _, priority_system_prompt, (priority_user_prompt e t1).
  split; [exact Hrun|].
  split; [unfold after_creation; simpl; apply last_snoc|].
  split; [exact Hprompt|]. split; [exact Hnot|].
  assert (forall text, declared = JStr text -> py_ne declared declared = false) as Htext.
  { intros text ->. unfold py_ne. simpl. rewrite String.eqb_refl. reflexivity. }
  destruct (py_ne declared declared) eqn:Hne.
  - rewrite !dict_get_set. simpl.
    split; [reflexivity|]. split; [exact Hup1|]. split; [reflexivity|].
    split; [discriminate|]. split; [|exact Htext]. intros _. split; reflexivity.
  - rewrite !dict_get_set. simpl.
    split; [reflexivity|]. split; [exact Hup1|]. split; [reflexivity|].
    split; [|split; [discriminate | exact Htext]]. intros _.
    unfold t1. rewrite !dict_get_set. simpl. unfold t0, initial_ticket.
    rewrite !dict_get_update_absent by assumption. split; reflexivity.
Qed.

Lemma mock_priority_template_unreachable_witness :
  exists ticket w' system_prompt user_prompt,
    create_ticket Sample.mock "tech1" Sample.ticket_data Sample.empty_world = (Ok ticket, w') /\
    last (ai_calls w') = Some (system_prompt, user_prompt) /\
    str_in priority_phrase (lower user_prompt) = false /\
    call_ai_reply Sample.mock system_prompt user_prompt <> mock_priority /\
    dict_get "calculated_priority" ticket = Some (JStr "High") /\
    dict_get "user_priority" ticket = Some (JStr "High") /\
    dict_get "priority_score" ticket = Some (JNum 5.0) /\
    (py_ne (JStr "High") (JStr "High") = false ->
     dict_get "status" ticket = Some (JStr "Draft") /\
     dict_get "needs_priority_review" ticket = None) /\
    (py_ne (JStr "High") (JStr "High") = true ->
     dict_get "status" ticket = Some (JStr "AI Review") /\
     dict_get "needs_priority_review" ticket = Some (JBool true)) /\
    (forall text, JStr "High" = JStr text -> py_ne (JStr "High") (JStr "High") = false).
Proof.
  apply (mock_priority_template_unreachable Sample.mock "tech1" Sample.ticket_data
           Sample.empty_world);
    try reflexivity.
  apply (bool_decide_unpack _). vm_compute. reflexivity.
Defined.

(** ** The reply around the object *)

Lemma str_in_char_app c a b : str_in (String c EmptyString) (a +:+ String c b) = true.
Proof.
  induction a as [|x a IH]; simpl.
  - destruct (ascii_dec c c); [|congruence]. destruct b; reflexivity.
  - rewrite IH. apply orb_true_r.
Qed.

Lemma find_app c a b :
  has_char c a = false -> find c (a +:+ String c b) = Z.of_nat (String.length a).
Proof.
  induction a as [|x a IH]; simpl; intros H.
  - rewrite Ascii.eqb_refl. reflexivity.
  - apply orb_false_iff in H as [Hx Ha]. rewrite Hx, (IH Ha).
    destruct (Z.ltb_spec (Z.of_nat (String.length a)) 0); lia.
Qed.

Lemma rfind_absent c s : has_char c s = false -> rfind c s = (-1)%Z.
Proof.
  induction s as [|x s IH]; simpl; intros H; [reflexivity|].
  apply orb_false_iff in H as [Hx Hs]. rewrite (IH Hs), Hx. reflexivity.
Qed.

Lemma rfind_app c a b :
  has_char c b = false -> rfind c (a +:+ String c b) = Z.of_nat (String.length a).
Proof.
  intros H. induction a as [|x a IH]; simpl.
  - rewrite (rfind_absent _ _ H), Ascii.eqb_refl. reflexivity.
  - rewrite IH. destruct (Z.leb_spec 0 (Z.of_nat (String.length a))); lia.
Qed.

Lemma substring_middle a m b :
  substring (String.length a) (String.length m) (a +:+ m +:+ b) = m.
Proof.
  induction a as [|x a IH]; simpl; [|exact IH].
  induction m as [|y m IHm]; simpl.
  - destruct b; reflexivity.
  - rewrite IHm. reflexivity.
Qed.

Lemma length_app_string a b : String.length (a +:+ b) = (String.length a + String.length b)%nat.
Proof. induction a; simpl; congruence. Qed.

Lemma app_string_assoc a b c : (a +:+ b) +:+ c = a +:+ (b +:+ c).
Proof. induction a; simpl; congruence. Qed.

(** X1. The two judgement functions decode the text from the first opening
    brace to the last closing brace: whatever the advisory service writes
    before the object (without an opening brace) and after it (without a
    closing brace) is ignored. *)
Theorem decode_response_ignores_prose pre mid post :
  has_char "{"%char pre = false ->
  has_char "}"%char post = false ->
  decode_response (pre +:+ String "{"%char (mid +:+ "}") +:+ post)
  = json_loads (String "{"%char (mid +:+ "}")).
Proof.
  intros Hpre Hpost. unfold decode_response.
  set (body := String "{"%char (mid +:+ "}")).
  assert (Hin : str_in "{" (pre +:+ body +:+ post) = true).
  { unfold body. simpl. apply str_in_char_app. }
  rewrite Hin.
  assert (Hf : find "{"%char (pre +:+ body +:+ post) = Z.of_nat (String.length pre)).
  { unfold body. simpl. apply find_app, Hpre. }
  assert (Hr : rfind "}"%char (pre +:+ body +:+ post)
               = Z.of_nat (String.length pre + S (String.length mid))).
  { replace (pre +:+ body +:+ post)
      with ((pre +:+ String "{"%char mid) +:+ String "}"%char post).
    - rewrite (rfind_app _ _ _ Hpost), length_app_string. reflexivity.
    - unfold body. rewrite app_string_assoc. simpl. rewrite app_string_assoc. reflexivity. }
  rewrite Hf, Hr. unfold slice.
  replace (Z.to_nat (Z.of_nat (String.length pre))) with (String.length pre) by lia.
  replace (Z.to_nat (Z.of_nat (String.length pre + S (String.length mid)) + 1
                     - Z.of_nat (String.length pre)))
    with (String.length body).
  - rewrite substring_middle. reflexivity.
  - unfold body. simpl. rewrite length_app_string. simpl. lia.
Qed.

Lemma decode_response_ignores_prose_witness :
  decode_response ("Here is the analysis: " +:+
                   String "{"%char (quoted "'priority_score': 7" +:+ "}") +:+ " Hope this helps.")
  = json_loads (String "{"%char (quoted "'priority_score': 7" +:+ "}")).
Proof.
  apply (decode_response_ignores_prose "Here is the analysis: " (quoted "'priority_score': 7")
           " Hope this helps."); reflexivity.
Defined.

(** ** What a creation does *)

Lemma priority_user_prompt_validation e v t :
  priority_user_prompt e (dict_set "validation" v t) = priority_user_prompt e t.
Proof. unfold priority_user_prompt. rewrite !get_set_ne by discriminate. reflexivity. Qed.

(** The generated fields of a new ticket, which [ticket_data] overrides *)
Lemma create_ticket_fields e username ticket_data w :
  exists ticket,
    create_ticket e username ticket_data w =
    (Ok ticket,
     after_creation e (initial_ticket e username ticket_data (readings w))
       (dict_set "validation"
          (validation_judgement e (initial_ticket e username ticket_data (readings w)))
          (initial_ticket e username ticket_data (readings w))) w) /\
    forall k,
      k <> "validation" -> k <> "priority_analysis" -> k <> "calculated_priority" ->
      k <> "priority_score" -> k <> "status" -> k <> "needs_priority_review" ->
      dict_get k ticket = dict_get k (initial_ticket e username ticket_data (readings w)).
Proof.
  destruct (create_ticket_run e username ticket_data w)
    as (analysis & declared & _ & _ & Hrun).
  cbv zeta in Hrun. rewrite Hrun. eexists. split; [reflexivity|].
  intros k H1 H2 H3 H4 H5 H6.
  destruct (py_ne _ declared); rewrite !dict_get_set_ne by assumption; reflexivity.
Qed.

(** X2. [create_ticket] never raises, whatever the advisory service replies.
    It reads the identifier and the clock once each, makes exactly two
    advisory calls, the validation first and the priority second, both about
    the ticket as it was first assembled, and leaves the session list, the
    ticket file and the audit log to its caller. *)
Theorem create_ticket_effects e username ticket_data w :
  exists ticket w',
    create_ticket e username ticket_data w = (Ok ticket, w') /\
    tickets w' = tickets w /\
    ticket_file w' = ticket_file w /\
    audit_log w' = audit_log w /\
    readings w' = (2 + readings w)%nat /\
    ai_calls w' =
    (ai_calls w ++
       [(validation_system_prompt,
         validation_user_prompt e (initial_ticket e username ticket_data (readings w)));
        (priority_system_prompt,
         priority_user_prompt e (initial_ticket e username ticket_data (readings w)))])%list.
Proof.
  destruct (create_ticket_fields e username ticket_data w) as (ticket & Hrun & _).
  exists ticket. eexists. split; [exact Hrun|].
  unfold after_creation. simpl. repeat split.
  rewrite priority_user_prompt_validation, <- app_assoc. reflexivity.
Qed.

(** X3. Every field of [ticket_data] that the analysis does not compute is
    carried into the ticket unchanged, and it wins over the generated value:
    a [ticket_data] that brings its own [id], [created_at], [created_by] or
    [user_priority] replaces the generated one. Without such a field the
    identifier is the fresh one, the creation time the clock's, the creator
    the signed-in user and the declared priority the [priority] field, or
    Medium. *)
Theorem create_ticket_carries_fields e username ticket_data w k :
  NoDup (map fst ticket_data) ->
  k <> "validation" -> k <> "priority_analysis" -> k <> "calculated_priority" ->
  k <> "priority_score" -> k <> "status" -> k <> "needs_priority_review" ->
  exists ticket w',
    create_ticket e username ticket_data w = (Ok ticket, w') /\
    dict_get k ticket =
    match dict_get k ticket_data with
    | Some v => Some v
    | None =>
        dict_get k [("id", JStr (uuid4 e (readings w)));
                    ("created_at", JStr (utcnow e (S (readings w))));
                    ("created_by", JStr username);
                    ("user_priority", get "priority" (JStr "Medium") ticket_data)]
    end.
Proof.
  intros Hnd H1 H2 H3 H4 H5 H6.
  destruct (create_ticket_fields e username ticket_data w) as (ticket & Hrun & Hk).
  exists ticket. eexists. split; [exact Hrun|].
  rewrite Hk by assumption. unfold initial_ticket.
  rewrite dict_get_update by exact Hnd.
  destruct (dict_get k ticket_data); [reflexivity|].
  simpl. destruct (String.eqb_spec k "status"); [contradiction|]. reflexivity.
Qed.

Lemma create_ticket_carries_fields_witness :
  exists ticket w',
    create_ticket Sample.mock "tech1" (("id", JStr "mine") :: Sample.ticket_data)
      Sample.empty_world = (Ok ticket, w') /\
    dict_get "id" ticket = Some (JStr "mine").
Proof.
  apply (create_ticket_carries_fields Sample.mock "tech1"
           (("id", JStr "mine") :: Sample.ticket_data) Sample.empty_world "id");
    try discriminate.
  apply (bool_decide_unpack _). vm_compute. reflexivity.
Defined.

(** ** What the creation form and the import put into the session *)

Lemma bind_ok {A B} (m : M A) (k : A -> M B) w a w' :
  m w = (Ok a, w') -> bind m k w = k a w'.
Proof. intros H. unfold bind. rewrite H. reflexivity. Qed.

Lemma append_audit_log_run e action details w :
  append_audit_log e action details w =
  (Ok tt, mkWorld (tickets w) (ticket_file w)
            (audit_log w ++ [audit_entry (utcnow e (readings w)) action details])
            (ai_calls w) (S (readings w))).
Proof. reflexivity. Qed.

(** A synchronisation of the ticket at the head of the session list *)
Lemma sync_ticket_to_jira_head e w t rest :
  tickets w = t :: rest ->
  exists ok w' t',
    sync_ticket_to_jira e 0 w = (Ok ok, w') /\
    tickets w' = t' :: rest /\
    (forall k, k <> "jira_key" -> k <> "jira_synced_at" -> dict_get k t' = dict_get k t) /\
    ai_calls w' = ai_calls w /\
    (ticket_file w = tickets w -> ticket_file w' = tickets w') /\
    (exists entries, audit_log w' = (audit_log w ++ entries)%list).
Proof.
  intros Hw.
  assert (H0 : tickets w !! 0%nat = Some t) by (rewrite Hw; reflexivity).
  destruct (jira_is_configured e) eqn:Hc; [destruct (truthy (create_jira_issue e t)) eqn:Ht|].
  - destruct (sync_ticket_to_jira_success e 0 w t H0 Hc Ht) as (entry & ->).
    eexists _, _, _. split; [reflexivity|]. simpl. rewrite Hw. simpl.
    repeat split.
    + intros k Hk1 Hk2. rewrite !dict_get_set_ne by assumption. reflexivity.
    + exists [entry]. reflexivity.
  - rewrite (sync_ticket_to_jira_failure e 0 w t H0) by (right; exact Ht).
    exists false, w, t. repeat split; auto. exists []. rewrite app_nil_r. reflexivity.
  - rewrite (sync_ticket_to_jira_failure e 0 w t H0) by (left; exact Hc).
    exists false, w, t. repeat split; auto. exists []. rewrite app_nil_r. reflexivity.
Qed.

(** The run of the creation form once the four required fields are filled
    in: the state [w0] before the optional synchronisation *)
Lemma submit_form_run e username summary description server rack user_priority b w :
  summary <> "" -> description <> "" -> server <> "" -> rack <> "" ->
  exists ticket calls,
    (dict_get "id" ticket = Some (JStr (uuid4 e (readings w))) /\
     dict_get "created_by" ticket = Some (JStr username) /\
     dict_get "summary" ticket = Some (JStr summary) /\
     dict_get "description" ticket = Some (JStr description) /\
     dict_get "server" ticket = Some (JStr server) /\
     dict_get "rack" ticket = Some (JStr rack) /\
     dict_get "priority" ticket = Some (JStr user_priority) /\
     dict_get "user_priority" ticket = Some (JStr user_priority)) /\
    length calls = (2 + length (ai_calls w))%nat /\
    (exists w1,
       create_ticket e username
         (form_ticket_data summary description server rack user_priority) w
       = (Ok ticket, w1)) /\
    submit_form e username summary description server rack user_priority b w =
    let w0 := mkWorld (ticket :: tickets w) (ticket :: tickets w)
                (audit_log w ++
                   [audit_entry (utcnow e (2 + readings w))
                      ("Created ticket " +:+ uuid4 e (readings w)) summary])
                calls (3 + readings w) in
    match b with
    | CreateTicket => (Ok (Created ticket), w0)
    | _ => match sync_ticket_to_jira e 0 w0 with
           | (Ok _, w') => (Ok (Created ticket), w')
           | (Raise x, w') => (Raise x, w')
           end
    end.
Proof.
  intros Hs Hd Hv Hr.
  apply String.eqb_neq in Hs as Es, Hd as Ed, Hv as Ev, Hr as Er.
  set (ticket_data := form_ticket_data summary description server rack user_priority).
  destruct (create_ticket_fields e username ticket_data w) as (ticket & Hrun & Hk).
  assert (Hget : forall k, k <> "validation" -> k <> "priority_analysis" ->
            k <> "calculated_priority" -> k <> "priority_score" -> k <> "status" ->
            k <> "needs_priority_review" ->
            dict_get k ticket =
            dict_get k [("id", JStr (uuid4 e (readings w)));
                        ("created_at", JStr (utcnow e (S (readings w))));
                        ("created_by", JStr username);
                        ("status", JStr "Draft");
                        ("user_priority", JStr user_priority);
                        ("summary", JStr summary);
                        ("description", JStr description);
                        ("server", JStr server);
                        ("rack", JStr rack);
                        ("priority", JStr user_priority)]).
  { intros k H1 H2 H3 H4 H5 H6. rewrite Hk by assumption. reflexivity. }
  assert (Hfields :
    dict_get "id" ticket = Some (JStr (uuid4 e (readings w))) /\
    dict_get "created_by" ticket = Some (JStr username) /\
    dict_get "summary" ticket = Some (JStr summary) /\
    dict_get "description" ticket = Some (JStr description) /\
    dict_get "server" ticket = Some (JStr server) /\
    dict_get "rack" ticket = Some (JStr rack) /\
    dict_get "priority" ticket = Some (JStr user_priority) /\
    dict_get "user_priority" ticket = Some (JStr user_priority)).
  { repeat split; rewrite Hget by discriminate; reflexivity. }
  exists ticket. eexists. split; [exact Hfields|].
  destruct Hfields as (F1 & _ & F3 & _).
  split; [|split; [eexists; exact Hrun | cbv zeta]].
  2: { unfold submit_form. rewrite Es, Ed, Ev, Er. cbn [orb].
       fold ticket_data.
       rewrite (bind_ok _ _ _ _ _ Hrun).
       erewrite bind_ok by reflexivity.
       erewrite bind_ok by reflexivity.
       erewrite bind_ok by (unfold lift, item; rewrite F1; reflexivity).
       erewrite bind_ok by (unfold lift, item; rewrite F3; reflexivity).
       erewrite bind_ok by apply append_audit_log_run.
       cbn [fmt tickets ticket_file audit_log ai_calls readings after_creation].
       destruct b; unfold bind, ret; reflexivity. }
  rewrite !length_app. simpl. lia.
Qed.

(** X4. With its four required fields filled in, the creation form puts a
    new ticket at the head of the session list, in front of the tickets that
    were there. It is the ticket that [create_ticket] returns for the five
    form fields, with the fresh identifier, the signed-in user and the
    fields as they were typed; only a synchronisation with Jira can make the
    stored ticket differ from it, and only in its two Jira fields. Two
    advisory calls are made. *)
Theorem submit_form_creates e username summary description server rack user_priority b w :
  summary <> "" -> description <> "" -> server <> "" -> rack <> "" ->
  let w' := (submit_form e username summary description server rack user_priority b w).2 in
  exists ticket w1 stored,
    create_ticket e username
      (form_ticket_data summary description server rack user_priority) w
    = (Ok ticket, w1) /\
    tickets w' = stored :: tickets w /\
    (forall k, k <> "jira_key" -> k <> "jira_synced_at" ->
               dict_get k stored = dict_get k ticket) /\
    (b = CreateTicket -> stored = ticket) /\
    dict_get "id" ticket = Some (JStr (uuid4 e (readings w))) /\
    dict_get "created_by" ticket = Some (JStr username) /\
    dict_get "summary" ticket = Some (JStr summary) /\
    dict_get "description" ticket = Some (JStr description) /\
    dict_get "server" ticket = Some (JStr server) /\
    dict_get "rack" ticket = Some (JStr rack) /\
    dict_get "priority" ticket = Some (JStr user_priority) /\
    dict_get "user_priority" ticket = Some (JStr user_priority) /\
    length (ai_calls w') = (2 + length (ai_calls w))%nat.
Proof.
  intros Hs Hd Hv Hr.
  destruct (submit_form_run e username summary description server rack user_priority b w
              Hs Hd Hv Hr)
    as (ticket & calls & (F1 & F2 & F3 & F4 & F5 & F6 & F7 & F8) & Hcalls &
        (w1 & Hcreate) & Hform).
  cbv zeta in Hform. cbv zeta. rewrite Hform. clear Hform.
  set (entry := audit_entry (utcnow e (2 + readings w))
                  ("Created ticket " +:+ uuid4 e (readings w)) summary).
  set (w0 := mkWorld (ticket :: tickets w) (ticket :: tickets w)
               (audit_log w ++ [entry]) calls (3 + readings w)).
  assert (Hsync : exists stored,
            let w' := (match sync_ticket_to_jira e 0 w0 with
                       | (Ok _, w') => (Ok (Created ticket), w')
                       | (Raise x, w') => (Raise x, w')
                       end).2 in
            tickets w' = stored :: tickets w /\
            (forall k, k <> "jira_key" -> k <> "jira_synced_at" ->
                       dict_get k stored = dict_get k ticket) /\
            length (ai_calls w') = (2 + length (ai_calls w))%nat).
  { destruct (sync_ticket_to_jira_head e w0 ticket (tickets w) eq_refl)
      as (ok & w' & stored & Hsync & Ht & Hkeep & Hai & _ & _).
    rewrite Hsync. exists stored. cbn [snd].
    split; [exact Ht|]. split; [exact Hkeep|]. rewrite Hai. exact Hcalls. }
  destruct b.
  - exists ticket, w1, ticket. split; [exact Hcreate|].
    split; [reflexivity|]. split; [reflexivity|]. split; [reflexivity|].
    repeat (split; [assumption|]). exact Hcalls.
  - destruct Hsync as (stored & Ht & Hkeep & Hai).
    exists ticket, w1, stored. split; [exact Hcreate|].
    split; [exact Ht|]. split; [exact Hkeep|]. split; [discriminate|].
    repeat (split; [assumption|]). exact Hai.
  - destruct Hsync as (stored & Ht & Hkeep & Hai).
    exists ticket, w1, stored. split; [exact Hcreate|].
    split; [exact Ht|]. split; [exact Hkeep|]. split; [discriminate|].
    repeat (split; [assumption|]). exact Hai.
Qed.

Lemma submit_form_creates_witness :
  let e := Sample.surroundings "" None (Some (JObj [("key", JStr "AXIS-7")])) in
  let w' := (submit_form e "tech1" "Fan failure" "Fan 3 of srv-12 stopped" "srv-12" "R4"
               "High" CreateAndSync Sample.empty_world).2 in
  exists ticket w1 stored,
    create_ticket e "tech1"
      (form_ticket_data "Fan failure" "Fan 3 of srv-12 stopped" "srv-12" "R4" "High")
      Sample.empty_world
    = (Ok ticket, w1) /\
    tickets w' = stored :: tickets Sample.empty_world /\
    (forall k, k <> "jira_key" -> k <> "jira_synced_at" ->
               dict_get k stored = dict_get k ticket) /\
    (CreateAndSync = CreateTicket -> stored = ticket) /\
    dict_get "id" ticket = Some (JStr (uuid4 e (readings Sample.empty_world))) /\
    dict_get "created_by" ticket = Some (JStr "tech1") /\
    dict_get "summary" ticket = Some (JStr "Fan failure") /\
    dict_get "description" ticket = Some (JStr "Fan 3 of srv-12 stopped") /\
    dict_get "server" ticket = Some (JStr "srv-12") /\
    dict_get "rack" ticket = Some (JStr "R4") /\
    dict_get "priority" ticket = Some (JStr "High") /\
    dict_get "user_priority" ticket = Some (JStr "High") /\
    length (ai_calls w') = (2 + length (ai_calls Sample.empty_world))%nat.
Proof.
  intros e w'.
  apply (submit_form_creates e "tech1" "Fan failure" "Fan 3 of srv-12 stopped"
           "srv-12" "R4" "High" CreateAndSync Sample.empty_world); discriminate.
Defined.

Lemma imported_from_created e username row w ticket w' :
  create_ticket e username (row_ticket_data row) w = (Ok ticket, w') ->
  imported_from row ticket.
Proof.
  intros Hrun.
  destruct (create_ticket_fields e username (row_ticket_data row) w) as (t & Hrun' & Hk).
  rewrite Hrun' in Hrun. injection Hrun as -> _.
  intros k Hin. 
  assert (Hnd : NoDup (map fst (row_ticket_data row))).
  { apply (bool_decide_unpack _). vm_compute. reflexivity. }
  repeat (apply elem_of_cons in Hin as [-> | Hin]);
    try (rewrite Hk by discriminate; unfold initial_ticket;
         rewrite dict_get_update by exact Hnd; reflexivity).
  inversion Hin.
Qed.

Lemma import_rows_run e username sync rows : forall imported_count w,
  exists w' new,
    import_rows e username sync rows imported_count w
    = (Ok (imported_count + length rows)%nat, w') /\
    tickets w' = (new ++ tickets w)%list /\
    Forall2 imported_from (reverse rows) new /\
    length (ai_calls w') = (length (ai_calls w) + 2 * length rows)%nat.
Proof.
  induction rows as [|row rows IH]; intros c w.
  - exists w, []. simpl. unfold ret. rewrite Nat.add_0_r.
    repeat split; [constructor | lia].
  - cbn [import_rows].
    destruct (create_ticket_fields e username (row_ticket_data row) w) as (ticket & Hrun & _).
    pose proof (imported_from_created _ _ _ _ _ _ Hrun) as Himp.
    set (w1 := after_creation e _ _ w) in Hrun.
    set (w2 := mkWorld (ticket :: tickets w1) (ticket_file w1) (audit_log w1)
                 (ai_calls w1) (readings w1)).
    assert (Hstep : exists w3 stored,
      try_except
        (let* new_ticket := create_ticket e username (row_ticket_data row) in
         let* _ := insert_first new_ticket in
         let* _ := if sync then sync_ticket_to_jira e 0 else ret false in
         ret (S c))
        (ret c) w = (Ok (S c), w3) /\
      tickets w3 = stored :: tickets w /\
      imported_from row stored /\
      length (ai_calls w3) = (length (ai_calls w) + 2)%nat).
    { unfold try_except.
      rewrite (bind_ok _ _ _ _ _ Hrun).
      erewrite bind_ok by reflexivity. fold w2.
      assert (Hai : length (ai_calls w2) = (length (ai_calls w) + 2)%nat).
      { unfold w2, w1, after_creation. cbn [ai_calls]. rewrite !length_app. simpl. lia. }
      destruct sync.
      - destruct (sync_ticket_to_jira_head e w2 ticket (tickets w) eq_refl)
          as (ok & w3 & stored & Hsync & Ht & Hkeep & Hcalls & _ & _).
        rewrite (bind_ok _ _ _ _ _ Hsync). unfold ret.
        exists w3, stored. split; [reflexivity|]. split; [exact Ht|].
        split; [|rewrite Hcalls; exact Hai].
        intros k Hin. rewrite <- (Himp k Hin). apply Hkeep;
          intros ->; repeat (apply elem_of_cons in Hin as [Hin | Hin]; [discriminate|]);
          inversion Hin.
      - unfold bind, ret. exists w2, ticket. split; [reflexivity|].
        split; [reflexivity|]. split; [exact Himp | exact Hai]. }
    destruct Hstep as (w3 & stored & Hstep & Ht3 & Himp3 & Hai3).
    rewrite (bind_ok _ _ _ _ _ Hstep).
    destruct (IH (S c) w3) as (w' & new & Hrec & Ht & Hall & Hai).
    exists w', (new ++ [stored])%list. split; [|split; [|split]].
    + rewrite Hrec. f_equal. f_equal. simpl. lia.
    + rewrite Ht, Ht3, <- app_assoc. reflexivity.
    + rewrite reverse_cons. apply Forall2_app; [exact Hall|]. repeat constructor. exact Himp3.
    + rewrite Hai, Hai3. simpl. lia.
Qed.

(** X5. The loop of the import never skips a row: [create_ticket] cannot
    raise, so the count it reaches is the number of rows of the table. The
    new tickets stand in front of the earlier ones in the reverse order of
    their rows, each with the five fields the import takes from its row, and
    they are the session list the import leaves; two advisory calls are made
    per row. *)
Theorem import_csv_imports_every_row e username sync rows w :
  exists w1 new,
    import_rows e username sync rows 0 w = (Ok (length rows), w1) /\
    tickets w1 = (new ++ tickets w)%list /\
    Forall2 imported_from (reverse rows) new /\
    length (ai_calls w1) = (length (ai_calls w) + 2 * length rows)%nat /\
    tickets (import_csv e username sync rows w).2 = tickets w1 /\
    ai_calls (import_csv e username sync rows w).2 = ai_calls w1.
Proof.
  destruct (import_rows_run e username sync rows 0 w) as (w1 & new & Hrun & Ht & Hall & Hai).
  exists w1, new. split; [exact Hrun|].
  split; [exact Ht|]. split; [exact Hall|]. split; [exact Hai|].
  unfold import_csv. rewrite (bind_ok _ _ _ _ _ Hrun).
  erewrite bind_ok by reflexivity.
  erewrite bind_ok by apply append_audit_log_run.
  unfold ret. split; reflexivity.
Qed.

(** ** What a session preserves *)

Lemma card_header_status t ticket_id status jira_key :
  card_header t = Ok (ticket_id, status, jira_key) -> card_status t = Ok status.
Proof.
  unfold card_header. destruct (item "id" t); [|discriminate]. simpl.
  destruct (card_status t) as [s|]; [|discriminate]. simpl.
  destruct (item "summary" t); [|discriminate]. simpl.
  destruct (item "created_by" t); [|discriminate]. simpl.
  intros [= _ -> _]. reflexivity.
Qed.

Lemma display_ticket_card_cases e i compact pressed w :
  display_ticket_card e i compact pressed w
  = ((display_ticket_card e i compact pressed w).1, w) \/
  exists t ticket_id status jira_key body b,
    tickets w !! i = Some t /\
    card_header t = Ok (ticket_id, status, jira_key) /\
    card_body e t = Ok body /\
    compact = false /\ pressed = Some b /\
    offered e status jira_key b = true /\
    display_ticket_card e i compact pressed w = press e i ticket_id b w.
Proof.
  destruct (tickets w !! i) as [t|] eqn:Hi.
  2: { left. unfold display_ticket_card, bind, ticket_at. rewrite Hi. reflexivity. }
  destruct (card_header t) as [[[ticket_id status] jira_key]|x] eqn:Hh.
  2: { left. unfold display_ticket_card, bind, ticket_at, lift. rewrite Hi, Hh. reflexivity. }
  destruct compact.
  { left. rewrite (display_ticket_card_compact e i w t _ pressed Hi Hh). reflexivity. }
  destruct (card_body e t) as [body|x] eqn:Hb.
  2: { left. unfold display_ticket_card, bind, ticket_at, lift. rewrite Hi, Hh, Hb.
       reflexivity. }
  rewrite (display_ticket_card_run e i w t _ _ _ _ pressed Hi Hh Hb).
  destruct pressed as [b|]; [|left; reflexivity].
  destruct (offered e status jira_key b) eqn:Ho; [|left; reflexivity].
  right. exists t, ticket_id, status, jira_key, body, b. repeat split; assumption.
Qed.

Section Guarded.

Variables (e : env) (id : string) (n0 : nat) (P : dict -> Prop).

Hypothesis fresh : forall n, (n0 <= n)%nat -> uuid4 e n <> id.

(** What the lifecycle buttons and the synchronisation write keeps [P] *)
Hypothesis P_jira : forall k v t,
  k = "jira_key" \/ k = "jira_synced_at" -> P t -> P (dict_set k v t).

Hypothesis P_approve : forall t status,
  P t -> card_status t = Ok status -> status = "Draft" \/ status = "AI Review" ->
  P (dict_set "needs_priority_review" (JBool false) (dict_set "status" (JStr "Approved") t)).

Hypothesis P_start : forall t v,
  P t -> card_status t = Ok "Approved" ->
  P (dict_set "started_at" v (dict_set "status" (JStr "In Progress") t)).

Hypothesis P_complete : forall t v,
  P t -> card_status t = Ok "In Progress" ->
  P (dict_set "completed_at" v (dict_set "status" (JStr "Completed") t)).

Implicit Types (w : world) (t : dict) (i : nat).

Local Abbreviation Inv := (guarded P id n0).

Local Abbreviation any := (fun _ => True).

Local Abbreviation fine := (fun t => has_id id t -> P t).

Lemma guarded_frame {A} (m : M A) :
  (forall w, tickets (m w).2 = tickets w /\ ticket_file (m w).2 = ticket_file w /\
             (readings w <= readings (m w).2)%nat) ->
  keeps Inv any m.
Proof.
  intros Hm w (H1 & H2 & H3). destruct (Hm w) as (E1 & E2 & E3).
  split; [|auto]. unfold guarded. rewrite E1, E2. repeat split; try assumption. lia.
Qed.

Lemma guarded_tick : keeps Inv (fun n => (n0 <= n)%nat) tick.
Proof.
  intros w (H1 & H2 & H3). split.
  - repeat split; simpl; try assumption. lia.
  - intros n [= <-]. exact H3.
Qed.

Lemma guarded_now : keeps Inv any (now e).
Proof.
  unfold now. eapply keeps_bind; [apply guarded_tick|]. intros n _. apply keeps_ret. exact Logic.I.
Qed.

Lemma guarded_append_audit_log action details :
  keeps Inv any (append_audit_log e action details).
Proof.
  unfold append_audit_log. eapply keeps_bind; [apply guarded_now|].
  intros timestamp _. apply guarded_frame. intros w. simpl. auto.
Qed.

Lemma guarded_save : keeps Inv any save_user_tickets.
Proof. intros w (H1 & H2 & H3). split; [|auto]. repeat split; simpl; assumption. Qed.

Lemma guarded_set_tickets l : Forall fine l -> keeps Inv any (set_tickets l).
Proof. intros Hl w (H1 & H2 & H3). split; [|auto]. repeat split; simpl; assumption. Qed.

Lemma guarded_insert_first t : ~ has_id id t -> keeps Inv any (insert_first t).
Proof.
  intros Ht w (H1 & H2 & H3). split; [|auto].
  repeat split; simpl; try assumption. constructor; [|assumption].
  intros Hid. contradiction.
Qed.

Lemma guarded_set_field i k v :
  k = "jira_key" \/ k = "jira_synced_at" -> keeps Inv any (set_field i k v).
Proof.
  intros Hk w (H1 & H2 & H3). split; [|auto]. unfold set_field.
  destruct (tickets w !! i) as [t|] eqn:Hi; simpl; [|repeat split; assumption].
  repeat split; try assumption.
  apply Forall_insert; [exact H1|].
  rewrite has_id_set by (destruct Hk as [-> | ->]; discriminate).
  intros Hid. apply P_jira; [exact Hk|].
  rewrite Forall_forall in H1. apply H1; [|exact Hid]. eapply list_elem_of_lookup_2. exact Hi.
Qed.

Lemma guarded_ticket_at i : keeps Inv any (ticket_at i).
Proof.
  apply guarded_frame. intros w. unfold ticket_at. destruct (tickets w !! i); simpl; auto.
Qed.

Lemma guarded_refresh : keeps Inv any refresh.
Proof.
  unfold refresh. eapply (keeps_bind _ (fun l => Forall fine l)).
  - intros w (H1 & H2 & H3). split; [repeat split; assumption|].
    intros l [= <-]. exact H2.
  - intros l Hl. apply guarded_set_tickets. exact Hl.
Qed.

Lemma guarded_sync i : keeps Inv any (sync_ticket_to_jira e i).
Proof.
  unfold sync_ticket_to_jira. destruct (negb (jira_is_configured e)).
  { apply keeps_ret. exact Logic.I. }
  eapply keeps_bind; [apply guarded_ticket_at|]. intros ticket _.
  destruct (truthy (create_jira_issue e ticket)); [|apply keeps_ret; exact Logic.I].
  eapply keeps_bind; [apply guarded_set_field; auto|]. intros _ _.
  eapply keeps_bind; [apply guarded_now|]. intros synced_at _.
  eapply keeps_bind; [apply guarded_set_field; auto|]. intros _ _.
  eapply keeps_bind; [apply guarded_save|]. intros _ _.
  eapply keeps_bind; [apply (keeps_lift _ any); auto|]. intros ticket_id _.
  eapply keeps_bind; [apply guarded_append_audit_log|]. intros _ _.
  apply keeps_ret. exact Logic.I.
Qed.

Lemma guarded_delete i ticket_id : keeps Inv any (press e i ticket_id Delete).
Proof.
  unfold press.
  eapply (keeps_bind _ (fun l => Forall fine l)).
  { intros w (H1 & H2 & H3). split; [repeat split; assumption|].
    intros l [= <-]. exact H1. }
  intros all Hall.
  eapply (keeps_bind _ (fun l => Forall fine l)).
  { apply keeps_lift. intros kept Hk.
    apply without_id_kept in Hk as [Hsub _].
    rewrite Forall_forall in *. intros t Ht. apply Hall.
    eapply elem_of_sublist; eassumption. }
  intros kept Hkept.
  eapply keeps_bind; [apply guarded_set_tickets; exact Hkept|]. intros _ _.
  eapply keeps_bind; [apply guarded_save|]. intros _ _.
  apply guarded_append_audit_log.
Qed.

(** The world a lifecycle button leaves, when the new ticket is fine *)
Lemma guarded_transitioned i t t' entry n w :
  tickets w !! i = Some t ->
  (has_id id t' -> has_id id t) ->
  (P t -> P t') ->
  Inv w -> Inv (transitioned i t' entry n w).
Proof.
  intros Hi Hid HP (H1 & H2 & H3).
  assert (Hfine : Forall fine (<[i := t']> (tickets w))).
  { apply Forall_insert; [exact H1|]. intros Ht'. apply HP.
    rewrite Forall_forall in H1. apply H1; [|auto]. eapply list_elem_of_lookup_2. exact Hi. }
  unfold transitioned. repeat split; simpl; try assumption. lia.
Qed.

Lemma guarded_display_ticket_card i compact pressed :
  keeps Inv any (display_ticket_card e i compact pressed).
Proof.
  intros w Hw. split; [|auto].
  destruct (display_ticket_card_cases e i compact pressed w)
    as [-> | (t & ticket_id & status & jira_key & body & b &
              Hi & Hh & Hb & -> & -> & Ho & ->)]; [exact Hw|].
  pose proof (card_header_status _ _ _ _ Hh) as Hs.
  destruct b.
  - apply (keeps_bind Inv any any); [apply guarded_sync | | exact Hw].
    intros _ _. apply keeps_ret. exact Logic.I.
  - destruct (press_approve e i w t ticket_id Hi) as (entry & ->). simpl.
    apply (guarded_transitioned i t); try assumption.
    + rewrite !has_id_set by discriminate. tauto.
    + intros Ht. apply (P_approve t status Ht Hs).
      simpl in Ho. apply orb_true_iff in Ho as [Ho | Ho]; apply String.eqb_eq in Ho; auto.
  - destruct (press_start e i w t ticket_id Hi) as (entry & ->). simpl.
    apply (guarded_transitioned i t); try assumption.
    + rewrite !has_id_set by discriminate. tauto.
    + intros Ht. apply P_start; [exact Ht|].
      simpl in Ho. apply String.eqb_eq in Ho as <-. exact Hs.
  - destruct (press_complete e i w t ticket_id Hi) as (entry & ->). simpl.
    apply (guarded_transitioned i t); try assumption.
    + rewrite !has_id_set by discriminate. tauto.
    + intros Ht. apply P_complete; [exact Ht|].
      simpl in Ho. apply String.eqb_eq in Ho as <-. exact Hs.
  - apply (guarded_delete i ticket_id w Hw).
Qed.

Lemma guarded_create_ticket username ticket_data :
  dict_get "id" ticket_data = None ->
  keeps Inv (fun t => ~ has_id id t) (create_ticket e username ticket_data).
Proof.
  intros Hid w (H1 & H2 & H3).
  destruct (create_ticket_fields e username ticket_data w) as (ticket & Hrun & Hk).
  rewrite Hrun. simpl. split.
  - unfold guarded, after_creation. simpl. repeat split; try assumption. lia.
  - intros t [= <-]. unfold has_id. rewrite Hk by discriminate.
    unfold initial_ticket. rewrite dict_get_update_absent by exact Hid. simpl.
    intros Heq. apply String.eqb_eq in Heq. apply (fresh (readings w) H3 Heq).
Qed.

Lemma guarded_submit_form username summary description server rack user_priority b :
  keeps Inv any (submit_form e username summary description server rack user_priority b).
Proof.
  unfold submit_form.
  destruct (String.eqb summary "" || String.eqb description "" ||
            String.eqb server "" || String.eqb rack "");
    [apply keeps_ret; exact Logic.I|].
  eapply keeps_bind; [apply guarded_create_ticket; reflexivity|]. intros new_ticket Hnew.
  eapply keeps_bind; [apply guarded_insert_first; exact Hnew|]. intros _ _.
  eapply keeps_bind; [apply guarded_save|]. intros _ _.
  eapply keeps_bind; [apply (keeps_lift _ any); auto|]. intros new_id _.
  eapply keeps_bind; [apply (keeps_lift _ any); auto|]. intros new_summary _.
  eapply keeps_bind; [apply guarded_append_audit_log|]. intros _ _.
  eapply (keeps_bind _ any).
  { destruct b; [apply keeps_ret; exact Logic.I | apply guarded_sync | apply guarded_sync]. }
  intros _ _. apply keeps_ret. exact Logic.I.
Qed.

Lemma guarded_import_rows username sync rows : forall imported_count,
  keeps Inv any (import_rows e username sync rows imported_count).
Proof.
  induction rows as [|row rows IH]; intros imported_count; simpl.
  - apply keeps_ret. exact Logic.I.
  - eapply (keeps_bind _ any); [|intros n _; apply IH].
    apply keeps_try_except; [|apply keeps_ret; exact Logic.I].
    eapply keeps_bind; [apply guarded_create_ticket; reflexivity|]. intros new_ticket Hnew.
    eapply keeps_bind; [apply guarded_insert_first; exact Hnew|]. intros _ _.
    eapply (keeps_bind _ any).
    { destruct sync; [apply guarded_sync | apply keeps_ret; exact Logic.I]. }
    intros _ _. apply keeps_ret. exact Logic.I.
Qed.

Lemma guarded_run_event username ev : keeps Inv any (run_event e username ev).
Proof.
  destruct ev; simpl.
  - apply guarded_display_ticket_card.
  - eapply keeps_bind; [apply guarded_submit_form|]. intros _ _. apply keeps_ret. exact Logic.I.
  - eapply keeps_bind; [|intros _ _; apply keeps_ret; exact Logic.I].
    unfold import_csv.
    eapply keeps_bind; [apply guarded_import_rows|]. intros imported_count _.
    eapply keeps_bind; [apply guarded_save|]. intros _ _.
    eapply keeps_bind; [apply guarded_append_audit_log|]. intros _ _.
    apply keeps_ret. exact Logic.I.
  - apply guarded_refresh.
Qed.

Lemma guarded_run_events username evs : forall w,
  guarded P id n0 w -> guarded P id n0 (run_events e username evs w).
Proof.
  induction evs as [|ev evs IH]; intros w Hw; simpl; [exact Hw|].
  apply IH. apply (guarded_run_event username ev w Hw).
Qed.

End Guarded.

Lemma card_status_text t status status' :
  dict_get "status" t = Some (JStr status) -> card_status t = Ok status' -> status' = status.
Proof. unfold card_status, item. intros ->. simpl. congruence. Qed.

Lemma ranked_other n k v t : k <> "status" -> ranked n t -> ranked n (dict_set k v t).
Proof.
  intros Hk (status & m & Hs & Hr & Hn). exists status, m.
  rewrite dict_get_set_ne by congruence. auto.
Qed.

Lemma ranked_status n t status m :
  rank status = Some m -> (n <= m)%nat -> ranked n (dict_set "status" (JStr status) t).
Proof. intros Hr Hn. exists status, m. rewrite dict_get_set_eq. auto. Qed.

(** A button is offered at one place of the lifecycle and leads to the
    next *)
Lemma ranked_approve n t status :
  ranked n t -> card_status t = Ok status -> status = "Draft" \/ status = "AI Review" ->
  ranked n (dict_set "needs_priority_review" (JBool false)
              (dict_set "status" (JStr "Approved") t)).
Proof.
  intros (s & m & Hs & Hr & Hn) Hc Hd. apply ranked_other; [discriminate|].
  apply (ranked_status _ _ _ 1%nat); [reflexivity|].
  rewrite (card_status_text _ _ _ Hs Hc) in Hd.
  destruct Hd as [-> | ->]; simpl in Hr; injection Hr as <-; lia.
Qed.

Lemma ranked_start n t v :
  ranked n t -> card_status t = Ok "Approved" ->
  ranked n (dict_set "started_at" v (dict_set "status" (JStr "In Progress") t)).
Proof.
  intros (s & m & Hs & Hr & Hn) Hc. apply ranked_other; [discriminate|].
  apply (ranked_status _ _ _ 2%nat); [reflexivity|].
  rewrite <- (card_status_text _ _ _ Hs Hc) in Hr. simpl in Hr. injection Hr as <-. lia.
Qed.

Lemma ranked_complete n t v :
  ranked n t -> card_status t = Ok "In Progress" ->
  ranked n (dict_set "completed_at" v (dict_set "status" (JStr "Completed") t)).
Proof.
  intros (s & m & Hs & Hr & Hn) Hc. apply ranked_other; [discriminate|].
  apply (ranked_status _ _ _ 3%nat); [reflexivity|].
  rewrite <- (card_status_text _ _ _ Hs Hc) in Hr. simpl in Hr. injection Hr as <-. lia.
Qed.

(** X6. The status of a ticket never moves backwards. Once every copy of the
    ticket, in the session and in the file, is at some place of the
    lifecycle or further, it is still so after any presses, submissions,
    imports and refreshes, as long as no new ticket draws the same
    identifier. In particular a Completed ticket stays Completed. *)
Theorem status_never_moves_back e username id n evs w :
  (forall k, (readings w <= k)%nat -> uuid4 e k <> id) ->
  guarded (ranked n) id (readings w) w ->
  guarded (ranked n) id (readings w) (run_events e username evs w) /\
  forall t, t ∈ tickets (run_events e username evs w) -> has_id id t ->
    exists status m,
      dict_get "status" t = Some (JStr status) /\ rank status = Some m /\ (n <= m)%nat.
Proof.
  intros Hfresh Hw.
  assert (H : guarded (ranked n) id (readings w) (run_events e username evs w)).
  { apply guarded_run_events; try assumption.
    - intros k v t Hk. apply ranked_other. destruct Hk as [-> | ->]; discriminate.
    - apply ranked_approve.
    - apply ranked_start.
    - apply ranked_complete. }
  split; [exact H|]. destruct H as (H1 & _ & _).
  intros t Ht Hid. rewrite Forall_forall in H1. exact (H1 t Ht Hid).
Qed.

Lemma status_never_moves_back_witness :
  let w := Sample.session [Sample.stored "deadbeef" "Completed"] in
  let evs := [Press 0 false (Some Approve); Refresh; Press 0 false (Some Start)] in
  guarded (ranked 3) "deadbeef" (readings w) (run_events Sample.mock "tech1" evs w) /\
  forall t, t ∈ tickets (run_events Sample.mock "tech1" evs w) -> has_id "deadbeef" t ->
    exists status m,
      dict_get "status" t = Some (JStr status) /\ rank status = Some m /\ (3 <= m)%nat.
Proof.
  intros w evs.
  apply (status_never_moves_back Sample.mock "tech1" "deadbeef" 3 evs w).
  - intros k _. simpl. destruct (Nat.even k); discriminate.
  - assert (Hl : Forall (fun t => has_id "deadbeef" t -> ranked 3 t)
                   [Sample.stored "deadbeef" "Completed"]).
    { constructor; [|constructor].
      intros _. exists "Completed", 3%nat.
      split; [reflexivity | split; [reflexivity | lia]]. }
    split; [exact Hl | split; [exact Hl | simpl; lia]].
Defined.

Lemma ranked_offered n t status m :
  ranked n t -> card_status t = Ok status -> rank status = Some m -> (n <= m)%nat.
Proof.
  intros (s & m' & Hs & Hr & Hn) Hc Hm.
  rewrite (card_status_text _ _ _ Hs Hc) in Hm. congruence.
Qed.

Lemma frozen_at_other n k k' v v' t :
  k' <> "status" -> k' <> k -> frozen_at n k v t -> frozen_at n k v (dict_set k' v' t).
Proof.
  intros Hs Hk (Hr & Hv). split.
  - intros Hn. apply ranked_other; auto.
  - rewrite dict_get_set_ne by congruence. exact Hv.
Qed.

(** A field outside the reach of the buttons that are still offered keeps
    its value over a session *)
Lemma frozen_at_run_events e username id n k v evs w :
  (forall r, (readings w <= r)%nat -> uuid4 e r <> id) ->
  k <> "status" -> k <> "jira_key" -> k <> "jira_synced_at" ->
  (k = "needs_priority_review" -> (1 <= n)%nat) ->
  (k = "started_at" -> (2 <= n)%nat) ->
  (k = "completed_at" -> (3 <= n)%nat) ->
  guarded (frozen_at n k v) id (readings w) w ->
  guarded (frozen_at n k v) id (readings w) (run_events e username evs w).
Proof.
  intros Hfresh Hks Hkj Hkjs Hkn Hkst Hkc Hw.
  apply guarded_run_events; try assumption.
  - intros k' v' t Hk'. apply frozen_at_other; destruct Hk' as [-> | ->]; congruence.
  - intros t status (Hr & Hv) Hc Hd.
    assert (Hn : n = 0%nat).
    { destruct n; [reflexivity|].
      pose proof (ranked_offered _ _ _ 0%nat (Hr ltac:(lia)) Hc) as Hle.
      destruct Hd as [-> | ->]; specialize (Hle eq_refl); lia. }
    subst n. split; [lia|].
    rewrite !dict_get_set_ne; [exact Hv | congruence |].
    intros ->. specialize (Hkn eq_refl). lia.
  - intros t x (Hr & Hv) Hc. split.
    + intros Hn. apply ranked_start; auto.
    + rewrite !dict_get_set_ne; [exact Hv | congruence |].
      intros ->. specialize (Hkst eq_refl).
      pose proof (ranked_offered _ _ _ 1%nat (Hr ltac:(lia)) Hc eq_refl). lia.
  - intros t x (Hr & Hv) Hc. split.
    + intros Hn. apply ranked_complete; auto.
    + rewrite !dict_get_set_ne; [exact Hv | congruence |].
      intros ->. specialize (Hkc eq_refl).
      pose proof (ranked_offered _ _ _ 2%nat (Hr ltac:(lia)) Hc eq_refl). lia.
Qed.

(** X7. Apart from the status and the two Jira fields, a field of a ticket is
    written at one moment only and never again: the review flag up to the
    approval, the start time at the start of work, the completion time at
    the completion, every other field at the creation. Once the ticket is
    past that moment the field reads the same after any presses,
    submissions, imports and refreshes, as long as the ticket exists and no
    new ticket draws the same identifier. *)
Theorem fields_never_change e username id n k v evs w :
  (forall r, (readings w <= r)%nat -> uuid4 e r <> id) ->
  k <> "status" -> k <> "jira_key" -> k <> "jira_synced_at" ->
  (k = "needs_priority_review" -> (1 <= n)%nat) ->
  (k = "started_at" -> (2 <= n)%nat) ->
  (k = "completed_at" -> (3 <= n)%nat) ->
  guarded (frozen_at n k v) id (readings w) w ->
  guarded (frozen_at n k v) id (readings w) (run_events e username evs w) /\
  forall t, t ∈ tickets (run_events e username evs w) -> has_id id t -> dict_get k t = v.
Proof.
  intros Hfresh Hks Hkj Hkjs Hkn Hkst Hkc Hw.
  pose proof (frozen_at_run_events e username id n k v evs w
                Hfresh Hks Hkj Hkjs Hkn Hkst Hkc Hw) as H.
  split; [exact H|]. destruct H as (H1 & _ & _).
  intros t Ht Hid. rewrite Forall_forall in H1. exact (proj2 (H1 t Ht Hid)).
Qed.

Lemma fields_never_change_witness :
  let w := Sample.session [Sample.stored "deadbeef" "Draft"] in
  let evs := [Press 0 false (Some Approve); Refresh; Press 0 false (Some Start)] in
  guarded (frozen_at 0 "summary" (Some (JStr "Fan failure"))) "deadbeef" (readings w)
    (run_events Sample.mock "tech1" evs w) /\
  forall t, t ∈ tickets (run_events Sample.mock "tech1" evs w) -> has_id "deadbeef" t ->
            dict_get "summary" t = Some (JStr "Fan failure").
Proof.
  intros w evs.
  apply (fields_never_change Sample.mock "tech1" "deadbeef" 0 "summary"
           (Some (JStr "Fan failure")) evs w); try discriminate.
  - intros k _. simpl. destruct (Nat.even k); discriminate.
  - assert (Hl : Forall (fun t => has_id "deadbeef" t ->
                                  frozen_at 0 "summary" (Some (JStr "Fan failure")) t)
                   [Sample.stored "deadbeef" "Draft"]).
    { constructor; [|constructor].
      intros _. split; [lia | reflexivity]. }
    split; [exact Hl | split; [exact Hl | simpl; lia]].
Defined.

(** ** Pressing twice, and what is saved *)

Lemma card_header_set_jira_key t ticket_id status jira_key v :
  card_header t = Ok (ticket_id, status, jira_key) ->
  card_header (dict_set "jira_key" v t) = Ok (ticket_id, status, v).
Proof.
  unfold card_header, card_status, item, get.
  rewrite !dict_get_set_ne by discriminate. rewrite dict_get_set_eq.
  destruct (dict_get "id" t); [|discriminate]. simpl.
  destruct (dict_get "status" t); [|discriminate]. simpl.
  destruct (dict_get "summary" t); [|discriminate]. simpl.
  destruct (dict_get "created_by" t); [|discriminate]. simpl.
  intros [= -> -> _]. reflexivity.
Qed.

(** A button that the header of the card rules out changes nothing, whether
    the rest of the card can be drawn or not *)
Lemma header_not_offered e i b w t ticket_id status jira_key :
  tickets w !! i = Some t ->
  card_header t = Ok (ticket_id, status, jira_key) ->
  offered e status jira_key b = false ->
  after_press e i b w = w.
Proof.
  intros Hi Hh Ho. unfold after_press.
  destruct (display_ticket_card_cases e i false (Some b) w)
    as [H | (t' & ticket_id' & status' & jira_key' & body & b' &
             Hi' & Hh' & _ & _ & Hb & Ho' & _)].
  - rewrite H. reflexivity.
  - injection Hb as <-. rewrite Hi in Hi'. injection Hi' as <-.
    rewrite Hh in Hh'. injection Hh' as <- <- <-.
    rewrite Ho in Ho'. discriminate.
Qed.

(** X8. Two presses of the same lifecycle or synchronisation button change
    the session at most once, whatever the surroundings are at the second
    press (the clock, the answer of Jira): either the first press changed
    nothing (the button was not offered, the card could not be drawn, or the
    synchronisation failed), or it left the ticket in a state in which the
    card no longer offers the button, and the second press changes nothing.
    A double click cannot advance a ticket by two steps, and a ticket that
    was synchronised is not synchronised again. (Delete is different: after
    it the index holds another ticket.) *)
Theorem second_press_changes_nothing e e2 i b w :
  b <> Delete ->
  after_press e i b w = w \/
  after_press e2 i b (after_press e i b w) = after_press e i b w.
Proof.
  intros Hb.
  set (w1 := after_press e i b w).
  assert (E : w1 = (display_ticket_card e i false (Some b) w).2) by reflexivity.
  clearbody w1.
  destruct (display_ticket_card_cases e i false (Some b) w)
    as [H | (t & ticket_id & status & jira_key & body & b' &
             Hi & Hh & Hbody & _ & [= <-] & Ho & H)]; rewrite H in E; clear H;
    [left; exact E|].
  destruct b; [| | | |contradiction].
  - (* Sync Jira *)
    simpl in Ho. apply andb_true_iff in Ho as [_ Hc].
    destruct (truthy (create_jira_issue e t)) eqn:Ht.
    + right.
      destruct (sync_ticket_to_jira_success e i w t Hi Hc Ht) as (entry & Hs).
      unfold press, bind in E. rewrite Hs in E. unfold ret in E. cbn [snd] in E. subst w1.
      eapply header_not_offered.
      * cbn [tickets]. apply list_lookup_insert_eq. eapply lookup_lt_Some. exact Hi.
      * rewrite card_header_set by discriminate.
        apply (card_header_set_jira_key _ _ _ _ _ Hh).
      * simpl. rewrite Ht. reflexivity.
    + left. unfold press, bind in E.
      rewrite (sync_ticket_to_jira_failure e i w t Hi) in E by (right; exact Ht). exact E.
  - (* Approve *)
    right. destruct (press_approve e i w t ticket_id Hi) as (entry & Hp).
    rewrite Hp in E. cbn [snd] in E. subst w1.
    eapply header_not_offered.
    + eapply transitioned_lookup. exact Hi.
    + rewrite card_header_set by discriminate.
      apply (card_header_set_status _ _ _ _ _ Hh).
    + reflexivity.
  - (* Start *)
    right. destruct (press_start e i w t ticket_id Hi) as (entry & Hp).
    rewrite Hp in E. cbn [snd] in E. subst w1.
    eapply header_not_offered.
    + eapply transitioned_lookup. exact Hi.
    + rewrite card_header_set by discriminate.
      apply (card_header_set_status _ _ _ _ _ Hh).
    + reflexivity.
  - (* Complete *)
    right. destruct (press_complete e i w t ticket_id Hi) as (entry & Hp).
    rewrite Hp in E. cbn [snd] in E. subst w1.
    eapply header_not_offered.
    + eapply transitioned_lookup. exact Hi.
    + rewrite card_header_set by discriminate.
      apply (card_header_set_status _ _ _ _ _ Hh).
    + reflexivity.
Qed.

Lemma second_press_changes_nothing_witness :
  let e := Sample.surroundings "" None None in
  let e2 := Sample.surroundings "" None (Some (JObj [("key", JStr "AXIS-7")])) in
  let w := Sample.session [Sample.stored "0a1b2c3d" "AI Review"] in
  (after_press e 0 SyncJira w = w \/
   after_press e2 0 SyncJira (after_press e 0 SyncJira w) = after_press e 0 SyncJira w) /\
  (after_press e 0 Approve w = w \/
   after_press e2 0 Approve (after_press e 0 Approve w) = after_press e 0 Approve w).
Proof.
  intros e e2 w. split.
  - apply (second_press_changes_nothing e e2 0 SyncJira w). discriminate.
  - apply (second_press_changes_nothing e e2 0 Approve w). discriminate.
Defined.

Lemma sync_ticket_to_jira_saved e i w :
  ticket_file w = tickets w ->
  ticket_file (sync_ticket_to_jira e i w).2 = tickets (sync_ticket_to_jira e i w).2.
Proof.
  intros Hw.
  destruct (jira_is_configured e) eqn:Hc.
  2: { unfold sync_ticket_to_jira. rewrite Hc. exact Hw. }
  destruct (tickets w !! i) as [t|] eqn:Hi.
  2: { unfold sync_ticket_to_jira. rewrite Hc. cbn [negb].
       unfold bind, ticket_at. rewrite Hi. exact Hw. }
  destruct (truthy (create_jira_issue e t)) eqn:Ht.
  - destruct (sync_ticket_to_jira_success e i w t Hi Hc Ht) as (entry & ->). reflexivity.
  - rewrite (sync_ticket_to_jira_failure e i w t Hi) by (right; exact Ht). exact Hw.
Qed.

Lemma display_ticket_card_saved e i compact pressed w :
  ticket_file w = tickets w ->
  ticket_file (display_ticket_card e i compact pressed w).2
  = tickets (display_ticket_card e i compact pressed w).2.
Proof.
  intros Hw.
  destruct (display_ticket_card_cases e i compact pressed w)
    as [-> | (t & ticket_id & status & jira_key & body & b &
              Hi & Hh & Hbody & _ & _ & Ho & ->)]; [exact Hw|].
  destruct b.
  - unfold press, bind. pose proof (sync_ticket_to_jira_saved e i w Hw) as Hs.
    destruct (sync_ticket_to_jira e i w) as [[ok|x] w']; exact Hs.
  - destruct (press_approve e i w t ticket_id Hi) as (entry & ->). reflexivity.
  - destruct (press_start e i w t ticket_id Hi) as (entry & ->). reflexivity.
  - destruct (press_complete e i w t ticket_id Hi) as (entry & ->). reflexivity.
  - destruct (without_id ticket_id (tickets w)) as [kept|x] eqn:Hk.
    + destruct (press_delete e i w ticket_id kept Hk) as (entry & ->). reflexivity.
    + unfold press, bind, get_tickets, lift. rewrite Hk. exact Hw.
Qed.

Lemma card_event_saved e username ev w :
  card_event ev = true ->
  ticket_file w = tickets w ->
  ticket_file (run_event e username ev w).2 = tickets (run_event e username ev w).2.
Proof.
  intros Hev Hw.
  destruct ev as [i compact b | summary description server rack user_priority b
                 | rows sync | ]; cbn [run_event]; try discriminate Hev.
  - apply display_ticket_card_saved. exact Hw.
  - reflexivity.
Qed.

(** X9. The lifecycle buttons, Delete and Refresh Data leave no unsaved
    change. If the ticket file holds the session list, it still does after
    any sequence of presses of Approve, Start Work, Complete and Delete and
    of refreshes, whether a card could be drawn or raised; a refresh then
    changes no ticket. (These events write into a ticket only a status, a
    flag and the clock's time.) *)
Theorem session_is_always_saved e username evs w :
  Forall (fun ev => card_event ev = true) evs ->
  ticket_file w = tickets w ->
  ticket_file (run_events e username evs w) = tickets (run_events e username evs w) /\
  tickets (refresh (run_events e username evs w)).2 = tickets (run_events e username evs w).
Proof.
  intros Hevs Hw.
  assert (H : ticket_file (run_events e username evs w)
              = tickets (run_events e username evs w)).
  { revert w Hw. induction Hevs as [|ev evs Hev _ IH]; intros w Hw; [exact Hw|].
    cbn [run_events]. apply IH. apply card_event_saved; assumption. }
  split; [exact H|]. exact H.
Qed.

Lemma session_is_always_saved_witness :
  let w := Sample.session [Sample.stored "0a1b2c3d" "AI Review";
                           Sample.stored "4e5f6a7b" "Approved"] in
  let evs := [Press 0 false (Some Approve); Press 1 false (Some Start); Refresh;
              Press 0 false (Some Delete)] in
  ticket_file (run_events Sample.mock "tech1" evs w)
  = tickets (run_events Sample.mock "tech1" evs w) /\
  tickets (refresh (run_events Sample.mock "tech1" evs w)).2
  = tickets (run_events Sample.mock "tech1" evs w).
Proof.
  intros w evs. apply (session_is_always_saved Sample.mock "tech1" evs w).
  - repeat constructor.
  - reflexivity.
Defined.

(** ** The list of the "Tickets" tab *)

Lemma filter_status_filter status_filter l r :
  filter_status status_filter l = Ok r ->
  r = filter (fun t => shown (Some status_filter) None t = true) l.
Proof.
  revert r. induction l as [|t l IH]; intros r; simpl.
  - intros [= <-]. reflexivity.
  - unfold item. destruct (dict_get "status" t) as [st|] eqn:Hst; [|discriminate]. simpl.
    destruct (filter_status status_filter l) as [r'|]; [|discriminate]. simpl.
    intros [= <-]. rewrite (IH r' eq_refl).
    destruct (py_eq st (JStr status_filter)) eqn:Heq.
    + rewrite filter_cons_True; [reflexivity|].
      unfold shown. rewrite Hst, Heq. reflexivity.
    + rewrite filter_cons_False; [reflexivity|].
      unfold shown. rewrite Hst, Heq. discriminate.
Qed.

Lemma filter_shown_priority status_filter p (l : list dict) :
  filter_priority p (filter (fun t => shown status_filter None t = true) l)
  = filter (fun t => shown status_filter (Some p) t = true) l.
Proof.
  unfold filter_priority. rewrite list_filter_filter. apply list_filter_iff.
  intros t. unfold shown. rewrite andb_true_r, andb_true_iff. tauto.
Qed.

Lemma filter_shown_all (l : list dict) : filter (fun t => shown None None t = true) l = l.
Proof.
  induction l as [|t l IH]; [reflexivity|].
  rewrite filter_cons_True by reflexivity. rewrite IH. reflexivity.
Qed.

Lemma insert_sorted_perm reverse x l r :
  insert_sorted reverse x l = Ok r -> r ≡ₚ x :: l.
Proof.
  revert r. induction l as [|y l IH]; intros r; simpl.
  - intros [= <-]. reflexivity.
  - destruct (if reverse then py_lt x.1 y.1 else py_lt y.1 x.1) as [[|]|]; simpl;
      [|intros [= <-]; reflexivity|discriminate].
    destruct (insert_sorted reverse x l) as [r'|]; [|discriminate]. simpl.
    intros [= <-]. rewrite (IH r' eq_refl). apply Permutation_swap.
Qed.

Lemma sort_keyed_perm reverse l r : sort_keyed reverse l = Ok r -> r ≡ₚ l.
Proof.
  revert r. induction l as [|x l IH]; intros r; simpl.
  - intros [= <-]. reflexivity.
  - destruct (sort_keyed reverse l) as [r'|]; [|discriminate]. simpl.
    intros Hr. rewrite (insert_sorted_perm _ _ _ _ Hr), (IH r' eq_refl). reflexivity.
Qed.

Lemma sort_by_perm key reverse l r : sort_by key reverse l = Ok r -> r ≡ₚ l.
Proof.
  unfold sort_by. destruct (with_keys key l) as [keyed|] eqn:Hk; [|discriminate]. simpl.
  destruct (sort_keyed reverse keyed) as [sorted|] eqn:Hs; [|discriminate]. simpl.
  intros [= <-]. rewrite <- (with_keys_snd _ _ _ Hk).
  apply Permutation_map. eapply sort_keyed_perm. exact Hs.
Qed.

(** X10. When the "Tickets" tab can draw its list, the list is a
    rearrangement of exactly the tickets of the session that pass the two
    filters: no ticket that passes is left out, none is listed twice, none
    that fails a filter is listed. *)
Theorem list_tickets_is_the_filtered_session status_filter priority_filter order session l :
  list_tickets status_filter priority_filter order session = Ok l ->
  l ≡ₚ filter (fun t => shown status_filter priority_filter t = true) session.
Proof.
  unfold list_tickets. intros H.
  assert (Hf : exists filtered,
            filtered = filter (fun t => shown status_filter priority_filter t = true) session /\
            exists key reverse, sort_by key reverse filtered = Ok l).
  { destruct status_filter as [s|].
    - destruct (filter_status s session) as [r|] eqn:Hr; [|discriminate].
      apply filter_status_filter in Hr. subst r. simpl in H.
      destruct priority_filter as [p|].
      + rewrite filter_shown_priority in H. eexists. split; [reflexivity|].
        destruct order; eauto.
      + eexists. split; [reflexivity|]. destruct order; eauto.
    - simpl in H. destruct priority_filter as [p|].
      + rewrite <- (filter_shown_all session) in H at 1.
        rewrite filter_shown_priority in H. eexists. split; [reflexivity|].
        destruct order; eauto.
      + rewrite filter_shown_all. eexists. split; [reflexivity|]. destruct order; eauto. }
  destruct Hf as (filtered & -> & key & reverse & Hs).
  eapply sort_by_perm. exact Hs.
Qed.

Lemma list_tickets_is_the_filtered_session_witness :
  let session := [Sample.stored "0a1b2c3d" "Draft"; Sample.stored "deadbeef" "Approved"] in
  [Sample.stored "deadbeef" "Approved"]
  ≡ₚ filter (fun t => shown (Some "Approved") (Some "High") t = true) session.
Proof.
  intros session.
  apply (list_tickets_is_the_filtered_session (Some "Approved") (Some "High") Newest session).
  reflexivity.
Defined.

Lemma insert_sorted_scores q t l :
  Forall (fun y => exists p, y.1 = JNum p) l ->
  descending l ->
  exists r, insert_sorted true (JNum q, t) l = Ok r /\ descending r.
Proof.
  induction l as [|y l IH]; intros Hnum Hs; simpl.
  - eexists. split; [reflexivity|]. simpl. auto.
  - apply Forall_cons in Hnum as [[p Hp] Hnum].
    destruct Hs as [Hy Hs].
    rewrite Hp. simpl.
    destruct (Qle_bool p q) eqn:Hle; simpl.
    + eexists. split; [reflexivity|].
      apply Qle_bool_iff in Hle.
      split; [|split; assumption].
      constructor.
      * exists q, p. auto.
      * rewrite Forall_forall in *. intros z Hz.
        destruct (Hy z Hz) as (p' & q' & Hp' & Hq' & Hle'). exists q, q'.
        rewrite Hp in Hp'. injection Hp' as <-.
        repeat split; [exact Hq'|]. eapply Qle_trans; eassumption.
    + destruct (IH Hnum Hs) as (r & Hr & Hsr). rewrite Hr. simpl.
      eexists. split; [reflexivity|].
      split; [|exact Hsr].
      apply insert_sorted_perm in Hr. rewrite Hr.
      constructor; [|exact Hy].
      exists p, q. repeat split; [exact Hp|].
      apply Qlt_le_weak, Qnot_le_lt. intros Hc. apply Qle_bool_iff in Hc. congruence.
Qed.

Lemma sort_keyed_scores l :
  Forall (fun y => exists p, y.1 = JNum p) l ->
  exists r, sort_keyed true l = Ok r /\ descending r.
Proof.
  induction l as [|[k t] l IH]; intros Hnum; simpl.
  - eexists. split; [reflexivity|]. exact Logic.I.
  - apply Forall_cons in Hnum as [[q Hq] Hnum]. simpl in Hq. subst k.
    destruct (IH Hnum) as (r & Hr & Hs). rewrite Hr. simpl.
    apply insert_sorted_scores; [|exact Hs].
    apply sort_keyed_perm in Hr. rewrite Hr. exact Hnum.
Qed.

Lemma with_keys_score l :
  exists keyed,
    with_keys (fun t => Ok (get "priority_score" (JNum 0) t)) l = Ok keyed /\
    Forall (fun y => y.1 = get "priority_score" (JNum 0) y.2) keyed.
Proof.
  induction l as [|t l (keyed & Hk & Hall)]; simpl.
  - eexists. split; [reflexivity|]. constructor.
  - rewrite Hk. simpl. eexists. split; [reflexivity|]. constructor; [reflexivity | exact Hall].
Qed.

Lemma descending_lookup l :
  descending l ->
  forall i j x y, (i < j)%nat -> l !! i = Some x -> l !! j = Some y -> key_ge x y.
Proof.
  induction l as [|a l IH]; intros Hl i j x y Hij Hi Hj; [discriminate|].
  destruct Hl as [Ha Hs].
  destruct j as [|j]; [lia|]. simpl in Hj.
  destruct i as [|i]; simpl in Hi.
  - injection Hi as <-. rewrite Forall_forall in Ha. apply Ha.
    eapply list_elem_of_lookup_2. exact Hj.
  - apply (IH Hs i j); [lia | assumption | assumption].
Qed.

(** X11. Sorted by score, the list of the "Tickets" tab runs from the
    highest score to the lowest, provided every listed ticket stores a
    number as its score (a ticket without a score counts as 0). Without a
    status filter the list can always be drawn. *)
Theorem list_tickets_by_score_descends status_filter priority_filter session :
  Forall (fun t => is_Some (numeric_score t)) session ->
  (status_filter = None ->
   exists l, list_tickets status_filter priority_filter ByScore session = Ok l) /\
  forall l, list_tickets status_filter priority_filter ByScore session = Ok l ->
    forall i j ti tj, (i < j)%nat -> l !! i = Some ti -> l !! j = Some tj ->
      exists p q, numeric_score ti = Some p /\ numeric_score tj = Some q /\ (q <= p)%Q.
Proof.
  intros Hnum.
  assert (Hsort : forall filtered,
            Forall (fun t => is_Some (numeric_score t)) filtered ->
            exists l,
              sort_by (fun t => Ok (get "priority_score" (JNum 0) t)) true filtered = Ok l /\
              forall i j ti tj, (i < j)%nat -> l !! i = Some ti -> l !! j = Some tj ->
                exists p q, numeric_score ti = Some p /\ numeric_score tj = Some q /\
                            (q <= p)%Q).
  { intros filtered Hf. unfold sort_by.
    destruct (with_keys_score filtered) as (keyed & Hk & Hkeys). rewrite Hk. simpl.
    assert (Hn : Forall (fun y : json * dict => exists p, y.1 = JNum p) keyed).
    { pose proof (proj1 (Forall_forall _ _) Hf) as Hf'.
      pose proof (proj1 (Forall_forall _ _) Hkeys) as Hkeys'.
      apply Forall_forall. intros y Hy. rewrite (Hkeys' y Hy).
      assert (Hin : y.2 ∈ filtered).
      { rewrite <- (with_keys_snd _ _ _ Hk). apply list_elem_of_fmap. eauto. }
      destruct (Hf' _ Hin) as (q & Hq). unfold numeric_score in Hq.
      destruct (get "priority_score" (JNum 0) y.2); try discriminate. eauto. }
    destruct (sort_keyed_scores keyed Hn) as (sorted & Hs & Hsorted). rewrite Hs. simpl.
    eexists. split; [reflexivity|].
    intros i j ti tj Hij Hi Hj.
    change (map snd sorted) with (snd <$> sorted) in Hi, Hj.
    apply list_lookup_fmap_Some_1 in Hi as (x & -> & Hi).
    apply list_lookup_fmap_Some_1 in Hj as (y & -> & Hj).
    destruct (descending_lookup _ Hsorted i j x y Hij Hi Hj) as (p & q & Hp & Hq & Hle).
    assert (Hx : x ∈ keyed).
    { rewrite <- (sort_keyed_perm _ _ _ Hs). eapply list_elem_of_lookup_2. exact Hi. }
    assert (Hy : y ∈ keyed).
    { rewrite <- (sort_keyed_perm _ _ _ Hs). eapply list_elem_of_lookup_2. exact Hj. }
    rewrite Forall_forall in Hkeys.
    exists p, q. unfold numeric_score.
    rewrite <- (Hkeys x Hx), <- (Hkeys y Hy), Hp, Hq. auto. }
  assert (Hsub : forall filtered, filtered ⊆ session ->
            Forall (fun t => is_Some (numeric_score t)) filtered).
  { intros filtered Hsub. pose proof (proj1 (Forall_forall _ _) Hnum) as Hnum'.
    apply Forall_forall. intros t Ht. apply Hnum', Hsub, Ht. }
  split.
  - intros ->. unfold list_tickets. simpl.
    destruct (Hsort (match priority_filter with
                     | Some p => filter_priority p session
                     | None => session
                     end)) as (l & Hl & _); [|eauto].
    apply Hsub. destruct priority_filter; [|reflexivity].
    intros t Ht. apply list_elem_of_filter in Ht. tauto.
  - intros l Hl. unfold list_tickets in Hl.
    destruct (match status_filter with
              | Some s => filter_status s session
              | None => Ok session
              end) as [filtered|] eqn:Hfs; [|discriminate].
    simpl in Hl.
    assert (H1 : filtered ⊆ session).
    { destruct status_filter; [|injection Hfs as <-; reflexivity].
      intros t Ht. eapply filter_status_subset; eassumption. }
    destruct (Hsort (match priority_filter with
                     | Some p => filter_priority p filtered
                     | None => filtered
                     end)) as (l' & Hl' & Hsorted).
    { apply Hsub. destruct priority_filter; [|exact H1].
      intros t Ht. apply list_elem_of_filter in Ht. apply H1. tauto. }
    rewrite Hl' in Hl. injection Hl as <-. exact Hsorted.
Qed.

Lemma list_tickets_by_score_descends_witness :
  let session := [Sample.stored "0a1b2c3d" "Draft";
                  dict_set "priority_score" (JNum 8.5) (Sample.stored "deadbeef" "Approved")] in
  (@None string = None ->
   exists l, list_tickets None None ByScore session = Ok l) /\
  forall l, list_tickets None None ByScore session = Ok l ->
    forall i j ti tj, (i < j)%nat -> l !! i = Some ti -> l !! j = Some tj ->
      exists p q, numeric_score ti = Some p /\ numeric_score tj = Some q /\ (q <= p)%Q.
Proof.
  intros session. apply (list_tickets_by_score_descends None None session).
  repeat constructor; eexists; reflexivity.
Defined.

(** ** The canned judgements of mock mode *)

Lemma validation_prompt_phrase_free e ticket :
  phrase_free e (get "summary" (JStr "") ticket) ->
  phrase_free e (get "description" (JStr "") ticket) ->
  phrase_free e (get "server" (JStr "") ticket) ->
  phrase_free e (get "rack" (JStr "") ticket) ->
  phrase_free e (get "priority" (JStr "") ticket) ->
  str_in priority_phrase (lower (validation_user_prompt e ticket)) = false.
Proof.
  unfold phrase_free, validation_user_prompt.
  set (s := fmt e (get "summary" _ _)). set (d := fmt e (get "description" _ _)).
  set (v := fmt e (get "server" _ _)). set (r := fmt e (get "rack" _ _)).
  set (p := fmt e (get "priority" _ _)).
  intros Hs Hd Hv Hr Hp. rewrite !lower_app.
  set (ls := lower s) in *. set (ld := lower d) in *. set (lv := lower v) in *.
  set (lr := lower r) in *. set (lp := lower p) in *.
  unfold priority_phrase in *.
  repeat match goal with
         | |- context [lower ?x] =>
             let y := eval vm_compute in (lower x) in change (lower x) with y
         end.
  simpl.
  rewrite str_in_sep, Hs by reflexivity. simpl.
  rewrite str_in_sep, Hd by reflexivity. simpl.
  rewrite str_in_sep, Hv by reflexivity. simpl.
  rewrite str_in_sep, Hr by reflexivity. simpl.
  rewrite str_in_sep, Hp by reflexivity. reflexivity.
Qed.

Lemma validation_prompt_validate e ticket :
  str_in "validate" (lower (validation_user_prompt e ticket)) = true.
Proof. unfold validation_user_prompt. rewrite lower_app. reflexivity. Qed.

(** X12. In mock mode the validation of a ticket does not depend on the
    ticket: whenever none of the five interpolated fields contains
    "calculate priority score", [validate_and_enhance_ticket] returns the
    one canned judgement, which reads 65 % complete and not complete, so the
    card of every such ticket shows the completeness warning. *)
Theorem mock_validation_is_canned e ticket w :
  use_mock e = true ->
  phrase_free e (get "summary" (JStr "") ticket) ->
  phrase_free e (get "description" (JStr "") ticket) ->
  phrase_free e (get "server" (JStr "") ticket) ->
  phrase_free e (get "rack" (JStr "") ticket) ->
  phrase_free e (get "priority" (JStr "") ticket) ->
  exists validation,
    decode_response mock_validation = Some (JObj validation) /\
    (validate_and_enhance_ticket e ticket w).1 = Ok (JObj validation) /\
    (exists q, dict_get "completeness_score" validation = Some (JNum q) /\ (q == 0.65)%Q) /\
    dict_get "is_complete" validation = Some (JBool false) /\
    card_completeness_low (dict_set "validation" (JObj validation) ticket) = Ok true.
Proof.
  intros Hm Hs Hd Hv Hr Hp.
  pose proof (validation_prompt_phrase_free e ticket Hs Hd Hv Hr Hp) as Hfree.
  rewrite validate_and_enhance_ticket_run. unfold validation_judgement, call_ai_reply.
  rewrite Hm. unfold priority_phrase in Hfree. rewrite Hfree.
  rewrite validation_prompt_validate. cbn [orb fst].
  destruct (decode_response mock_validation) as [[| | | | |validation]|] eqn:Hdec;
    try (vm_compute in Hdec; discriminate).
  exists validation. split; [reflexivity|]. split; [reflexivity|].
  assert (Hc : dict_get "completeness_score" validation = Some (JNum (13 # 20))).
  { vm_compute in Hdec. injection Hdec as <-. reflexivity. }
  split; [exists (13 # 20); split; [exact Hc | reflexivity]|].
  split; [vm_compute in Hdec; injection Hdec as <-; reflexivity|].
  unfold card_completeness_low, get. rewrite dict_get_set_eq. cbn [attr_get rbind].
  unfold get. rewrite Hc. reflexivity.
Qed.

Lemma mock_validation_is_canned_witness :
  exists validation,
    decode_response mock_validation = Some (JObj validation) /\
    (validate_and_enhance_ticket Sample.mock Sample.ticket_data Sample.empty_world).1
    = Ok (JObj validation) /\
    (exists q, dict_get "completeness_score" validation = Some (JNum q) /\ (q == 0.65)%Q) /\
    dict_get "is_complete" validation = Some (JBool false) /\
    card_completeness_low (dict_set "validation" (JObj validation) Sample.ticket_data)
    = Ok true.
Proof.
  apply (mock_validation_is_canned Sample.mock Sample.ticket_data Sample.empty_world);
    reflexivity.
Defined.

Lemma prefix_app_l p : forall a b,
  String.prefix p a = true -> String.prefix p (a +:+ b) = true.
Proof.
  induction p as [|x p IH]; intros a b; [destruct (a +:+ b); reflexivity|].
  destruct a as [|y a]; simpl; [discriminate|].
  destruct (ascii_dec x y); [apply IH | discriminate].
Qed.

Lemma str_in_app_l p a b : str_in p a = true -> str_in p (a +:+ b) = true.
Proof.
  induction a as [|y a IH]; intros H.
  - simpl in H. rewrite orb_false_r in H. destruct p; [|discriminate].
    destruct b; reflexivity.
  - change (str_in p (String y a +:+ b))
      with (String.prefix p (String y a +:+ b) || str_in p (a +:+ b)).
    change (str_in p (String y a)) with (String.prefix p (String y a) || str_in p a) in H.
    apply orb_true_iff in H as [H | H].
    + rewrite (prefix_app_l _ _ _ H). reflexivity.
    + rewrite (IH H). apply orb_true_r.
Qed.

Lemma str_in_app_r p a b : str_in p b = true -> str_in p (a +:+ b) = true.
Proof.
  intros H. induction a as [|y a IH]; [exact H|].
  change (str_in p (String y a +:+ b))
    with (String.prefix p (String y a +:+ b) || str_in p (a +:+ b)).
  rewrite IH. apply orb_true_r.
Qed.

(** The summary is interpolated into both prompts *)
Lemma prompts_contain_summary e ticket p :
  str_in p (lower (fmt e (get "summary" (JStr "") ticket))) = true ->
  str_in p (lower (validation_user_prompt e ticket)) = true /\
  str_in p (lower (priority_user_prompt e ticket)) = true.
Proof.
  intros H. unfold validation_user_prompt, priority_user_prompt.
  split.
  - do 4 (rewrite lower_app; apply str_in_app_r).
    rewrite lower_app. apply str_in_app_l. exact H.
  - do 4 (rewrite lower_app; apply str_in_app_r).
    rewrite lower_app. apply str_in_app_l. exact H.
Qed.

Lemma mock_reply_on_phrase e system_prompt user_prompt :
  use_mock e = true ->
  str_in priority_phrase (lower user_prompt) = true ->
  call_ai_reply e system_prompt user_prompt = mock_priority.
Proof.
  intros Hm Hp. unfold call_ai_reply. rewrite Hm.
  unfold priority_phrase in Hp. rewrite Hp. reflexivity.
Qed.

(** X13. In mock mode a ticket whose summary contains "calculate priority
    score", in any letter case, gets the canned priority judgement for both
    advisory calls: its calculated priority is High and its score 8.5
    whatever else it says, and its validation is that same judgement, which
    has no completeness score. *)
Theorem mock_priority_template_on_phrase e username ticket_data w summary :
  use_mock e = true ->
  NoDup (map fst ticket_data) ->
  dict_get "summary" ticket_data = Some (JStr summary) ->
  str_in priority_phrase (lower summary) = true ->
  exists ticket w' judgement,
    create_ticket e username ticket_data w = (Ok ticket, w') /\
    decode_response mock_priority = Some (JObj judgement) /\
    dict_get "validation" ticket = Some (JObj judgement) /\
    dict_get "priority_analysis" ticket = Some (JObj judgement) /\
    dict_get "completeness_score" judgement = None /\
    dict_get "calculated_priority" ticket = Some (JStr "High") /\
    exists q, dict_get "priority_score" ticket = Some (JNum q) /\ (q == 8.5)%Q.
Proof.
  intros Hm Hnd Hsum Hin.
  destruct (create_ticket_run e username ticket_data w)
    as (analysis & declared & Hpj & _ & Hrun).
  cbv zeta in Hrun. rewrite Hrun. clear Hrun.
  set (t0 := initial_ticket e username ticket_data (readings w)) in *.
  assert (Hs0 : get "summary" (JStr "") t0 = JStr summary).
  { unfold get, t0, initial_ticket. rewrite dict_get_update by exact Hnd.
    rewrite Hsum. reflexivity. }
  assert (Hv : validation_judgement e t0
               = match decode_response mock_priority with
                 | Some v => v | None => default_validation end).
  { assert (Hin0 : str_in priority_phrase
                       (lower (fmt e (get "summary" (JStr "") t0))) = true)
      by (rewrite Hs0; exact Hin).
    pose proof (prompts_contain_summary e t0 priority_phrase Hin0) as [Hprompt _].
    unfold validation_judgement.
    rewrite (mock_reply_on_phrase e _ _ Hm Hprompt). reflexivity. }
  assert (Hp : priority_judgement e (dict_set "validation" (validation_judgement e t0) t0)
               = match decode_response mock_priority with
                 | Some v => v
                 | None => default_priority_analysis
                             (dict_set "validation" (validation_judgement e t0) t0)
                 end).
  { set (t1 := dict_set "validation" (validation_judgement e t0) t0).
    assert (Hin1 : str_in priority_phrase
                       (lower (fmt e (get "summary" (JStr "") t1))) = true).
    { unfold t1. rewrite get_set_ne by discriminate. rewrite Hs0. exact Hin. }
    pose proof (prompts_contain_summary e t1 priority_phrase Hin1) as [_ Hprompt].
    unfold priority_judgement.
    rewrite (mock_reply_on_phrase e _ _ Hm Hprompt). reflexivity. }
  destruct (decode_response mock_priority) as [[| | | | |judgement]|] eqn:Hdec;
    try (vm_compute in Hdec; discriminate).
  rewrite Hp in Hpj. injection Hpj as <-.
  assert (Hj : dict_get "calculated_priority" judgement = Some (JStr "High") /\
               dict_get "priority_score" judgement = Some (JNum (17 # 2)) /\
               dict_get "completeness_score" judgement = None).
  { vm_compute in Hdec. injection Hdec as <-. repeat split. }
  destruct Hj as (Hc & Hsc & Hcs).
  eexists _, _, judgement. split; [reflexivity|]. split; [reflexivity|].
  unfold get. rewrite Hc, Hsc.
  split; [|split; [|split; [exact Hcs|split]]].
  - destruct (py_ne _ declared).
    + do 5 rewrite dict_get_set_ne by discriminate.
      rewrite dict_get_set_eq, Hv. reflexivity.
    + do 3 rewrite dict_get_set_ne by discriminate.
      rewrite dict_get_set_eq, Hv. reflexivity.
  - destruct (py_ne _ declared).
    + do 4 rewrite dict_get_set_ne by discriminate. apply dict_get_set_eq.
    + do 2 rewrite dict_get_set_ne by discriminate. apply dict_get_set_eq.
  - destruct (py_ne _ declared).
    + do 3 rewrite dict_get_set_ne by discriminate. apply dict_get_set_eq.
    + rewrite dict_get_set_ne by discriminate. apply dict_get_set_eq.
  - exists (17 # 2). split; [|reflexivity].
    destruct (py_ne _ declared).
    + do 2 rewrite dict_get_set_ne by discriminate. apply dict_get_set_eq.
    + apply dict_get_set_eq.
Qed.

Lemma mock_priority_template_on_phrase_witness :
  exists ticket w' judgement,
    create_ticket Sample.mock "tech1"
      (form_ticket_data "Please CALCULATE priority score" "Fan 3 stopped" "srv-12" "R4" "Low")
      Sample.empty_world = (Ok ticket, w') /\
    decode_response mock_priority = Some (JObj judgement) /\
    dict_get "validation" ticket = Some (JObj judgement) /\
    dict_get "priority_analysis" ticket = Some (JObj judgement) /\
    dict_get "completeness_score" judgement = None /\
    dict_get "calculated_priority" ticket = Some (JStr "High") /\
    exists q, dict_get "priority_score" ticket = Some (JNum q) /\ (q == 8.5)%Q.
Proof.
  apply (mock_priority_template_on_phrase Sample.mock "tech1"
           (form_ticket_data "Please CALCULATE priority score" "Fan 3 stopped" "srv-12" "R4"
              "Low")
           Sample.empty_world "Please CALCULATE priority score"); try reflexivity.
  apply (bool_decide_unpack _). vm_compute. reflexivity.
Defined.

(** ** Signing in and out *)

(** X14. [logout] does not remove the ticket list from the browser session.
    In a fresh session the first page after a sign-in loads the user's own
    ticket file; but a user who signs in after another one has logged out
    gets the list the other one left, whatever their own file holds, and the
    next save writes that list into their file. *)
Theorem logout_keeps_the_ticket_list disk s u usr l :
  lookup_key u Browser.USERS = Some usr ->
  Browser.tickets s = Some l ->
  let first := Browser.main disk (Browser.login_page u (Browser.password usr) Browser.fresh) in
  let next := Browser.main disk
                (Browser.login_page u (Browser.password usr) (Browser.logout s)) in
  Browser.tickets first = Some (Browser.load_user_tickets disk u) /\
  Browser.logged_in next = true /\
  Browser.username next = Some u /\
  Browser.tickets next = Some l /\
  Browser.save_session disk next u = Some l.
Proof.
  intros Hu Hl. unfold Browser.login_page. rewrite Hu, String.eqb_refl.
  unfold Browser.main, Browser.logout, Browser.save_session, Browser.save_user_tickets,
    Browser.current_user. cbn. rewrite Hl. cbn. rewrite String.eqb_refl. auto.
Qed.

Lemma logout_keeps_the_ticket_list_witness :
  let disk := fun u : string =>
                if String.eqb u "tech1" then Some [Sample.stored "0a1b2c3d" "Draft"]
                else None in
  let s := Browser.main disk (Browser.login_page "tech1" "tech123" Browser.fresh) in
  let first := Browser.main disk (Browser.login_page "admin" "admin123" Browser.fresh) in
  let next := Browser.main disk (Browser.login_page "admin" "admin123" (Browser.logout s)) in
  Browser.tickets first = Some [] /\
  Browser.logged_in next = true /\
  Browser.username next = Some "admin" /\
  Browser.tickets next = Some [Sample.stored "0a1b2c3d" "Draft"] /\
  Browser.save_session disk next "admin" = Some [Sample.stored "0a1b2c3d" "Draft"].
Proof.
  intros disk s.
  apply (logout_keeps_the_ticket_list disk s "admin"
           (Browser.mkUser "admin123" "Admin" "Admin User" ["all"]
              "System administrator - Full access to all features and user management")
           [Sample.stored "0a1b2c3d" "Draft"]); reflexivity.
Defined.

(** ** Reading the audit log back *)

Lemma has_char_app c a b : has_char c (a +:+ b) = has_char c a || has_char c b.
Proof. induction a as [|x a IH]; simpl; [reflexivity|]. rewrite IH, orb_assoc. reflexivity. Qed.

Lemma universal_newlines_clean s :
  has_char carriage_return s = false -> universal_newlines s = s.
Proof.
  induction s as [|a s IH]; simpl; [reflexivity|]. intros H.
  apply orb_false_iff in H as [Ha Hs]. rewrite Ha, (IH Hs). reflexivity.
Qed.

Lemma text_of_snoc l e : text_of (l ++ [e]) = text_of l +:+ e +:+ nl.
Proof.
  induction l as [|x l IH]; simpl.
  - reflexivity.
  - rewrite IH, app_string_assoc. reflexivity.
Qed.

Lemma audit_file_snoc l e :
  audit_file (l ++ [e]) = universal_newlines (audit_file l) +:+ e +:+ nl.
Proof. unfold audit_file. rewrite fold_left_app. reflexivity. Qed.

Lemma audit_file_clean l :
  Forall (fun e => has_char carriage_return e = false) l ->
  audit_file l = text_of l /\ has_char carriage_return (audit_file l) = false.
Proof.
  induction l as [|e l IH] using rev_ind; intros Hl; [split; reflexivity|].
  apply Forall_app in Hl as [Hl He]. apply Forall_cons in He as [He _].
  destruct (IH Hl) as [E Hc]. rewrite audit_file_snoc, text_of_snoc.
  rewrite (universal_newlines_clean _ Hc), E. split; [reflexivity|].
  rewrite !has_char_app, <- E, Hc, He. reflexivity.
Qed.

Lemma strip_prefix_app p : forall s r, strip_prefix p s = Some r -> s = p +:+ r.
Proof.
  induction p as [|a p IH]; intros s r; simpl.
  - intros [= <-]. reflexivity.
  - destruct s as [|b s]; [discriminate|].
    destruct (Ascii.eqb_spec a b) as [<- | _]; [|discriminate].
    intros H. rewrite (IH s r H). reflexivity.
Qed.

Lemma skip_one_app l s r :
  skip_one l s = Some r -> exists p, p ∈ l /\ s = p +:+ r.
Proof.
  induction l as [|p l IH]; simpl; [discriminate|].
  destruct (strip_prefix p s) as [r'|] eqn:Hp.
  - intros [= <-]. exists p. split; [left | apply strip_prefix_app; exact Hp].
  - intros H. destruct (IH H) as (q & Hq & E). exists q. split; [right; exact Hq | exact E].
Qed.

(** No visible character is part of a white space character *)
Lemma whitespace_invisible c :
  visible c = true -> forallb (fun p => negb (has_char c p)) whitespace = true.
Proof.
  destruct c as [b0 b1 b2 b3 b4 b5 b6 b7].
  destruct b0, b1, b2, b3, b4, b5, b6, b7; intros H;
    first [discriminate H | vm_compute; reflexivity].
Qed.

Lemma lstrip_fuel_has_char c n : forall s,
  visible c = true -> has_char c (lstrip_fuel n s) = has_char c s.
Proof.
  induction n as [|n IH]; intros s Hc; cbn [lstrip_fuel]; [reflexivity|].
  destruct (skip_one whitespace s) as [r|] eqn:Hs; [|reflexivity].
  destruct (skip_one_app _ _ _ Hs) as (p & Hp & ->).
  rewrite (IH r Hc), has_char_app.
  pose proof (whitespace_invisible c Hc) as Hw.
  rewrite forallb_forall in Hw. apply list_elem_of_In in Hp.
  specialize (Hw p Hp). apply negb_true_iff in Hw. rewrite Hw. reflexivity.
Qed.

Lemma is_blank_visible c s :
  visible c = true -> has_char c s = true -> is_blank s = false.
Proof.
  intros Hc Hs. unfold is_blank, lstrip.
  destruct (String.eqb_spec (lstrip_fuel (String.length s) s) "") as [E|]; [|reflexivity].
  rewrite <- (lstrip_fuel_has_char c (String.length s) s Hc), E in Hs. discriminate.
Qed.

Lemma last_char_has_char s c : last_char s = Some c -> has_char c s = true.
Proof.
  induction s as [|a s IH]; [discriminate|]. simpl.
  destruct s as [|b s].
  - intros [= <-]. rewrite Ascii.eqb_refl. reflexivity.
  - intros H. rewrite (IH H). apply orb_true_r.
Qed.

Lemma rstrip_line s c :
  last_char s = Some c -> visible c = true -> rstrip (s +:+ nl) = s.
Proof.
  intros Hl Hc. induction s as [|a s IH]; [discriminate|].
  assert (Hb : is_blank (String a s +:+ nl) = false).
  { apply (is_blank_visible c); [exact Hc|].
    rewrite has_char_app, (last_char_has_char _ _ Hl). reflexivity. }
  change (rstrip (String a s +:+ nl))
    with (if is_blank (String a s +:+ nl) then EmptyString else String a (rstrip (s +:+ nl))).
  rewrite Hb. destruct s as [|b s].
  - reflexivity.
  - rewrite IH; [reflexivity | exact Hl].
Qed.

Lemma lstrip_bracket r : lstrip (String "["%char r) = String "["%char r.
Proof. reflexivity. Qed.

Lemma str_split_clean c s : has_char c s = false -> str_split c s = [s].
Proof.
  induction s as [|a s IH]; simpl; [reflexivity|]. intros H.
  apply orb_false_iff in H as [Ha Hs]. rewrite Ha, (IH Hs). reflexivity.
Qed.

Lemma str_split_app c a b :
  has_char c a = false -> str_split c (a +:+ String c b) = a :: str_split c b.
Proof.
  induction a as [|x a IH]; simpl; intros H.
  - rewrite Ascii.eqb_refl. reflexivity.
  - apply orb_false_iff in H as [Hx Ha]. rewrite Hx, (IH Ha). reflexivity.
Qed.

Lemma str_split_text l e :
  Forall (fun x => has_char newline x = false) l ->
  has_char newline e = false ->
  str_split newline (text_of l +:+ e) = (l ++ [e])%list.
Proof.
  intros Hl He. induction Hl as [|x l Hx Hl IH]; simpl.
  - apply str_split_clean. exact He.
  - rewrite app_string_assoc. cbn [String.append]. rewrite (str_split_app _ _ _ Hx), IH.
    reflexivity.
Qed.

Lemma last_char_app s e : e <> EmptyString -> last_char (s +:+ e) = last_char e.
Proof.
  intros He. induction s as [|a s IH]; [reflexivity|].
  simpl. destruct (s +:+ e) eqn:E; [|exact IH].
  destruct s; [|discriminate]. simpl in E. contradiction.
Qed.

Lemma prefix_bracket s :
  String.prefix "[" s = true -> exists r, s = String "["%char r.
Proof.
  destruct s as [|a s]; [discriminate|]. intros H.
  apply String.prefix_correct in H. simpl in H. injection H as -> _. eauto.
Qed.

(** The lines of the file, read back, are the entries *)
Lemma audit_lines log :
  Forall (fun e => has_char newline e = false /\ has_char carriage_return e = false) log ->
  (forall e, head log = Some e -> String.prefix "[" e = true) ->
  (forall e, last log = Some e -> exists c, last_char e = Some c /\ visible c = true) ->
  log <> [] ->
  str_split newline (strip (universal_newlines (audit_file log))) = log.
Proof.
  intros Hall Hhead Hlast Hne.
  assert (Hcr : Forall (fun e => has_char carriage_return e = false) log).
  { eapply Forall_impl; [exact Hall|]. intros e [_ H]. exact H. }
  assert (Hlf : Forall (fun e => has_char newline e = false) log).
  { eapply Forall_impl; [exact Hall|]. intros e [H _]. exact H. }
  destruct (audit_file_clean log Hcr) as [-> Hc0].
  rewrite universal_newlines_clean by exact Hc0.
  destruct (exists_last Hne) as (init & e & ->).
  destruct (Hlast e (last_snoc _ _)) as (c & Hc & Hv).
  apply Forall_app in Hlf as [Hinit He]. apply Forall_cons in He as [He _].
  rewrite text_of_snoc. rewrite <- app_string_assoc.
  assert (Hstart : exists r, text_of init +:+ e = String "["%char r).
  { destruct init as [|x init].
    - destruct (prefix_bracket e (Hhead e eq_refl)) as (r & ->). simpl. eauto.
    - destruct (prefix_bracket x (Hhead x eq_refl)) as (r & ->). simpl. eauto. }
  destruct Hstart as (r & Hr).
  assert (Hlc : last_char (text_of init +:+ e) = Some c).
  { rewrite last_char_app; [exact Hc|]. intros ->. discriminate. }
  unfold strip. rewrite Hr. cbn [String.append]. rewrite lstrip_bracket.
  change (String "["%char (r +:+ nl)) with (String "["%char r +:+ nl).
  rewrite <- Hr. rewrite (rstrip_line _ c Hlc Hv).
  apply str_split_text; assumption.
Qed.

Lemma get_audit_log_tail n w :
  Forall (fun e => has_char newline e = false /\ has_char carriage_return e = false)
    (audit_log w) ->
  (forall e, head (audit_log w) = Some e -> String.prefix "[" e = true) ->
  (forall e, last (audit_log w) = Some e -> exists c, last_char e = Some c /\ visible c = true) ->
  get_audit_log n w = py_tail n (audit_log w).
Proof.
  intros Hall Hhead Hlast. unfold get_audit_log.
  destruct (audit_log w) as [|e log] eqn:E.
  - unfold py_tail. destruct (0 <? n)%Z; rewrite drop_nil; reflexivity.
  - rewrite <- E in *. rewrite (audit_lines _ Hall Hhead Hlast); [reflexivity|].
    rewrite E. discriminate.
Qed.

(** X15. [get_audit_log] gives back the entries that were appended, the
    last [limit] of them, when no entry contains a line break, the first
    starts with its bracket and the last ends with a visible ASCII
    character; a [limit] of 0 gives the whole log, and a log that is not
    longer than the limit is returned whole. *)
Theorem get_audit_log_reads_back limit w :
  Forall (fun e => has_char newline e = false /\ has_char carriage_return e = false)
    (audit_log w) ->
  (forall e, head (audit_log w) = Some e -> String.prefix "[" e = true) ->
  (forall e, last (audit_log w) = Some e -> exists c, last_char e = Some c /\ visible c = true) ->
  get_audit_log limit w = py_tail limit (audit_log w) /\
  get_audit_log 0 w = audit_log w /\
  ((Z.of_nat (length (audit_log w)) <= limit)%Z -> get_audit_log limit w = audit_log w).
Proof.
  intros Hall Hhead Hlast.
  assert (H : forall n, get_audit_log n w = py_tail n (audit_log w)).
  { intros n. apply get_audit_log_tail; assumption. }
  split; [apply H|]. split; [rewrite H; reflexivity|].
  intros Hlen. rewrite H. unfold py_tail.
  destruct (Z.ltb_spec 0 limit).
  - replace (length (audit_log w) - Z.to_nat limit)%nat with 0%nat by lia. reflexivity.
  - destruct (audit_log w); [|simpl in Hlen; lia]. apply drop_nil.
Qed.

Lemma get_audit_log_reads_back_witness :
  let w := mkWorld [] []
             [audit_entry "2024-05-01T10:00:00+00:00" "Created ticket 0a1b2c3d" "Fan failure";
              audit_entry "2024-05-01T10:00:05+00:00" "Approved ticket 0a1b2c3d" ""] [] 0 in
  get_audit_log 1 w = py_tail 1 (audit_log w) /\
  get_audit_log 0 w = audit_log w /\
  ((Z.of_nat (length (audit_log w)) <= 1)%Z -> get_audit_log 1 w = audit_log w).
Proof.
  intros w. apply (get_audit_log_reads_back 1 w).
  - repeat constructor.
  - intros e [= <-]. reflexivity.
  - intros e [= <-]. eexists. split; reflexivity.
Defined.

Lemma audit_entry_text timestamp action details :
  audit_entry timestamp action details
  = String "["%char (timestamp +:+ String "]"%char (String " "%char
                                                      (audit_message action details))).
Proof.
  unfold audit_entry, audit_message. destruct (String.eqb details ""); simpl.
  - reflexivity.
  - rewrite !app_string_assoc. reflexivity.
Qed.

Lemma split_once_app c a b :
  has_char c a = false -> split_once c (a +:+ String c b) = Some (a, b).
Proof.
  induction a as [|x a IH]; simpl; intros H.
  - rewrite Ascii.eqb_refl. reflexivity.
  - apply orb_false_iff in H as [Hx Ha]. rewrite Hx, (IH Ha). reflexivity.
Qed.

Lemma remove_char_clean c s : has_char c s = false -> remove_char c s = s.
Proof.
  induction s as [|a s IH]; simpl; [reflexivity|]. intros H.
  apply orb_false_iff in H as [Ha Hs]. rewrite Ha, (IH Hs). reflexivity.
Qed.

Lemma lstrip_space s : lstrip (String " "%char s) = lstrip s.
Proof. reflexivity. Qed.

Lemma strip_bracket r : strip (String "["%char r) <> EmptyString.
Proof.
  unfold strip. rewrite lstrip_bracket.
  change (rstrip (String "["%char r))
    with (if is_blank (String "["%char r) then EmptyString
          else String "["%char (rstrip r)).
  rewrite (is_blank_visible "["%char); [discriminate | reflexivity |].
  simpl. reflexivity.
Qed.

(** The line of an entry whose time has no bracket *)
Lemma log_line_entry strftime timestamp action details :
  has_char "["%char timestamp = false ->
  has_char "]"%char timestamp = false ->
  log_line strftime (audit_entry timestamp action details)
  = Some (time_str strftime timestamp, strip (audit_message action details)).
Proof.
  intros Ho Hc. rewrite audit_entry_text. unfold log_line.
  destruct (String.eqb_spec (strip (String "["%char
              (timestamp +:+ String "]"%char (String " "%char
                                               (audit_message action details))))) "")
    as [E | _]; [apply strip_bracket in E; contradiction|].
  change (String "["%char (timestamp +:+ String "]"%char
                             (String " "%char (audit_message action details))))
    with (String "["%char timestamp +:+ String "]"%char
            (String " "%char (audit_message action details))).
  rewrite split_once_app by (simpl; exact Hc).
  simpl remove_char. rewrite (remove_char_clean _ _ Ho).
  unfold strip. rewrite lstrip_space. reflexivity.
Qed.

Lemma omap_lines strftime (l : list (string * string * string)) :
  Forall (fun x => log_line strftime (entry_of x) = Some (shown_of strftime x)) l ->
  omap (log_line strftime) (entry_of <$> l) = shown_of strftime <$> l.
Proof.
  induction 1 as [|x l Hx Hl IH]; [reflexivity|].
  cbn [fmap list_fmap omap list_omap]. rewrite Hx. cbn. f_equal. exact IH.
Qed.

Lemma py_tail_fmap {A B} (f : A -> B) n l : py_tail n (f <$> l) = f <$> py_tail n l.
Proof.
  unfold py_tail. rewrite length_fmap. destruct (0 <? n)%Z; symmetry; apply fmap_drop.
Qed.

Lemma prefix_bracket_head r : String.prefix "[" (String "["%char r) = true.
Proof. destruct r; reflexivity. Qed.

Lemma has_char_cons c a s : has_char c (String a s) = Ascii.eqb a c || has_char c s.
Proof. reflexivity. Qed.

Lemma audit_entry_clean c timestamp action details :
  c <> "["%char -> c <> "]"%char -> c <> " "%char -> c <> "|"%char ->
  has_char c timestamp = false -> has_char c action = false ->
  has_char c details = false ->
  has_char c (audit_entry timestamp action details) = false.
Proof.
  intros H1 H2 H3 H4 Ht Ha Hd. rewrite audit_entry_text. unfold audit_message.
  assert (E1 : Ascii.eqb "["%char c = false) by (apply Ascii.eqb_neq; congruence).
  assert (E2 : Ascii.eqb "]"%char c = false) by (apply Ascii.eqb_neq; congruence).
  assert (E3 : Ascii.eqb " "%char c = false) by (apply Ascii.eqb_neq; congruence).
  assert (E4 : Ascii.eqb "|"%char c = false) by (apply Ascii.eqb_neq; congruence).
  destruct (String.eqb details "").
  - rewrite has_char_cons, has_char_app, !has_char_cons, E1, E2, E3, Ht, Ha. reflexivity.
  - rewrite has_char_cons, has_char_app, !has_char_cons, has_char_app.
    change (has_char c (" | " +:+ details))
      with (has_char c (String " "%char (String "|"%char (String " "%char details)))).
    rewrite !has_char_cons, E1, E2, E3, E4, Ht, Ha, Hd. reflexivity.
Qed.

(** X16. The "Activity Log" tab shows the last 200 entries of the audit log,
    the newest first, each with its time and its message: the time as
    [strftime] formats it, to the second, when the written time can be read
    as a time, and as it was written only when it cannot; the message is the
    action and the details joined as [append_audit_log] joins them and
    stripped of surrounding white space. This holds provided the times
    contain no bracket, no part contains a line break and the last entry
    ends with a visible ASCII character. *)
Theorem activity_log_shows_the_entries strftime w
    (entries : list (string * string * string)) :
  audit_log w = entry_of <$> entries ->
  Forall (fun x =>
            has_char "["%char x.1.1 = false /\ has_char "]"%char x.1.1 = false /\
            (forall c, c = newline \/ c = carriage_return ->
                       has_char c x.1.1 = false /\ has_char c x.1.2 = false /\
                       has_char c x.2 = false)) entries ->
  (forall x, last entries = Some x ->
             exists c, last_char (entry_of x) = Some c /\ visible c = true) ->
  activity_log strftime w = reverse (shown_of strftime <$> py_tail 200 entries) /\
  Forall (fun x => forall s, strftime x.1.1 = Some s ->
                             (s, strip (audit_message x.1.2 x.2)) ∈ activity_log strftime w)
         (py_tail 200 entries).
Proof.
  intros Hlog Hall Hlast.
  assert (E : activity_log strftime w
              = reverse (shown_of strftime <$> py_tail 200 entries)).
  { unfold activity_log.
    rewrite get_audit_log_tail.
    - rewrite Hlog, py_tail_fmap, <- fmap_reverse, <- fmap_reverse.
      apply omap_lines. apply Forall_reverse.
      unfold py_tail. destruct (0 <? 200)%Z; apply Forall_drop;
        (eapply Forall_impl; [exact Hall|]);
        intros [[ts a] d] (Ho & Hc & _); apply log_line_entry; assumption.
    - rewrite Hlog. apply Forall_fmap. eapply Forall_impl; [exact Hall|].
      intros [[ts a] d] (_ & _ & H). simpl in H. unfold entry_of. simpl.
      split.
      + destruct (H newline (or_introl eq_refl)) as (H1 & H2 & H3).
        apply audit_entry_clean; try assumption; discriminate.
      + destruct (H carriage_return (or_intror eq_refl)) as (H1 & H2 & H3).
        apply audit_entry_clean; try assumption; discriminate.
    - rewrite Hlog. intros e He. destruct entries as [|x entries]; [discriminate|].
      injection He as <-. unfold entry_of. rewrite audit_entry_text.
      apply prefix_bracket_head.
    - rewrite Hlog, fmap_last. intros e He.
      destruct (last entries) as [x|] eqn:Hx; [|discriminate].
      injection He as <-. apply Hlast. reflexivity. }
  split; [exact E|].
  apply Forall_forall. intros x Hx s Hs. rewrite E.
  apply elem_of_reverse. apply list_elem_of_fmap. exists x. split; [|exact Hx].
  unfold shown_of, time_str. rewrite Hs. reflexivity.
Qed.

Lemma activity_log_shows_the_entries_witness :
  let entries :=
    [("2024-05-01T10:00:00.250000+00:00", "Created ticket 0a1b2c3d", "Fan failure");
     ("2024-05-01T10:00:05+00:00", "Approved ticket 0a1b2c3d", "")] in
  let w := mkWorld [] [] (entry_of <$> entries) [] 0 in
  activity_log strftime_seconds w
  = [("2024-05-01 10:00:05", "Approved ticket 0a1b2c3d");
     ("2024-05-01 10:00:00", "Created ticket 0a1b2c3d | Fan failure")] /\
  Forall (fun x => forall s, strftime_seconds x.1.1 = Some s ->
                             (s, strip (audit_message x.1.2 x.2))
                             ∈ activity_log strftime_seconds w)
         (py_tail 200 entries).
Proof.
  intros entries w.
  apply (activity_log_shows_the_entries strftime_seconds w entries).
  - reflexivity.
  - constructor; [|constructor; [|constructor]];
      (split; [reflexivity | split; [reflexivity | intros c [-> | ->]; repeat split]]).
  - intros x [= <-]. eexists. split; reflexivity.
Defined.

(** ** The tickets that need attention *)

Lemma needs_attention_elem l : forall r,
  needs_attention l = Ok r ->
  forall t, t ∈ r ->
    t ∈ l /\
    (needs_priority_review t = true \/ dict_get "status" t = Some (JStr "AI Review")).
Proof.
  induction l as [|x l IH]; intros r; simpl.
  - intros [= <-] t Ht. inversion Ht.
  - destruct (needs_priority_review x) eqn:Hn; simpl.
    + destruct (needs_attention l) as [r'|]; [|discriminate]. simpl.
      intros [= <-] t Ht. apply elem_of_cons in Ht as [-> | Ht].
      * split; [left | left; exact Hn].
      * destruct (IH r' eq_refl t Ht) as [H1 H2]. split; [right; exact H1 | exact H2].
    + unfold item. destruct (dict_get "status" x) as [st|] eqn:Hst; [|discriminate]. simpl.
      destruct (needs_attention l) as [r'|]; [|discriminate]. simpl.
      destruct (py_eq st (JStr "AI Review")) eqn:Heq; intros [= <-] t Ht.
      * apply elem_of_cons in Ht as [-> | Ht].
        -- split; [left|]. right. rewrite Hst. f_equal.
           destruct st; try discriminate. simpl in Heq.
           apply String.eqb_eq in Heq. congruence.
        -- destruct (IH r' eq_refl t Ht) as [H1 H2]. split; [right; exact H1 | exact H2].
      * destruct (IH r' eq_refl t Ht) as [H1 H2]. split; [right; exact H1 | exact H2].
Qed.

(** X17. An approved ticket never needs attention again. Once every copy of
    the ticket is approved or further and its review flag reads false, as
    the Approve button leaves it, no later press, submission, import or
    refresh brings it back into "Tickets Needing Attention", as long as no
    new ticket draws the same identifier. *)
Theorem approved_never_needs_attention e username id evs w listed :
  (forall r, (readings w <= r)%nat -> uuid4 e r <> id) ->
  guarded (frozen_at 1 "needs_priority_review" (Some (JBool false))) id (readings w) w ->
  needs_attention (tickets (run_events e username evs w)) = Ok listed ->
  Forall (fun t => ~ has_id id t) listed.
Proof.
  intros Hfresh Hw Hl. apply Forall_forall. intros t Ht Hid.
  pose proof (frozen_at_run_events e username id 1 "needs_priority_review"
                (Some (JBool false)) evs w Hfresh) as H.
  destruct H as (H1 & _ & _); try discriminate; try (intros _; lia); [exact Hw|].
  destruct (needs_attention_elem _ _ Hl t Ht) as [Hin Hwhy].
  rewrite Forall_forall in H1. destruct (H1 t Hin Hid) as [Hr Hn].
  destruct Hwhy as [Hflag | Hst].
  - unfold needs_priority_review, get in Hflag. rewrite Hn in Hflag. discriminate.
  - destruct (Hr ltac:(lia)) as (status & m & Hs & Hm & Hle).
    rewrite Hst in Hs. injection Hs as <-. simpl in Hm. injection Hm as <-. lia.
Qed.

Lemma approved_never_needs_attention_witness :
  let t := dict_set "needs_priority_review" (JBool false)
             (Sample.stored "deadbeef" "Approved") in
  let w := Sample.session [t; Sample.stored "0a1b2c3d" "AI Review"] in
  let evs := [Press 0 false (Some Start); Refresh] in
  Forall (fun t' => ~ has_id "deadbeef" t') [Sample.stored "0a1b2c3d" "AI Review"].
Proof.
  intros t w evs.
  apply (approved_never_needs_attention Sample.mock "tech1" "deadbeef" evs w
           [Sample.stored "0a1b2c3d" "AI Review"]).
  - intros k _. simpl. destruct (Nat.even k); discriminate.
  - assert (Hl : Forall (fun t => has_id "deadbeef" t ->
                   frozen_at 1 "needs_priority_review" (Some (JBool false)) t)
                   [t; Sample.stored "0a1b2c3d" "AI Review"]).
    { constructor; [|constructor; [|constructor]].
      - intros _. split; [|reflexivity]. intros _. exists "Approved", 1%nat.
        split; [reflexivity | split; [reflexivity | lia]].
      - intros H. vm_compute in H. discriminate. }
    split; [exact Hl | split; [exact Hl | simpl; lia]].
  - vm_compute. reflexivity.
Defined.

(** X18. A new ticket that carries the review flag needs attention at
    once: right after the creation form has stored it, it is the first card
    of "Tickets Needing Attention", whenever that list can be drawn. *)
Theorem flagged_ticket_needs_attention e username summary description server rack
    user_priority w ticket w' listed :
  submit_form e username summary description server rack user_priority CreateTicket w
  = (Ok (Created ticket), w') ->
  needs_priority_review ticket = true ->
  attention_cards (tickets w') = Ok listed ->
  head listed = Some ticket.
Proof.
  intros Hrun Hflag Hcards.
  assert (Hfields : summary <> "" /\ description <> "" /\ server <> "" /\ rack <> "").
  { unfold submit_form in Hrun.
    destruct (String.eqb_spec summary "") as [-> | Hs]; [discriminate Hrun|].
    destruct (String.eqb_spec description "") as [-> | Hd]; [discriminate Hrun|].
    destruct (String.eqb_spec server "") as [-> | Hv]; [discriminate Hrun|].
    destruct (String.eqb_spec rack "") as [-> | Hr]; [discriminate Hrun|].
    auto. }
  destruct Hfields as (Hs & Hd & Hv & Hr).
  destruct (submit_form_run e username summary description server rack user_priority
              CreateTicket w Hs Hd Hv Hr) as (ticket0 & calls & _ & _ & _ & Hform).
  cbv zeta in Hform. rewrite Hform in Hrun. injection Hrun as -> <-.
  unfold attention_cards in Hcards. cbn [tickets needs_attention] in Hcards.
  rewrite Hflag in Hcards. cbn [rbind] in Hcards.
  destruct (needs_attention (tickets w)) as [r|]; [|discriminate].
  injection Hcards as <-. reflexivity.
Qed.

Lemma flagged_ticket_needs_attention_witness :
  exists ticket w' listed,
    submit_form (Sample.surroundings "sk-or-key"
                   (Some (quoted "{'calculated_priority': 'Critical'}")) None)
      "tech1" "Fan failure" "Fan 3 of srv-12 stopped" "srv-12" "R4" "High" CreateTicket
      Sample.empty_world = (Ok (Created ticket), w') /\
    attention_cards (tickets w') = Ok listed /\
    head listed = Some ticket.
Proof.
  eexists _, _, _. split; [vm_compute; reflexivity|]. split; [vm_compute; reflexivity|].
  eapply (flagged_ticket_needs_attention
            (Sample.surroundings "sk-or-key"
               (Some (quoted "{'calculated_priority': 'Critical'}")) None)
            "tech1" "Fan failure" "Fan 3 of srv-12 stopped" "srv-12" "R4" "High"
            Sample.empty_world);
    vm_compute; reflexivity.
Defined.

(** ** What cannot be synchronised *)

(** X19. A ticket whose stored score cannot be read as a number, be it a
    text that is no number, a list or [None], can never be synchronised:
    [create_jira_issue] gives no key whatever Jira would answer, and
    [sync_ticket_to_jira] reports failure and changes nothing. *)
Theorem unreadable_score_blocks_sync e i w t x :
  tickets w !! i = Some t ->
  displayed_score e t = Raise x ->
  create_jira_issue e t = JNull /\
  sync_ticket_to_jira e i w = (Ok false, w).
Proof.
  intros Hi Hs.
  assert (Hj : create_jira_issue e t = JNull).
  { unfold create_jira_issue. destruct (negb (jira_is_configured e)); [reflexivity|].
    unfold jira_issue_body. unfold displayed_score in Hs.
    destruct (jira_priority_of _); [|reflexivity]. cbn [rbind].
    destruct (attr_get "reasoning" _ _); [|reflexivity]. cbn [rbind].
    rewrite Hs. reflexivity. }
  split; [exact Hj|].
  apply (sync_ticket_to_jira_failure e i w t Hi). right. rewrite Hj. reflexivity.
Qed.

Lemma unreadable_score_blocks_sync_witness :
  let e := Sample.surroundings "" None (Some (JObj [("key", JStr "AXIS-7")])) in
  let t := dict_set "priority_score" (JStr "high") (Sample.stored "0a1b2c3d" "Approved") in
  create_jira_issue e t = JNull /\
  sync_ticket_to_jira e 0 (Sample.session [t]) = (Ok false, Sample.session [t]).
Proof.
  intros e t.
  apply (unreadable_score_blocks_sync e 0 (Sample.session [t]) t ValueError); reflexivity.
Defined.

Lemma without_id_raises ticket_id l t :
  t ∈ l -> dict_get "id" t = None -> exists x, without_id ticket_id l = Raise x.
Proof.
  intros Hin Hid. induction l as [|y l IH]; [inversion Hin|].
  simpl. unfold item. apply elem_of_cons in Hin as [<- | Hin].
  - rewrite Hid. simpl. eauto.
  - destruct (dict_get "id" y); simpl; [|eauto].
    destruct (IH Hin) as (x & ->). simpl. eauto.
Qed.

(** X20. Delete compares the identifier of every ticket of the session, so
    one stored ticket without an [id] blocks it: on whichever card Delete
    is pressed, the run raises and no ticket is removed or saved. *)
Theorem delete_needs_every_id e i w t :
  t ∈ tickets w ->
  dict_get "id" t = None ->
  exists x, display_ticket_card e i false (Some Delete) w = (Raise x, w).
Proof.
  intros Hin Hid.
  destruct (tickets w !! i) as [t'|] eqn:Hi.
  2: { unfold display_ticket_card, bind, ticket_at. rewrite Hi. eauto. }
  destruct (card_header t') as [[[ticket_id status] jira_key]|x] eqn:Hh.
  2: { unfold display_ticket_card, bind, ticket_at, lift. rewrite Hi, Hh. eauto. }
  destruct (card_body e t') as [body|x] eqn:Hb.
  2: { unfold display_ticket_card, bind, ticket_at, lift. rewrite Hi, Hh, Hb. eauto. }
  rewrite (display_ticket_card_run e i w t' _ _ _ _ (Some Delete) Hi Hh Hb).
  cbn [offered]. destruct (without_id_raises ticket_id _ _ Hin Hid) as (x & Hx).
  unfold press, bind, get_tickets, lift. rewrite Hx. eauto.
Qed.

Lemma delete_needs_every_id_witness :
  let w := Sample.session [Sample.stored "0a1b2c3d" "Draft"; [("summary", JStr "no id")]] in
  exists x, display_ticket_card Sample.mock 0 false (Some Delete) w = (Raise x, w).
Proof.
  intros w.
  apply (delete_needs_every_id Sample.mock 0 w [("summary", JStr "no id")]).
  - right. left.
  - reflexivity.
Defined.

(** ** The priority distribution of the dashboard *)

Lemma count_priority_sum p counts :
  sum_list (snd <$> count_priority p counts) = S (sum_list (snd <$> counts)).
Proof.
  induction counts as [|[k n] counts IH]; [reflexivity|].
  cbn [count_priority]. destruct (py_eq p k); rewrite !fmap_cons; cbn [sum_list snd].
  - unfold id. lia.
  - rewrite IH. unfold id. lia.
Qed.

Lemma count_priorities_sum l : forall counts r,
  count_priorities l counts = Ok r ->
  sum_list (snd <$> r) = (length l + sum_list (snd <$> counts))%nat.
Proof.
  induction l as [|t l IH]; intros counts r; simpl.
  - intros [= <-]. reflexivity.
  - destruct (hashable (ticket_priority t)); [|discriminate].
    intros H. rewrite (IH _ _ H), count_priority_sum. lia.
Qed.

Lemma count_priorities_ok l : forall counts,
  Forall (fun t => hashable (ticket_priority t) = true) l <->
  exists r, count_priorities l counts = Ok r.
Proof.
  induction l as [|t l IH]; intros counts; simpl.
  - split; [eauto | constructor].
  - split.
    + intros H. apply Forall_cons in H as [Ht Hl]. rewrite Ht. apply IH. exact Hl.
    + intros (r & H). destruct (hashable (ticket_priority t)) eqn:Ht; [|discriminate].
      constructor; [exact Ht|]. apply (IH (count_priority (ticket_priority t) counts)). eauto.
Qed.

Lemma count_priorities_raises l t : forall counts,
  t ∈ l -> hashable (ticket_priority t) = false ->
  count_priorities l counts = Raise TypeError.
Proof.
  induction l as [|y l IH]; intros counts Hin Ht; [inversion Hin|].
  simpl. apply elem_of_cons in Hin as [<- | Hin].
  - rewrite Ht. reflexivity.
  - destruct (hashable (ticket_priority y)); [|reflexivity]. apply IH; assumption.
Qed.

(** X21. The dashboard can draw "Priority Distribution" exactly when the
    priority of every ticket can be a dict key; its bars then add up to the
    number of tickets. One ticket whose priority is a list or a dict, as an
    advisory reply can make it, raises a [TypeError] there on every run. *)
Theorem priority_distribution_counts_every_ticket l :
  (Forall (fun t => hashable (ticket_priority t) = true) l <->
   exists counts, priority_distribution l = Ok counts) /\
  (forall counts, priority_distribution l = Ok counts ->
                  sum_list (snd <$> counts) = length l) /\
  (forall t, t ∈ l -> hashable (ticket_priority t) = false ->
             priority_distribution l = Raise TypeError).
Proof.
  unfold priority_distribution. split; [apply count_priorities_ok|]. split.
  - intros counts H. rewrite (count_priorities_sum _ _ _ H). simpl. lia.
  - intros t Hin Ht. eapply count_priorities_raises; eassumption.
Qed.
